(** * Happy Quotes: the data-access layer of [happy_models.py]

    A shallow embedding of the connection manager ([MySQLDB]), the entity
    records ([Quote], [Author], [Comment], [Metadata]) and the query
    dispatcher ([ModelQueries.run_model]), together with the string
    operations the presentation layer applies to their results, the start
    of [happyquotes_main.py] and the controller of [happy_tk_gui.py]. *)

From Stdlib Require Import ZArith List String Ascii Bool Arith Lia Permutation
  Sorted DecimalString.
Import ListNotations.
Open Scope string_scope.
Open Scope list_scope.

(** ** Python strings *)

Module PyStr.

(** [sep.join(l)] *)
Fixpoint join (sep : string) (l : list string) : string :=
  match l with
  | [] => ""
  | [x] => x
  | x :: l' => (x ++ sep ++ join sep l')%string
  end.

(** [s.startswith(p)] *)
Fixpoint startswith (p s : string) : bool :=
  match p, s with
  | EmptyString, _ => true
  | String a p', String b s' => Ascii.eqb a b && startswith p' s'
  | String _ _, EmptyString => false
  end.

(** [p in s] *)
Fixpoint contains (p s : string) : bool :=
  startswith p s ||
  match s with
  | EmptyString => false
  | String _ s' => contains p s'
  end.

(** The scan of [s.split(sep)]: [skip] counts the characters of a matched
    separator still to be passed over, [cur] is the piece being collected. *)
Fixpoint split_go (sep : string) (skip : nat) (cur : string) (s : string)
  : list string :=
  match s with
  | EmptyString => [cur]
  | String c s' =>
      match skip with
      | S k => split_go sep k cur s'
      | O =>
          if startswith sep s
          then cur :: split_go sep (String.length sep - 1) "" s'
          else split_go sep 0 (cur ++ String c "") s'
      end
  end.

(** [s.split(sep)]; Python raises [ValueError] on an empty separator, which
    is [None] here. *)
Definition split (sep s : string) : option (list string) :=
  match sep with
  | EmptyString => None
  | _ => Some (split_go sep 0 "" s)
  end.

(** The occurrences of [p] in [s] that start before position [n]. *)
Fixpoint occurs_before (n : nat) (p s : string) : bool :=
  match n with
  | O => false
  | S n' =>
      startswith p s ||
      match s with
      | EmptyString => false
      | String _ s' => occurs_before n' p s'
      end
  end.

End PyStr.

(** ** Values, dictionaries and exceptions *)

(** A Python scalar as it crosses the driver: a statement parameter or a
    column of a fetched row. *)
Inductive value :=
| VNone
| VInt (z : Z)
| VStr (s : string)
| VDate (year month day : Z).

(** A row of a [dictionary=True] cursor: column name to value, in column
    order. *)
Definition row := list (string * value).

Fixpoint get (k : string) (r : row) : option value :=
  match r with
  | [] => None
  | (k', v) :: r' => if String.eqb k k' then Some v else get k r'
  end.

Inductive exn :=
| Error (msg : string)          (* mysql.connector.Error and its subclasses *)
| TypeError (msg : string)
| IndexError (msg : string)
| KeyError (key : string)
| ValidationError (fields : list string)   (* pydantic: the fields refused *)
| OtherException (msg : string).

Inductive outcome (A : Type) :=
| Return (a : A)
| Raise (e : exn).
Arguments Return {A} a.
Arguments Raise {A} e.

(** What [run_model] and the administrative methods hand back. *)
Inductive pyobj :=
| PyNone
| PyBool (b : bool)
| PyRows (rs : list row)
| PyTuple (a b : pyobj).

(** Python truthiness of those objects. *)
Definition truthy (o : pyobj) : bool :=
  match o with
  | PyNone => false
  | PyBool b => b
  | PyRows rs => negb (Nat.eqb (List.length rs) 0)
  | PyTuple _ _ => true
  end.

(** ** A state-and-exception monad for the method bodies *)

Definition M (St A : Type) : Type := St -> outcome A * St.

Definition ret {St A} (a : A) : M St A := fun s => (Return a, s).

Definition raise {St A} (e : exn) : M St A := fun s => (Raise e, s).

Definition bind {St A B} (m : M St A) (k : A -> M St B) : M St B :=
  fun s =>
    match m s with
    | (Return a, s') => k a s'
    | (Raise e, s') => (Raise e, s')
    end.

(** [try: body  except Error as e: handler e] *)
Definition try_except_Error {St A} (body : M St A) (handler : string -> M St A)
  : M St A :=
  fun s =>
    match body s with
    | (Raise (Error msg), s') => handler msg s'
    | r => r
    end.

(** [try: body  finally: fin]; an exception of [fin] replaces the outcome of
    [body]. *)
Definition try_finally {St A} (body : M St A) (fin : M St unit) : M St A :=
  fun s =>
    let (r, s1) := body s in
    match fin s1 with
    | (Return _, s2) => (r, s2)
    | (Raise e, s2) => (Raise e, s2)
    end.

Declare Scope py_scope.
Delimit Scope py_scope with py.
Notation "x <- m ;; k" := (bind m (fun x => k))
  (at level 100, m at next level, right associativity) : py_scope.
Notation "m ;;; k" := (bind m (fun _ => k))
  (at level 100, right associativity) : py_scope.
Open Scope py_scope.

(** ** The SQL the program issues

    The statements of [happy_models.py] are fixed texts with [%s]
    placeholders.  They are kept as syntax: a [SELECT] with its projection,
    source, join, filter, grouping, ordering and limit, an [INSERT] with its
    column list, the catalogue commands of the provisioning methods (a
    [CREATE TABLE] reduced to the table's name, its auto-increment key and
    its columns), and [Text] for any other SQL supplied by a caller.  [Param i] is the [i]-th [%s] of the
    statement, bound to the [i]-th element of the parameter tuple. *)

Inductive operand :=
| Col (qualifier : option string) (name : string)
| Param (i : nat)
| Lit (z : Z).

Inductive cond :=
| Eq (a b : operand)
| Like (a b : operand).

Inductive item :=
| Plain (c : operand) (alias : option string)
| CountAll (alias : string)
| CountCol (c : operand) (alias : string).

Inductive ordering :=
| Rand
| Desc (name : string).

Record select := {
  sel_items : list item;
  sel_from : string * option string;
  sel_join : option (string * string * operand * operand);
  sel_where : option cond;
  sel_group : option operand;
  sel_order : option ordering;
  sel_limit : option operand
}.

Inductive statement :=
| Select (q : select)
| InsertInto (table : string) (columns : list string)
| ShowDatabasesLike (pattern : string)
| DropDatabase (name : string)
| CreateDatabase (name : string)
| ShowTablesLike (pattern : string)
| DropTable (name : string)
| CreateTable (name key : string) (columns : list string)
| Text (sql : string).

(** ** The driver ([mysql.connector])

    The calls the program makes on the connector.  Each one that talks to
    the server may raise; [close] and [is_connected] report no error (the
    connector swallows failures there), and closing a cursor only drops its
    result.  A cursor is a value: [execute] hands back the cursor it has
    filled. *)

Record config := {
  cfg_host : option string;
  cfg_port : option string;
  cfg_user : option string;
  cfg_password : option string;
  cfg_database : option string;
  cfg_autocommit : bool
}.

Class Driver := {
  server : Type;
  connection : Type;
  cursor : Type;
  connect : config -> server -> outcome connection * server;
  conn_cursor : connection -> bool -> server -> outcome cursor * server;
  execute : cursor -> statement -> list value -> server
            -> outcome cursor * server;
  commit : connection -> server -> outcome unit * server;
  rowcount : cursor -> Z;
  lastrowid : cursor -> option Z;
  fetchall : cursor -> server -> outcome (list row) * server;
  fetchone : cursor -> server -> outcome (option row) * server;
  cursor_close : cursor -> server -> server;
  is_connected : connection -> server -> bool;
  conn_close : connection -> server -> server
}.

Notation "' p <- m ;; k" := (bind m (fun x => let 'p := x in k))
  (at level 100, p pattern, m at next level, right associativity) : py_scope.

(** Conversions between Python objects. *)
Definition of_rows (r : option (list row)) : pyobj :=
  match r with
  | None => PyNone
  | Some rs => PyRows rs
  end.

Definition of_int (z : option Z) : value :=
  match z with
  | None => VNone
  | Some n => VInt n
  end.

Definition of_str (s : option string) : value :=
  match s with
  | None => VNone
  | Some t => VStr t
  end.

(** [if lastrowid:] holds for an integer other than zero. *)
Definition truthy_int (z : option Z) : bool :=
  match z with
  | None => false
  | Some n => negb (Z.eqb n 0)
  end.

(** [if result:] for what [fetchone] gives: a non-empty tuple. *)
Definition truthy_row (r : option row) : bool :=
  match r with
  | Some (_ :: _) => true
  | _ => false
  end.

(** ** The connection manager: class [MySQLDB] *)

Record MySQLDB := {
  host : option string;
  user : option string;
  password : option string;
  port : option string;
  database : string
}.

Section ConnectionManager.

Context {D : Driver}.

(** The world outside the process: the database server and what was
    printed. *)
Record world := {
  srv : server;
  stdout : list string
}.

(** The local variables [conn] and [cursor] of a method, which its [finally]
    block reads, next to the world. *)
Record frame := {
  conn : option connection;
  cur : option cursor;
  env : world
}.

Definition on_server (f : frame) (s : server) : frame :=
  {| conn := conn f; cur := cur f;
     env := {| srv := s; stdout := stdout (env f) |} |}.

(** A driver call that may raise. *)
Definition drv {A} (op : server -> outcome A * server) : M frame A :=
  fun f => let (r, s) := op (srv (env f)) in (r, on_server f s).

(** A driver call that cannot. *)
Definition drv_ (op : server -> server) : M frame unit :=
  fun f => (Return tt, on_server f (op (srv (env f)))).

Definition print (line : string) : M frame unit :=
  fun f => (Return tt,
            {| conn := conn f; cur := cur f;
               env := {| srv := srv (env f);
                         stdout := stdout (env f) ++ [line] |} |}).

Definition set_conn (c : connection) : M frame unit :=
  fun f => (Return tt, {| conn := Some c; cur := cur f; env := env f |}).

Definition set_cursor (k : cursor) : M frame unit :=
  fun f => (Return tt, {| conn := conn f; cur := Some k; env := env f |}).

(** A method call: [conn = None], [cursor = None], then the body. *)
Definition method {A} (body : M frame A) : M world A :=
  fun w =>
    let (r, f) := body {| conn := None; cur := None; env := w |} in
    (r, env f).

(** The [finally] block shared by [sql_execute], [sql_query],
    [create_database] and [create_table]. *)
Definition release : M frame unit :=
  fun f =>
    let f1 := match cur f with
              | Some k => on_server f (cursor_close k (srv (env f)))
              | None => f
              end in
    match conn f1 with
    | Some c =>
        if is_connected c (srv (env f1))
        then (drv_ (conn_close c) ;;; print "Database connection closed.") f1
        else (Return tt, f1)
    | None => (Return tt, f1)
    end.

Definition connect_to (self : MySQLDB) (db : option string) (auto : bool)
  : config :=
  {| cfg_host := host self; cfg_port := port self; cfg_user := user self;
     cfg_password := password self; cfg_database := db;
     cfg_autocommit := auto |}.

(** The [try] suite of [sql_execute]. *)
Definition sql_execute_try (self : MySQLDB) (sql : statement)
  (val : list value) : M frame (option Z * option Z) :=
  c <- drv (connect (connect_to self (Some (database self)) true)) ;;
  set_conn c ;;;
  k <- drv (conn_cursor c false) ;;
  set_cursor k ;;;
  k <- drv (execute k sql val) ;;
  set_cursor k ;;;
  drv (commit c) ;;;
  ret (Some (rowcount k), lastrowid k).

Definition sql_execute (self : MySQLDB) (sql : statement) (val : list value)
  : M world (option Z * option Z) :=
  method
    (try_finally
       (try_except_Error
          (sql_execute_try self sql val)
          (fun e => print ("Error: " ++ e) ;;; ret (None, None)))
       release).

(** The [try] suite of [sql_query]. *)
Definition sql_query_try (self : MySQLDB) (sql : statement)
  (val : list value) : M frame (option (list row)) :=
  c <- drv (connect (connect_to self (Some (database self)) false)) ;;
  set_conn c ;;;
  k <- drv (conn_cursor c true) ;;
  set_cursor k ;;;
  k <- drv (execute k sql val) ;;
  set_cursor k ;;;
  results <- drv (fetchall k) ;;
  ret (Some results).

Definition sql_query (self : MySQLDB) (sql : statement) (val : list value)
  : M world (option (list row)) :=
  method
    (try_finally
       (try_except_Error
          (sql_query_try self sql val)
          (fun e => print ("Error: " ++ e) ;;; ret None))
       release).

Definition create_database_try (self : MySQLDB) (overwrite : bool)
  : M frame pyobj :=
  c <- drv (connect (connect_to self None true)) ;;
  set_conn c ;;;
  k <- drv (conn_cursor c false) ;;
  set_cursor k ;;;
  k <- drv (execute k (ShowDatabasesLike (database self)) []) ;;
  set_cursor k ;;;
  result <- drv (fetchone k) ;;
  let create :=
    k <- drv (execute k (CreateDatabase (database self)) []) ;;
    set_cursor k ;;;
    print ("Database " ++ database self ++ " created.") ;;;
    ret (PyBool true) in
  if truthy_row result then
    if overwrite then
      k <- drv (execute k (DropDatabase (database self)) []) ;;
      set_cursor k ;;;
      print ("Database " ++ database self ++ " dropped.") ;;;
      create
    else
      print ("Database " ++ database self ++ " already exists.") ;;;
      ret (PyBool true)
  else create.

Definition create_database (self : MySQLDB) (overwrite : bool)
  : M world pyobj :=
  method
    (try_finally
       (try_except_Error
          (create_database_try self overwrite)
          (fun e => print ("Error: " ++ e) ;;; ret (PyBool false)))
       release).

Definition create_table_try (self : MySQLDB) (table_name : string)
  (sql_code : statement) (overwrite : bool) : M frame pyobj :=
  c <- drv (connect (connect_to self (Some (database self)) true)) ;;
  set_conn c ;;;
  k <- drv (conn_cursor c false) ;;
  set_cursor k ;;;
  k <- drv (execute k (ShowTablesLike table_name) []) ;;
  set_cursor k ;;;
  result <- drv (fetchone k) ;;
  let create :=
    k <- drv (execute k sql_code []) ;;
    set_cursor k ;;;
    print ("Table " ++ table_name ++ " created in database "
           ++ database self ++ ".") ;;;
    ret (PyBool true) in
  if truthy_row result then
    if overwrite then
      k <- drv (execute k (DropTable table_name) []) ;;
      set_cursor k ;;;
      print ("Table " ++ table_name ++ " dropped.") ;;;
      create
    else
      print ("Table " ++ table_name ++ " already exists in database "
             ++ database self ++ ".") ;;;
      ret PyNone
  else create.

Definition create_table (self : MySQLDB) (table_name : string)
  (sql_code : statement) (overwrite : bool) : M world pyobj :=
  method
    (try_finally
       (try_except_Error
          (create_table_try self table_name sql_code overwrite)
          (fun e => print ("Error: " ++ e) ;;; ret (PyBool false)))
       release).

End ConnectionManager.

(** ** The entity records (pydantic models)

    A keyword argument of a constructor is left out, is [None], or is a value
    of the annotated Python type; pydantic's coercion of values of other
    types is outside this model. *)

Inductive arg (T : Type) :=
| Omitted
| GivenNone
| Given (v : T).
Arguments Omitted {T}.
Arguments GivenNone {T}.
Arguments Given {T} v.

Record date := {
  year : Z;
  month : Z;
  day : Z
}.

Definition of_date (d : date) : value := VDate (year d) (month d) (day d).

(** [Optional[PositiveInt] = Field(None)] *)
Definition optional_positive (a : arg Z) : option (option Z) :=
  match a with
  | Omitted | GivenNone => Some None
  | Given z => if (0 <? z)%Z then Some (Some z) else None
  end.

(** [PositiveInt = Field(...)] *)
Definition required_positive (a : arg Z) : option Z :=
  match a with
  | Given z => if (0 <? z)%Z then Some z else None
  | _ => None
  end.

(** [str = Field(...)], [List[str] = Field(...)], [date = Field(...)] *)
Definition required {T} (a : arg T) : option T :=
  match a with
  | Given v => Some v
  | _ => None
  end.

(** [Optional[str] = Field(...)]: must be passed, may be [None]. *)
Definition required_nullable {T} (a : arg T) : option (option T) :=
  match a with
  | Omitted => None
  | GivenNone => Some None
  | Given v => Some (Some v)
  end.

Definition failed {T} (field : string) (r : option T) : list string :=
  match r with
  | None => [field]
  | Some _ => []
  end.

Record Quote := {
  id_quote : option Z;
  content : string;
  author_id : option Z;
  tags : list string
}.

Record Author := {
  id_author : option Z;
  name : string;
  birth_date : date;
  birth_city : option string;
  birth_state : option string;
  birth_country : option string;
  description : string
}.

Record Comment := {
  id_comment : option Z;
  quote_id : Z;
  title : string;
  details : string;
  user_email : string
}.

Record Metadata := {
  id_key : option Z;
  key_name : string;
  key_value : list string
}.

Definition Quote_init (id_quote : arg Z) (content : arg string)
  (author_id : arg Z) (tags : arg (list string)) : outcome Quote :=
  match optional_positive id_quote, required content,
        optional_positive author_id, required tags with
  | Some i, Some c, Some a, Some t =>
      Return {| id_quote := i; content := c; author_id := a; tags := t |}
  | i, c, a, t =>
      Raise (ValidationError
               (failed "id_quote" i ++ failed "content" c
                ++ failed "author_id" a ++ failed "tags" t))
  end.

Definition Author_init (id_author : arg Z) (name : arg string)
  (birth_date : arg date) (birth_city birth_state birth_country : arg string)
  (description : arg string) : outcome Author :=
  match optional_positive id_author, required name, required birth_date,
        required_nullable birth_city, required_nullable birth_state,
        required_nullable birth_country, required description with
  | Some i, Some n, Some d, Some c, Some s, Some k, Some t =>
      Return {| id_author := i; name := n; birth_date := d; birth_city := c;
                birth_state := s; birth_country := k; description := t |}
  | i, n, d, c, s, k, t =>
      Raise (ValidationError
               (failed "id_author" i ++ failed "name" n
                ++ failed "birth_date" d ++ failed "birth_city" c
                ++ failed "birth_state" s ++ failed "birth_country" k
                ++ failed "description" t))
  end.

Definition Metadata_init (id_key : arg Z) (key_name : arg string)
  (key_value : arg (list string)) : outcome Metadata :=
  match optional_positive id_key, required key_name, required key_value with
  | Some i, Some n, Some v =>
      Return {| id_key := i; key_name := n; key_value := v |}
  | i, n, v =>
      Raise (ValidationError
               (failed "id_key" i ++ failed "key_name" n
                ++ failed "key_value" v))
  end.

Section EmailStr.

(** The check behind [EmailStr] belongs to the [email-validator] package:
    it refuses an address or hands back its normalised form. *)
Variable validate_email : string -> option string.

Definition required_email (a : arg string) : option string :=
  match a with
  | Given s => validate_email s
  | _ => None
  end.

Definition Comment_init (id_comment quote_id : arg Z)
  (title details user_email : arg string) : outcome Comment :=
  match optional_positive id_comment, required_positive quote_id,
        required title, required details, required_email user_email with
  | Some i, Some q, Some t, Some d, Some e =>
      Return {| id_comment := i; quote_id := q; title := t; details := d;
                user_email := e |}
  | i, q, t, d, e =>
      Raise (ValidationError
               (failed "id_comment" i ++ failed "quote_id" q
                ++ failed "title" t ++ failed "details" d
                ++ failed "user_email" e))
  end.

End EmailStr.

(** ** The statements of the entity records and of the dispatcher *)

Module SQL.

Definition from (t : string) (alias : option string) : select :=
  {| sel_items := []; sel_from := (t, alias); sel_join := None;
     sel_where := None; sel_group := None; sel_order := None;
     sel_limit := None |}.

Definition columns (its : list item) (q : select) : select :=
  {| sel_items := its; sel_from := sel_from q; sel_join := sel_join q;
     sel_where := sel_where q; sel_group := sel_group q;
     sel_order := sel_order q; sel_limit := sel_limit q |}.

Definition join (t alias : string) (a b : operand) (q : select) : select :=
  {| sel_items := sel_items q; sel_from := sel_from q;
     sel_join := Some (t, alias, a, b);
     sel_where := sel_where q; sel_group := sel_group q;
     sel_order := sel_order q; sel_limit := sel_limit q |}.

Definition where_ (c : cond) (q : select) : select :=
  {| sel_items := sel_items q; sel_from := sel_from q; sel_join := sel_join q;
     sel_where := Some c; sel_group := sel_group q;
     sel_order := sel_order q; sel_limit := sel_limit q |}.

Definition group_by (c : operand) (q : select) : select :=
  {| sel_items := sel_items q; sel_from := sel_from q; sel_join := sel_join q;
     sel_where := sel_where q; sel_group := Some c;
     sel_order := sel_order q; sel_limit := sel_limit q |}.

Definition order_by (o : ordering) (q : select) : select :=
  {| sel_items := sel_items q; sel_from := sel_from q; sel_join := sel_join q;
     sel_where := sel_where q; sel_group := sel_group q;
     sel_order := Some o; sel_limit := sel_limit q |}.

Definition limit (n : operand) (q : select) : select :=
  {| sel_items := sel_items q; sel_from := sel_from q; sel_join := sel_join q;
     sel_where := sel_where q; sel_group := sel_group q;
     sel_order := sel_order q; sel_limit := Some n |}.

Definition q_ (c : string) : operand := Col (Some "q") c.
Definition a_ (c : string) : operand := Col (Some "a") c.
Definition col (c : string) : item := Plain (Col None c) None.

(** [SELECT q.content AS content, a.name AS author_name, q.tags AS tags
     FROM quote q JOIN author a ON q.author_id = a.id_author] *)
Definition quote_with_author : select :=
  columns [Plain (q_ "content") (Some "content");
           Plain (a_ "name") (Some "author_name");
           Plain (q_ "tags") (Some "tags")]
    (join "author" "a" (q_ "author_id") (a_ "id_author")
       (from "quote" (Some "q"))).

(** [SELECT q.content, a.name AS author_name, q.tags
     FROM quote q JOIN author a ON q.author_id = a.id_author
     ORDER BY RAND() LIMIT ...] *)
Definition random_quotes (n : operand) : select :=
  limit n
    (order_by Rand
       (columns [Plain (q_ "content") None;
                 Plain (a_ "name") (Some "author_name");
                 Plain (q_ "tags") None]
          (join "author" "a" (q_ "author_id") (a_ "id_author")
             (from "quote" (Some "q"))))).

(** [SELECT name, birth_date, birth_city, birth_state, birth_country,
     description FROM author] *)
Definition author_columns : select :=
  columns [col "name"; col "birth_date"; col "birth_city"; col "birth_state";
           col "birth_country"; col "description"]
    (from "author" None).

(** [SELECT title, details, user_email FROM comment WHERE quote_id = %s] *)
Definition comments_of_quote : select :=
  where_ (Eq (Col None "quote_id") (Param 0))
    (columns [col "title"; col "details"; col "user_email"]
       (from "comment" None)).

(** [SELECT COUNT( * ) AS total_quotes FROM quote] *)
Definition total_quotes : select :=
  columns [CountAll "total_quotes"] (from "quote" None).

(** [SELECT a.name, COUNT(q.id_quote) AS quote_count
     FROM author a JOIN quote q ON a.id_author = q.author_id
     GROUP BY a.name ORDER BY quote_count DESC LIMIT 5] *)
Definition top5_authors : select :=
  limit (Lit 5)
    (order_by (Desc "quote_count")
       (group_by (a_ "name")
          (columns [Plain (a_ "name") None;
                    CountCol (q_ "id_quote") "quote_count"]
             (join "quote" "q" (a_ "id_author") (q_ "author_id")
                (from "author" (Some "a")))))).

(** [SELECT id_quote FROM quote ORDER BY RAND() LIMIT 1] *)
Definition random_id : select :=
  limit (Lit 1) (order_by Rand (columns [col "id_quote"] (from "quote" None))).

End SQL.

Record ModelQueries := {
  db : MySQLDB
}.

Section Model.

Context {D : Driver}.

Definition Quote_db_save (self : Quote) (db : MySQLDB)
  : M world (Quote * (option Z * option Z)) :=
  let sql := InsertInto "quote" ["content"; "author_id"; "tags"] in
  let val := [VStr (content self); of_int (author_id self);
              VStr (PyStr.join ", " (tags self))] in
  '(rowcount, lastrowid) <- sql_execute db sql val ;;
  let self :=
    if truthy_int lastrowid
    then {| id_quote := lastrowid; content := content self;
            author_id := author_id self; tags := tags self |}
    else self in
  ret (self, (rowcount, lastrowid)).

Definition Quote_fetch_all (db : MySQLDB) : M world (option (list row)) :=
  sql_query db (Select SQL.quote_with_author) [].

Definition Quote_fetch_by_id (db : MySQLDB) (quote_id : value)
  : M world (option (list row)) :=
  let sql_query_ :=
    SQL.where_ (Eq (SQL.q_ "id_quote") (Param 0)) SQL.quote_with_author in
  let val := [quote_id] in
  sql_query db (Select sql_query_) val.

(** ["%" + tag + "%"] is defined on a string only. *)
Definition Quote_fetch_by_tag (db : MySQLDB) (tag : value)
  : M world (option (list row)) :=
  let sql_query_ :=
    SQL.where_ (Like (SQL.q_ "tags") (Param 0)) SQL.quote_with_author in
  match tag with
  | VStr t =>
      let val := [VStr ("%" ++ t ++ "%")] in
      sql_query db (Select sql_query_) val
  | _ => raise (TypeError "can only concatenate str to str")
  end.

Definition Quote_fetch_by_author (db : MySQLDB) (author_name : value)
  : M world (option (list row)) :=
  let sql_query_ :=
    SQL.where_ (Like (SQL.a_ "name") (Param 0)) SQL.quote_with_author in
  let val := [author_name] in
  sql_query db (Select sql_query_) val.

Definition Author_db_save (self : Author) (db : MySQLDB)
  : M world (Author * (option Z * option Z)) :=
  let sql := InsertInto "author"
               ["name"; "birth_date"; "birth_city"; "birth_state";
                "birth_country"; "description"] in
  let val := [VStr (name self); of_date (birth_date self);
              of_str (birth_city self); of_str (birth_state self);
              of_str (birth_country self); VStr (description self)] in
  '(rowcount, lastrowid) <- sql_execute db sql val ;;
  let self :=
    if truthy_int lastrowid
    then {| id_author := lastrowid; name := name self;
            birth_date := birth_date self; birth_city := birth_city self;
            birth_state := birth_state self;
            birth_country := birth_country self;
            description := description self |}
    else self in
  ret (self, (rowcount, lastrowid)).

Definition Author_fetch_all (db : MySQLDB) : M world (option (list row)) :=
  sql_query db (Select SQL.author_columns) [].

Definition Author_fetch_by_id (db : MySQLDB) (author_id : value)
  : M world (option (list row)) :=
  let sql_query_ :=
    SQL.where_ (Eq (Col None "id_author") (Param 0)) SQL.author_columns in
  let val := [author_id] in
  sql_query db (Select sql_query_) val.

Definition Author_fetch_by_name (db : MySQLDB) (author_name : value)
  : M world (option (list row)) :=
  let sql_query_ :=
    SQL.where_ (Like (Col None "name") (Param 0)) SQL.author_columns in
  let val := [author_name] in
  sql_query db (Select sql_query_) val.

Definition Comment_db_save (self : Comment) (db : MySQLDB)
  : M world (Comment * (option Z * option Z)) :=
  let sql := InsertInto "comment"
               ["quote_id"; "title"; "details"; "user_email"] in
  let val := [VInt (quote_id self); VStr (title self); VStr (details self);
              VStr (user_email self)] in
  '(rowcount, lastrowid) <- sql_execute db sql val ;;
  let self :=
    if truthy_int lastrowid
    then {| id_comment := lastrowid; quote_id := quote_id self;
            title := title self; details := details self;
            user_email := user_email self |}
    else self in
  ret (self, (rowcount, lastrowid)).

Definition Comment_fetch_by_quote_id (db : MySQLDB) (quote_id : value)
  : M world (option (list row)) :=
  let val := [quote_id] in
  sql_query db (Select SQL.comments_of_quote) val.

Definition Metadata_db_save (self : Metadata) (db : MySQLDB)
  : M world (Metadata * (option Z * option Z)) :=
  let sql := InsertInto "metadata" ["key_name"; "key_value"] in
  let val := [VStr (key_name self);
              VStr (PyStr.join ", " (key_value self))] in
  '(rowcount, lastrowid) <- sql_execute db sql val ;;
  let self :=
    if truthy_int lastrowid
    then {| id_key := lastrowid; key_name := key_name self;
            key_value := key_value self |}
    else self in
  ret (self, (rowcount, lastrowid)).

Definition Metadata_fetch_by_key_name (db : MySQLDB) (key_name : value)
  : M world (option (list row)) :=
  let sql_query_ :=
    SQL.where_ (Eq (Col None "key_name") (Param 0))
      (SQL.columns [SQL.col "key_value"] (SQL.from "metadata" None)) in
  let val := [key_name] in
  sql_query db (Select sql_query_) val.

(** [rand_id[0]['id_quote']] *)
Definition first_id_quote (rand_id : option (list row)) : M world value :=
  match rand_id with
  | None => raise (TypeError "'NoneType' object is not subscriptable")
  | Some [] => raise (IndexError "list index out of range")
  | Some (r :: _) =>
      match get "id_quote" r with
      | Some v => ret v
      | None => raise (KeyError "id_quote")
      end
  end.

(** The ten operation names of [run_model]. *)
Definition operations : list string :=
  ["quotes_by_author"; "x_quotes"; "random_quote"; "total_quotes";
   "quotes_by_tag"; "top5_authors"; "comments_random_quote"; "author_bio";
   "all_quotes"; "metadata"].

Definition rows (m : M world (option (list row))) : M world pyobj :=
  r <- m ;; ret (of_rows r).

Definition run_model (self : ModelQueries) (query_case : string)
  (value : value) : M world pyobj :=
  if query_case =? "quotes_by_author" then
    rows (Quote_fetch_by_author (db self) value)
  else if query_case =? "x_quotes" then
    rows (sql_query (db self) (Select (SQL.random_quotes (Param 0))) [value])
  else if query_case =? "random_quote" then
    rows (sql_query (db self) (Select (SQL.random_quotes (Lit 1))) [])
  else if query_case =? "total_quotes" then
    rows (sql_query (db self) (Select SQL.total_quotes) [])
  else if query_case =? "quotes_by_tag" then
    rows (Quote_fetch_by_tag (db self) value)
  else if query_case =? "top5_authors" then
    rows (sql_query (db self) (Select SQL.top5_authors) [])
  else if query_case =? "comments_random_quote" then
    rand_id <- sql_query (db self) (Select SQL.random_id) [] ;;
    value <- first_id_quote rand_id ;;
    random_quote <- Quote_fetch_by_id (db self) value ;;
    results <- sql_query (db self) (Select SQL.comments_of_quote) [value] ;;
    ret (PyTuple (of_rows results) (of_rows random_quote))
  else if query_case =? "author_bio" then
    rows (Author_fetch_by_name (db self) value)
  else if query_case =? "all_quotes" then
    rows (Quote_fetch_all (db self))
  else if query_case =? "metadata" then
    rows (Metadata_fetch_by_key_name (db self) value)
  else
    ret (PyRows []).

End Model.

(** ** The database server

    What the server answers to the statements above: tables of rows, [JOIN]
    as a nested loop, [LIKE] with its wildcards under the collation of the
    columns, [COUNT] with and without [GROUP BY], [ORDER BY RAND()] as a
    shuffle fed by the server's random draws, [LIMIT], and [INSERT] with an
    auto-increment key.  Column types, constraints and comparisons between
    values of different types are not modelled (such a comparison is false),
    nor is the range of the server's integers. *)

Module MySQL.

Inductive collation :=
| Binary
| CaseInsensitive.

Definition fold_case (c : ascii) : ascii :=
  let n := nat_of_ascii c in
  if ((65 <=? n) && (n <=? 90))%nat then ascii_of_nat (n + 32) else c.

Definition char_eqb (co : collation) (a b : ascii) : bool :=
  match co with
  | Binary => Ascii.eqb a b
  | CaseInsensitive => Ascii.eqb (fold_case a) (fold_case b)
  end.

(** Equality of two texts under a collation. *)
Fixpoint text_eqb (co : collation) (a b : string) : bool :=
  match a, b with
  | EmptyString, EmptyString => true
  | String x a', String y b' => char_eqb co x y && text_eqb co a' b'
  | _, _ => false
  end.

(** [p] is the beginning of [s] under a collation. *)
Fixpoint text_prefix (co : collation) (p s : string) : bool :=
  match p, s with
  | EmptyString, _ => true
  | String x p', String y s' => char_eqb co x y && text_prefix co p' s'
  | String _ _, EmptyString => false
  end.

(** [p] occurs in [s] under a collation. *)
Fixpoint text_contains (co : collation) (p s : string) : bool :=
  text_prefix co p s ||
  match s with
  | EmptyString => false
  | String _ s' => text_contains co p s'
  end.

(** A [LIKE] pattern: [%] any run of characters, [_] any one character, a
    backslash takes the next character literally. *)
Inductive token :=
| AnyRun
| AnyOne
| Exactly (c : ascii).

Fixpoint tokens (p : string) : list token :=
  match p with
  | EmptyString => []
  | String c p' =>
      if Ascii.eqb c "%" then AnyRun :: tokens p'
      else if Ascii.eqb c "_" then AnyOne :: tokens p'
      else if Ascii.eqb c "\" then
        match p' with
        | String d p'' => Exactly d :: tokens p''
        | EmptyString => [Exactly c]
        end
      else Exactly c :: tokens p'
  end.

Fixpoint like_tokens (co : collation) (p : list token) : string -> bool :=
  match p with
  | [] => fun s => match s with EmptyString => true | _ => false end
  | AnyRun :: p' =>
      fix run (s : string) : bool :=
        like_tokens co p' s ||
        match s with
        | EmptyString => false
        | String _ s' => run s'
        end
  | AnyOne :: p' =>
      fun s => match s with
               | String _ s' => like_tokens co p' s'
               | EmptyString => false
               end
  | Exactly c :: p' =>
      fun s => match s with
               | String d s' => char_eqb co c d && like_tokens co p' s'
               | EmptyString => false
               end
  end.

(** [s LIKE p] *)
Definition like (co : collation) (p s : string) : bool :=
  like_tokens co (tokens p) s.

(** A pattern none of whose characters is special to [LIKE]. *)
Fixpoint plain (p : string) : bool :=
  match p with
  | EmptyString => true
  | String c p' =>
      negb (Ascii.eqb c "%") && negb (Ascii.eqb c "_")
      && negb (Ascii.eqb c "\") && plain p'
  end.

(** SQL [a = b]: never true of [NULL]. *)
Definition value_eqb (co : collation) (a b : value) : bool :=
  match a, b with
  | VInt x, VInt y => Z.eqb x y
  | VStr x, VStr y => text_eqb co x y
  | VDate y1 m1 d1, VDate y2 m2 d2 =>
      Z.eqb y1 y2 && Z.eqb m1 m2 && Z.eqb d1 d2
  | _, _ => false
  end.

Definition value_like (co : collation) (a p : value) : bool :=
  match a, p with
  | VStr s, VStr pat => like co pat s
  | _, _ => false
  end.

Definition value_ltb (a b : value) : bool :=
  match a, b with
  | VInt x, VInt y => Z.ltb x y
  | _, _ => false
  end.

Definition is_null (v : value) : bool :=
  match v with
  | VNone => true
  | _ => false
  end.

(** *** Tables *)

Record table := {
  t_name : string;
  t_key : string;                (* the auto-increment primary key *)
  t_cols : list string;          (* every column, the key included *)
  t_rows : list row;
  t_auto : positive              (* the next key to hand out *)
}.

Record schema := {
  s_name : string;
  s_tables : list table
}.

Record mysqld := {
  reachable : bool;              (* host up, credentials accepted *)
  coll : collation;
  schemas : list schema;
  draws : list nat               (* what RAND() will draw *)
}.

Fixpoint find_table (n : string) (ts : list table) : option table :=
  match ts with
  | [] => None
  | t :: ts' => if String.eqb n (t_name t) then Some t else find_table n ts'
  end.

Fixpoint find_schema (n : string) (ss : list schema) : option schema :=
  match ss with
  | [] => None
  | d :: ss' => if String.eqb n (s_name d) then Some d else find_schema n ss'
  end.

Fixpoint put_table (t : table) (ts : list table) : list table :=
  match ts with
  | [] => [t]
  | u :: ts' =>
      if String.eqb (t_name t) (t_name u) then t :: ts'
      else u :: put_table t ts'
  end.

Fixpoint put_schema (d : schema) (ss : list schema) : list schema :=
  match ss with
  | [] => [d]
  | e :: ss' =>
      if String.eqb (s_name d) (s_name e) then d :: ss'
      else e :: put_schema d ss'
  end.

Definition with_schemas (s : mysqld) (ss : list schema) : mysqld :=
  {| reachable := reachable s; coll := coll s; schemas := ss;
     draws := draws s |}.

Definition with_draws (s : mysqld) (ds : list nat) : mysqld :=
  {| reachable := reachable s; coll := coll s; schemas := schemas s;
     draws := ds |}.

(** *** Rows in the middle of a [SELECT]: every column under the name of
    its table, or of its alias *)

Definition qrow := list (string * string * value).

Definition qualify (q : string) (r : row) : qrow :=
  map (fun cv => (q, fst cv, snd cv)) r.

Definition scan (q : string) (t : table) : list qrow :=
  map (qualify q) (t_rows t).

Fixpoint lookup (q : option string) (n : string) (r : qrow) : value :=
  match r with
  | [] => VNone
  | (q', n', v) :: r' =>
      if String.eqb n n'
         && match q with Some x => String.eqb x q' | None => true end
      then v
      else lookup q n r'
  end.

Definition operand_value (params : list value) (r : qrow) (o : operand)
  : value :=
  match o with
  | Col q n => lookup q n r
  | Param i => nth i params VNone
  | Lit z => VInt z
  end.

Definition holds (co : collation) (params : list value) (c : cond) (r : qrow)
  : bool :=
  match c with
  | Eq a b =>
      value_eqb co (operand_value params r a) (operand_value params r b)
  | Like a b =>
      value_like co (operand_value params r a) (operand_value params r b)
  end.

(** *** What a statement may mention *)

Definition scope := list (string * string).

Definition scope_of (q : string) (t : table) : scope :=
  map (fun c => (q, c)) (t_cols t).

Definition known (sc : scope) (nparams : nat) (o : operand) : bool :=
  match o with
  | Col q n =>
      existsb (fun qc =>
                 String.eqb n (snd qc)
                 && match q with
                    | Some x => String.eqb x (fst qc)
                    | None => true
                    end) sc
  | Param i => (i <? nparams)%nat
  | Lit _ => true
  end.

Definition cond_known (sc : scope) (nparams : nat) (c : cond) : bool :=
  match c with
  | Eq a b | Like a b => known sc nparams a && known sc nparams b
  end.

Definition item_known (sc : scope) (nparams : nat) (i : item) : bool :=
  match i with
  | Plain c _ | CountCol c _ => known sc nparams c
  | CountAll _ => true
  end.

Definition opt_all {A} (f : A -> bool) (o : option A) : bool :=
  match o with
  | None => true
  | Some a => f a
  end.

(** The [%s] of a statement. *)
Definition operand_params (o : operand) : nat :=
  match o with
  | Param _ => 1
  | _ => 0
  end.

Definition cond_params (c : cond) : nat :=
  match c with
  | Eq a b | Like a b => operand_params a + operand_params b
  end.

Definition item_params (i : item) : nat :=
  match i with
  | Plain c _ | CountCol c _ => operand_params c
  | CountAll _ => 0
  end.

Definition opt_sum {A} (f : A -> nat) (o : option A) : nat :=
  match o with
  | None => 0
  | Some a => f a
  end.

Definition select_params (q : select) : nat :=
  list_sum (map item_params (sel_items q))
  + opt_sum (fun j => operand_params (snd (fst j)) + operand_params (snd j))
      (sel_join q)
  + opt_sum cond_params (sel_where q)
  + opt_sum operand_params (sel_group q)
  + opt_sum operand_params (sel_limit q).

(** *** [SELECT] *)

(** [FROM t alias] and [JOIN t2 alias2 ON x = y]: the columns in reach and
    the rows, the join as a nested loop. *)
Definition from_rows (co : collation) (params : list value) (d : schema)
  (q : select) : option (scope * list qrow) :=
  let t := fst (sel_from q) in
  let qn := match snd (sel_from q) with Some a => a | None => t end in
  match find_table t (s_tables d) with
  | None => None
  | Some tb =>
      match sel_join q with
      | None => Some (scope_of qn tb, scan qn tb)
      | Some (t2, q2, x, y) =>
          match find_table t2 (s_tables d) with
          | None => None
          | Some tb2 =>
              Some (scope_of qn tb ++ scope_of q2 tb2,
                    flat_map
                      (fun l =>
                         map (fun r => l ++ r)
                           (filter (fun r => holds co params (Eq x y) (l ++ r))
                              (scan q2 tb2)))
                      (scan qn tb))
          end
      end
  end.

Definition is_count (i : item) : bool :=
  match i with
  | Plain _ _ => false
  | _ => true
  end.

Definition column_name (c : operand) (alias : option string) : string :=
  match alias, c with
  | Some a, _ => a
  | None, Col _ n => n
  | None, _ => "?"
  end.

(** One output row per input row. *)
Definition project (params : list value) (its : list item) (r : qrow) : row :=
  map (fun i =>
         match i with
         | Plain c alias => (column_name c alias, operand_value params r c)
         | CountAll alias => (alias, VInt 1)
         | CountCol c alias =>
             (alias,
              VInt (if is_null (operand_value params r c) then 0 else 1))
         end) its.

(** One output row per group. *)
Definition summarise (params : list value) (its : list item) (g : list qrow)
  : row :=
  map (fun i =>
         match i with
         | Plain c alias =>
             (column_name c alias,
              match g with
              | r :: _ => operand_value params r c
              | [] => VNone
              end)
         | CountAll alias => (alias, VInt (Z.of_nat (List.length g)))
         | CountCol c alias =>
             (alias,
              VInt (Z.of_nat
                      (List.length
                         (filter
                            (fun r =>
                               negb (is_null (operand_value params r c)))
                            g))))
         end) its.

Fixpoint add_group (same : qrow -> qrow -> bool) (r : qrow)
  (gs : list (list qrow)) : list (list qrow) :=
  match gs with
  | [] => [[r]]
  | g :: gs' =>
      match g with
      | r0 :: _ =>
          if same r0 r then (g ++ [r]) :: gs' else g :: add_group same r gs'
      | [] => g :: add_group same r gs'
      end
  end.

(** [GROUP BY]: groups in the order of their first row; [NULL] keys fall in
    one group. *)
Definition group_rows (co : collation) (params : list value) (key : operand)
  (rs : list qrow) : list (list qrow) :=
  let same a b :=
    let x := operand_value params a key in
    let y := operand_value params b key in
    value_eqb co x y || (is_null x && is_null y) in
  fold_left (fun gs r => add_group same r gs) rs [].

Fixpoint insert_desc (k : row -> value) (x : row) (l : list row) : list row :=
  match l with
  | [] => [x]
  | y :: l' =>
      if value_ltb (k y) (k x) then x :: l else y :: insert_desc k x l'
  end.

(** [ORDER BY name DESC]; rows that tie keep their order, which is a choice
    of this model. *)
Definition sort_desc (n : string) (l : list row) : list row :=
  let k r := match get n r with Some v => v | None => VNone end in
  fold_left (fun acc x => insert_desc k x acc) l [].

Fixpoint extract {A} (i : nat) (l : list A) {struct l}
  : option (A * list A) :=
  match l with
  | [] => None
  | x :: l' =>
      match i with
      | O => Some (x, l')
      | S j =>
          match extract j l' with
          | Some (y, r) => Some (y, x :: r)
          | None => None
          end
      end
  end.

(** [ORDER BY RAND()]: each draw picks the next row among those left. *)
Fixpoint shuffle_n {A} (n : nat) (ds : list nat) (l : list A) : list A :=
  match n with
  | O => l
  | S n' =>
      match extract (hd O ds mod List.length l) l with
      | Some (x, rest) => x :: shuffle_n n' (tl ds) rest
      | None => l
      end
  end.

Definition shuffle {A} (ds : list nat) (l : list A) : list A :=
  shuffle_n (List.length l) ds l.

(** [LIMIT n] takes a non-negative integer. *)
Definition limit_count (params : list value) (o : operand) : option nat :=
  match operand_value params [] o with
  | VInt n => if (0 <=? n)%Z then Some (Z.to_nat n) else None
  | _ => None
  end.

Definition select_known (sc : scope) (nparams : nat) (q : select) : bool :=
  forallb (item_known sc nparams) (sel_items q)
  && opt_all (fun j => known sc nparams (snd (fst j))
                       && known sc nparams (snd j)) (sel_join q)
  && opt_all (cond_known sc nparams) (sel_where q)
  && opt_all (known sc nparams) (sel_group q)
  && opt_all (known [] nparams) (sel_limit q).

(** The rows of a [SELECT] and the draws left, or [None] when the server
    refuses the statement. *)
Definition select_rows (co : collation) (ds : list nat) (d : schema)
  (q : select) (params : list value) : option (list row * list nat) :=
  match from_rows co params d q with
  | None => None
  | Some (sc, rs) =>
      if negb (select_known sc (List.length params) q
               && Nat.eqb (List.length params) (select_params q))
      then None
      else
        let kept := match sel_where q with
                    | Some c => filter (holds co params c) rs
                    | None => rs
                    end in
        let out :=
          if existsb is_count (sel_items q) then
            match sel_group q with
            | Some key =>
                map (summarise params (sel_items q))
                  (group_rows co params key kept)
            | None => [summarise params (sel_items q) kept]
            end
          else map (project params (sel_items q)) kept in
        let sorted :=
          match sel_order q with
          | None => (out, ds)
          | Some Rand => (shuffle ds out, skipn (List.length out) ds)
          | Some (Desc n) => (sort_desc n out, ds)
          end in
        match sel_limit q with
        | None => Some sorted
        | Some o =>
            match limit_count params o with
            | Some n => Some (firstn n (fst sorted), snd sorted)
            | None => None
            end
        end
  end.

(** *** [INSERT] and the catalogue *)

Definition new_row (t : table) (cols : list string) (params : list value)
  : row :=
  map (fun c =>
         (c,
          if String.eqb c (t_key t) then VInt (Zpos (t_auto t))
          else match get c (combine cols params) with
               | Some v => v
               | None => VNone
               end)) (t_cols t).

Definition insert_into (t : table) (cols : list string) (params : list value)
  : table :=
  {| t_name := t_name t; t_key := t_key t; t_cols := t_cols t;
     t_rows := t_rows t ++ [new_row t cols params];
     t_auto := Pos.succ (t_auto t) |}.

Definition mem (n : string) (l : list string) : bool :=
  existsb (String.eqb n) l.

(** What the server sends back for one statement. *)
Record answer := {
  a_rows : option (list row);    (* the result set of a query *)
  a_rowcount : Z;
  a_lastrowid : option Z
}.

Definition result_set (rs : list row) : answer :=
  {| a_rows := Some rs; a_rowcount := (-1)%Z; a_lastrowid := None |}.

Definition done (n : Z) (key : Z) : answer :=
  {| a_rows := None; a_rowcount := n; a_lastrowid := Some key |}.

Definition in_schema (s : mysqld) (selected : option string)
  : option schema :=
  match selected with
  | Some n => find_schema n (schemas s)
  | None => None
  end.

Definition with_tables (d : schema) (ts : list table) : schema :=
  {| s_name := s_name d; s_tables := ts |}.

(** One statement with its parameters on the selected database; [None] when
    the server refuses it. *)
Definition run (s : mysqld) (selected : option string) (st : statement)
  (params : list value) : option (answer * mysqld) :=
  match st with
  | Select q =>
      match in_schema s selected with
      | None => None
      | Some d =>
          match select_rows (coll s) (draws s) d q params with
          | Some (rs, ds) => Some (result_set rs, with_draws s ds)
          | None => None
          end
      end
  | InsertInto tn cols =>
      match in_schema s selected with
      | None => None
      | Some d =>
          match find_table tn (s_tables d) with
          | None => None
          | Some t =>
              if forallb (fun c => mem c (t_cols t)) cols
                 && Nat.eqb (List.length cols) (List.length params)
              then
                Some (done 1 (Zpos (t_auto t)),
                      with_schemas s
                        (put_schema
                           (with_tables d
                              (put_table (insert_into t cols params)
                                 (s_tables d)))
                           (schemas s)))
              else None
          end
      end
  | ShowDatabasesLike pat =>
      match params with
      | [] =>
          Some (result_set
                  (map (fun d => [("Database", VStr (s_name d))])
                     (filter (fun d => like (coll s) pat (s_name d))
                        (schemas s))),
                s)
      | _ => None
      end
  | DropDatabase n =>
      match params, find_schema n (schemas s) with
      | [], Some _ =>
          Some (done 0 0,
                with_schemas s
                  (filter (fun d => negb (String.eqb n (s_name d)))
                     (schemas s)))
      | _, _ => None
      end
  | CreateDatabase n =>
      match params, find_schema n (schemas s) with
      | [], None =>
          Some (done 1 0,
                with_schemas s
                  (schemas s ++ [{| s_name := n; s_tables := [] |}]))
      | _, _ => None
      end
  | ShowTablesLike pat =>
      match params, in_schema s selected with
      | [], Some d =>
          Some (result_set
                  (map (fun t => [("Tables", VStr (t_name t))])
                     (filter (fun t => like (coll s) pat (t_name t))
                        (s_tables d))),
                s)
      | _, _ => None
      end
  | DropTable n =>
      match params, in_schema s selected with
      | [], Some d =>
          match find_table n (s_tables d) with
          | Some _ =>
              Some (done 0 0,
                    with_schemas s
                      (put_schema
                         (with_tables d
                            (filter (fun t => negb (String.eqb n (t_name t)))
                               (s_tables d)))
                         (schemas s)))
          | None => None
          end
      | _, _ => None
      end
  | CreateTable n key cols =>
      match params, in_schema s selected with
      | [], Some d =>
          match find_table n (s_tables d) with
          | None =>
              if mem key cols then
                Some (done 0 0,
                      with_schemas s
                        (put_schema
                           (with_tables d
                              (s_tables d
                               ++ [{| t_name := n; t_key := key;
                                      t_cols := cols; t_rows := [];
                                      t_auto := 1%positive |}]))
                           (schemas s)))
              else None
          | Some _ => None
          end
      | _, _ => None
      end
  | Text _ => None
  end.

(** *** The connector on top of the server *)

Record connection_ := {
  c_database : option string
}.

Record cursor_ := {
  k_database : option string;
  k_answer : option answer
}.

Definition connect_ (cfg : config) (s : mysqld)
  : outcome connection_ * mysqld :=
  if reachable s then
    match cfg_database cfg with
    | None => (Return {| c_database := None |}, s)
    | Some n =>
        match find_schema n (schemas s) with
        | Some _ => (Return {| c_database := Some n |}, s)
        | None => (Raise (Error ("Unknown database '" ++ n ++ "'")), s)
        end
    end
  else (Raise (Error "Can't connect to MySQL server"), s).

Definition execute_ (k : cursor_) (st : statement) (params : list value)
  (s : mysqld) : outcome cursor_ * mysqld :=
  if reachable s then
    match run s (k_database k) st params with
    | Some (a, s') =>
        (Return {| k_database := k_database k; k_answer := Some a |}, s')
    | None => (Raise (Error "The server refused the statement"), s)
    end
  else (Raise (Error "Lost connection to MySQL server"), s).

Definition result_of (k : cursor_) : option (list row) :=
  match k_answer k with
  | Some a => a_rows a
  | None => None
  end.

#[global] Instance driver : Driver := {|
  server := mysqld;
  connection := connection_;
  cursor := cursor_;
  connect := connect_;
  conn_cursor := fun c _ s =>
    (Return {| k_database := c_database c; k_answer := None |}, s);
  execute := execute_;
  commit := fun _ s => (Return tt, s);
  rowcount := fun k =>
    match k_answer k with Some a => a_rowcount a | None => (-1)%Z end;
  lastrowid := fun k =>
    match k_answer k with Some a => a_lastrowid a | None => None end;
  fetchall := fun k s =>
    match result_of k with
    | Some rs => (Return rs, s)
    | None => (Raise (Error "No result set to fetch from"), s)
    end;
  fetchone := fun k s =>
    match result_of k with
    | Some rs => (Return (hd_error rs), s)
    | None => (Raise (Error "No result set to fetch from"), s)
    end;
  cursor_close := fun _ s => s;
  is_connected := fun _ s => reachable s;
  conn_close := fun _ s => s
|}.

(** The connector looks at its arguments before it talks to the server: a
    port that is [None] is no number, and [connect] raises a [TypeError],
    which is none of the connector's own errors.  [driver] stands for the
    connector on a manager whose port is set; [checking] adds that check. *)
Definition checking : Driver := {|
  server := mysqld;
  connection := connection_;
  cursor := cursor_;
  connect := fun cfg s =>
    match cfg_port cfg with
    | None =>
        (Raise (TypeError "int() argument must be a string, a bytes-like object or a real number, not 'NoneType'"),
         s)
    | Some _ => connect_ cfg s
    end;
  conn_cursor := fun c _ s =>
    (Return {| k_database := c_database c; k_answer := None |}, s);
  execute := execute_;
  commit := fun _ s => (Return tt, s);
  rowcount := fun k =>
    match k_answer k with Some a => a_rowcount a | None => (-1)%Z end;
  lastrowid := fun k =>
    match k_answer k with Some a => a_lastrowid a | None => None end;
  fetchall := fun k s =>
    match result_of k with
    | Some rs => (Return rs, s)
    | None => (Raise (Error "No result set to fetch from"), s)
    end;
  fetchone := fun k s =>
    match result_of k with
    | Some rs => (Return (hd_error rs), s)
    | None => (Raise (Error "No result set to fetch from"), s)
    end;
  cursor_close := fun _ s => s;
  is_connected := fun _ s => reachable s;
  conn_close := fun _ s => s
|}.

End MySQL.

(** ** Vocabulary of the statements below *)

Module Spec.

Import MySQL.

(** The value of a column of a stored row, [NULL] when the row lacks it. *)
Definition field (n : string) (r : row) : value :=
  match get n r with
  | Some v => v
  | None => VNone
  end.

(** The quotes together with their author: every pair of a row of [quote]
    and a row of [author] whose [author_id] and [id_author] are equal. *)
Definition pairs (co : collation) (tq ta : table) : list (row * row) :=
  flat_map
    (fun q =>
       map (pair q)
         (filter
            (fun a =>
               value_eqb co (field "author_id" q) (field "id_author" a))
            (t_rows ta)))
    (t_rows tq).

(** A quote and its author as one row of the join [quote q JOIN author a]. *)
Definition glue (qa : row * row) : qrow :=
  qualify "q" (fst qa) ++ qualify "a" (snd qa).

(** The joined quote+author projection: [content], [author_name], [tags]. *)
Definition quote_row (qa : row * row) : row :=
  [("content", field "content" (fst qa));
   ("author_name", field "name" (snd qa));
   ("tags", field "tags" (fst qa))].

(** The author of the pair is called [n], as a whole, under the collation. *)
Definition named (co : collation) (n : string) (qa : row * row) : bool :=
  match field "name" (snd qa) with
  | VStr a => text_eqb co n a
  | _ => false
  end.

(** The author's name of the pair contains [n] under the collation. *)
Definition name_contains (co : collation) (n : string) (qa : row * row)
  : bool :=
  match field "name" (snd qa) with
  | VStr a => text_contains co n a
  | _ => false
  end.

(** The serialized tags of the quote of the pair contain [t] under the
    collation. *)
Definition tagged (co : collation) (t : string) (qa : row * row) : bool :=
  match field "tags" (fst qa) with
  | VStr ts => text_contains co t ts
  | _ => false
  end.

(** The server is reachable and its database [dbname] holds the tables
    [quote] and [author] with the columns the statements mention. *)
Definition serves (s : mysqld) (dbname : string) (tq ta : table) : Prop :=
  reachable s = true /\
  exists d,
    find_schema dbname (schemas s) = Some d /\
    find_table "quote" (s_tables d) = Some tq /\
    find_table "author" (s_tables d) = Some ta /\
    forallb (fun c => mem c (t_cols tq))
      ["id_quote"; "content"; "author_id"; "tags"] = true /\
    forallb (fun c => mem c (t_cols ta)) ["id_author"; "name"] = true.

(** The rows of table [t] of database [dbname]. *)
Definition stored (s : mysqld) (dbname t : string) : list row :=
  match find_schema dbname (schemas s) with
  | Some d =>
      match find_table t (s_tables d) with
      | Some tb => t_rows tb
      | None => []
      end
  | None => []
  end.

(** The shapes of constructor arguments: an id left out, [None] or
    positive; a positive integer; a value that is passed and is not [None]
    (for a text, the empty one included); a value that is passed; an address
    the e-mail check accepts. *)
Definition absent_or_positive (a : arg Z) : Prop :=
  a = Omitted \/ a = GivenNone \/ exists z, a = Given z /\ (0 < z)%Z.

Definition positive_int (a : arg Z) : Prop :=
  exists z, a = Given z /\ (0 < z)%Z.

Definition given {T} (a : arg T) : Prop :=
  exists v, a = Given v.

Definition passed {T} (a : arg T) : Prop :=
  a <> Omitted.

Definition accepted (validate_email : string -> option string)
  (a : arg string) : Prop :=
  exists s e, a = Given s /\ validate_email s = Some e.

(** The declared shape of the arguments of each record. *)
Definition Quote_shape (id_quote : arg Z) (content : arg string)
  (author_id : arg Z) (tags : arg (list string)) : Prop :=
  absent_or_positive id_quote /\ given content
  /\ absent_or_positive author_id /\ given tags.

Definition Author_shape (id_author : arg Z) (name : arg string)
  (birth_date : arg date) (birth_city birth_state birth_country : arg string)
  (description : arg string) : Prop :=
  absent_or_positive id_author /\ given name /\ given birth_date
  /\ passed birth_city /\ passed birth_state /\ passed birth_country
  /\ given description.

Definition Comment_shape (validate_email : string -> option string)
  (id_comment quote_id : arg Z) (title details user_email : arg string)
  : Prop :=
  absent_or_positive id_comment /\ positive_int quote_id /\ given title
  /\ given details /\ accepted validate_email user_email.

Definition Metadata_shape (id_key : arg Z) (key_name : arg string)
  (key_value : arg (list string)) : Prop :=
  absent_or_positive id_key /\ given key_name /\ given key_value.

Definition constructs {R} (o : outcome R) : Prop :=
  exists r, o = Return r.

Definition refused {R} (o : outcome R) : Prop :=
  exists fields, o = Raise (ValidationError fields) /\ fields <> [].

End Spec.

(** ** A small database *)

Module Sample.

Import MySQL.

Definition author_columns : list string :=
  ["id_author"; "name"; "birth_date"; "birth_city"; "birth_state";
   "birth_country"; "description"].

Definition quote_columns : list string :=
  ["id_quote"; "content"; "author_id"; "tags"].

Definition comment_columns : list string :=
  ["id_comment"; "quote_id"; "title"; "details"; "user_email"].

Definition metadata_columns : list string :=
  ["id_key"; "key_name"; "key_value"].

Definition author (rs : list row) (next : positive) : table :=
  {| t_name := "author"; t_key := "id_author"; t_cols := author_columns;
     t_rows := rs; t_auto := next |}.

Definition quote (rs : list row) (next : positive) : table :=
  {| t_name := "quote"; t_key := "id_quote"; t_cols := quote_columns;
     t_rows := rs; t_auto := next |}.

Definition comment (rs : list row) (next : positive) : table :=
  {| t_name := "comment"; t_key := "id_comment"; t_cols := comment_columns;
     t_rows := rs; t_auto := next |}.

Definition metadata (rs : list row) (next : positive) : table :=
  {| t_name := "metadata"; t_key := "id_key"; t_cols := metadata_columns;
     t_rows := rs; t_auto := next |}.

Definition twain : row :=
  [("id_author", VInt 1); ("name", VStr "Mark Twain");
   ("birth_date", VDate 1835 11 30); ("birth_city", VStr "Florida");
   ("birth_state", VStr "Missouri"); ("birth_country", VStr "USA");
   ("description", VStr "American writer")].

Definition a_quote (id : Z) (text : string) (author : value) (tags : string)
  : row :=
  [("id_quote", VInt id); ("content", VStr text); ("author_id", author);
   ("tags", VStr tags)].

Definition authors : table := author [twain] 2.

Definition server_with (up : bool) (quotes : list row) (next : positive)
  : mysqld :=
  {| reachable := up; coll := CaseInsensitive;
     schemas := [{| s_name := "happy";
                    s_tables := [authors; quote quotes next;
                                 comment [] 1; metadata [] 1] |}];
     draws := [2; 0; 1] |}.

(** Two quotes of Mark Twain, tagged ["travel"] and ["travel-logs"]. *)
Definition travel_rows : list row :=
  [a_quote 1 "Travel is fatal to prejudice." (VInt 1) "travel";
   a_quote 2 "Twenty years from now." (VInt 1) "travel-logs"].

Definition travels : mysqld := server_with true travel_rows 3.

(** One quote whose author is not assigned yet. *)
Definition orphan : mysqld :=
  server_with true [a_quote 1 "Anonymous." VNone "proverb"] 2.

(** No quote. *)
Definition no_quotes : mysqld := server_with true [] 1.

(** The host is down. *)
Definition offline : mysqld := server_with false [] 1.

Definition me : ModelQueries :=
  {| db := {| host := Some "localhost"; user := Some "happy";
              password := Some "secret"; port := Some "3306";
              database := "happy" |} |}.

(** [MySQLDB("happy")] when the environment sets none of the variables. *)
Definition unset : MySQLDB :=
  {| host := None; user := None; password := None; port := None;
     database := "happy" |}.

Definition at_ (s : mysqld) : world := {| srv := s; stdout := [] |}.

(** A stand-in for the e-mail check: an address needs an [@]. *)
Definition needs_at (s : string) : option string :=
  if PyStr.contains "@" s then Some s else None.

End Sample.

(** ** The rest of the connection manager, and the start of the program *)

(** The line feed. *)
Definition nl : string := String "010" EmptyString.

Section Startup.

Context {D : Driver}.

(** The [try] suite of [test_connection]: a connection to the server, to no
    database. *)
Definition test_connection_try (self : MySQLDB) : M frame pyobj :=
  c <- drv (connect (connect_to self None false)) ;;
  set_conn c ;;;
  up <- (fun f => (Return (is_connected c (srv (env f))), f)) ;;
  if up : bool then
    print "Connection to the DB server was successful." ;;;
    ret (PyBool true)
  else
    print "Failed to connect to the DB server." ;;;
    ret (PyBool false).

(** The [finally] block of [test_connection]. *)
Definition release_server : M frame unit :=
  fun f =>
    match conn f with
    | Some c =>
        if is_connected c (srv (env f))
        then (drv_ (conn_close c) ;;; print "DB server connection closed.") f
        else (Return tt, f)
    | None => (Return tt, f)
    end.

Definition test_connection (self : MySQLDB) : M world pyobj :=
  method
    (try_finally
       (try_except_Error
          (test_connection_try self)
          (fun e => print ("Error: " ++ e) ;;; ret (PyBool false)))
       release_server).

(** [print] outside the methods of [MySQLDB]. *)
Definition say (line : string) : M world unit :=
  fun w => (Return tt, {| srv := srv w; stdout := stdout w ++ [line] |}).

(** [MySQLDB(database)], the environment read through [os.getenv]. *)
Definition MySQLDB_init (getenv : string -> option string) (database : string)
  : MySQLDB :=
  {| host := getenv "DB_HOST"; user := getenv "DB_USER";
     password := getenv "DB_PASSWORD"; port := getenv "DB_PORT";
     database := database |}.

Definition ModelQueries_init (getenv : string -> option string)
  (database : string) : ModelQueries :=
  {| db := MySQLDB_init getenv database |}.

(** The query of [happyquotes_main.py] for the database. *)
Definition schemata_query : statement :=
  Text (nl ++ "    SELECT SCHEMA_NAME " ++ nl
        ++ "    FROM INFORMATION_SCHEMA.SCHEMATA " ++ nl
        ++ "    WHERE SCHEMA_NAME = %s;" ++ nl).

(** The INIT part of [happyquotes_main.py], with [DATABASE_NAME] set to
    [DB_NAME]: it hands the model to the main loop, or leaves through
    [sys.exit()]. *)
Definition main_init (getenv : string -> option string) (DB_NAME : string)
  : M world ModelQueries :=
  let model := ModelQueries_init getenv DB_NAME in
  online <- test_connection (db model) ;;
  if truthy online then
    say "Database server is online." ;;;
    results <- sql_query (db model) schemata_query [VStr DB_NAME] ;;
    if truthy (of_rows results) then
      say ("Successfully connected to database " ++ DB_NAME ++ ".") ;;;
      ret model
    else
      say ("Fatal Error! Database " ++ DB_NAME
           ++ " is missing. Terminating the program.") ;;;
      raise (OtherException "SystemExit")
  else
    say "Fatal Error! Database server is offline. Terminating the program." ;;;
    raise (OtherException "SystemExit").

End Startup.

(** ** More vocabulary *)

Module Data.

Import MySQL Spec.

(** Two server states hold the same databases, tables and rows, and agree on
    reachability and collation. *)
Definition same_data (s s' : mysqld) : Prop :=
  schemas s' = schemas s /\ reachable s' = reachable s /\ coll s' = coll s.

(** A computation that leaves the stored data as it found them, whatever it
    returns or raises. *)
Definition keeps {A} (m : M world A) : Prop :=
  forall w, same_data (srv w) (srv (snd (m w))).

(** The server is reachable and its database [dbname] holds table [t], with
    the rows and columns of [tb]. *)
Definition has_table (s : mysqld) (dbname t : string) (tb : table) : Prop :=
  reachable s = true /\
  exists d,
    find_schema dbname (schemas s) = Some d /\
    find_table t (s_tables d) = Some tb.

(** The world once a manager call that went well has closed its
    connection. *)
Definition closed (s : mysqld) (out : list string) : world :=
  {| srv := s; stdout := out ++ ["Database connection closed."] |}.

(** The server after an accepted [INSERT] into table [t] of database [d]. *)
Definition after_insert (s : mysqld) (d : schema) (t : table)
  (cols : list string) (params : list value) : mysqld :=
  with_schemas s
    (put_schema
       (with_tables d (put_table (insert_into t cols params) (s_tables d)))
       (schemas s)).

(** The server after [DROP TABLE n] in database [d]. *)
Definition after_drop_table (s : mysqld) (d : schema) (n : string) : mysqld :=
  with_schemas s
    (put_schema
       (with_tables d
          (filter (fun t => negb (String.eqb n (t_name t))) (s_tables d)))
       (schemas s)).

(** The [quote_count] of a row of [top5_authors]. *)
Definition quote_count (r : row) : Z :=
  match get "quote_count" r with
  | Some (VInt n) => n
  | _ => 0%Z
  end.

(** A row that carries a [quote_count]. *)
Definition counted (r : row) : Prop :=
  exists n, get "quote_count" r = Some (VInt n).

(** The key [ORDER BY quote_count] sorts on. *)
Definition count_key (r : row) : value :=
  match get "quote_count" r with
  | Some v => v
  | None => VNone
  end.

(** [a] comes before [b] in descending order. *)
Definition descending (a b : Z) : Prop := (b <= a)%Z.

(** A foreign key holds [NULL] or the key of a row of the table it refers
    to. *)
Definition refers (co : collation) (v : value) (key : string) (tb : table)
  : bool :=
  match v with
  | VNone => true
  | _ => existsb (fun r => value_eqb co v (field key r)) (t_rows tb)
  end.

(** A name that the statement text [LIKE '<name>'] holds as it is: neither a
    quote nor a backslash in it. *)
Definition quotable (n : string) : bool :=
  forallb (fun c => negb (Ascii.eqb c "'") && negb (Ascii.eqb c "\"))
    (list_ascii_of_string n).

(** The two travel quotes, the first of them with one comment. *)
Definition commented : mysqld :=
  {| reachable := true; coll := CaseInsensitive;
     schemas :=
       [{| s_name := "happy";
           s_tables :=
             [Sample.authors; Sample.quote Sample.travel_rows 3;
              Sample.comment
                [[("id_comment", VInt 1); ("quote_id", VInt 1);
                  ("title", VStr "Agreed"); ("details", VStr "So true.");
                  ("user_email", VStr "reader@example.org")]] 2;
              Sample.metadata [] 1] |}];
     draws := [2; 0; 1] |}.

(** A manager for a database named with a [LIKE] wildcard. *)
Definition wild : MySQLDB :=
  {| host := Some "localhost"; user := Some "happy";
     password := Some "secret"; port := Some "3306"; database := "happ_" |}.

(** An environment that sets the four variables of the connection. *)
Definition dotenv (name : string) : option string :=
  if String.eqb name "DB_HOST" then Some "localhost"
  else if String.eqb name "DB_USER" then Some "happy"
  else if String.eqb name "DB_PASSWORD" then Some "secret"
  else if String.eqb name "DB_PORT" then Some "3306"
  else None.

End Data.

(** ** The presentation layer: [happy_tk_gui.py]

    Of the two text widgets the model keeps the contents: the pieces of text
    inserted so far, each with its tags.  Where a widget scrolls to is not
    part of it.  While the main loop runs, [sys.stdout] is the console
    widget: every line a call of the model prints reaches it as two
    untagged pieces, the line and the line feed.  What the dialogs and
    [random.choice] hand back comes from outside. *)

(** [str(i)] for an integer. *)
Definition str_of_int (z : Z) : string := NilZero.string_of_int (Z.to_int z).

Definition pad (width : nat) (z : Z) : string :=
  let digits := str_of_int z in
  (String.concat "" (repeat "0" (width - String.length digits)) ++ digits)%string.

(** [str(v)] *)
Definition str (v : value) : string :=
  match v with
  | VNone => "None"
  | VInt z => str_of_int z
  | VStr s => s
  | VDate y m d => (pad 4 y ++ "-" ++ pad 2 m ++ "-" ++ pad 2 d)%string
  end.

Definition chunk : Type := string * list string.

Record operator := {
  get_selection : list string -> list string;
  get_input : option Z;
  first_choice : nat;
  second_choice : nat
}.

Section View.

Context {D : Driver}.

Record gui := {
  backend : world;
  response_text : list chunk;
  console_text : list chunk
}.

Inductive widget :=
| Response
| Console.

(** [ScrolledTextWidget.insert_text(text, *tags)] *)
Definition insert_text (wd : widget) (text : string) (tags : list string)
  : M gui unit :=
  fun g =>
    (Return tt,
     match wd with
     | Response =>
         {| backend := backend g;
            response_text := response_text g ++ [(text, tags)];
            console_text := console_text g |}
     | Console =>
         {| backend := backend g;
            response_text := response_text g;
            console_text := console_text g ++ [(text, tags)] |}
     end).

(** [clear_response()] *)
Definition clear_response : M gui unit :=
  fun g =>
    (Return tt,
     {| backend := backend g; response_text := [];
        console_text := console_text g |}).

(** [scroll_top()] moves the view only. *)
Definition scroll_top (wd : widget) : M gui unit := ret tt.

(** A call of the model from the presentation layer, its prints going to
    the console widget. *)
Definition call {A} (m : M world A) : M gui A :=
  fun g =>
    let (r, w) := m {| srv := srv (backend g); stdout := [] |} in
    (r,
     {| backend := {| srv := srv w; stdout := stdout (backend g) |};
        response_text := response_text g;
        console_text :=
          console_text g
          ++ flat_map (fun line => [(line, []); (nl, [])]) (stdout w) |}).

(** What indexing, looping over or unpacking hands over: a row, one of the
    results of a pair, or a text (a key of a row, a character). *)
Inductive element :=
| ARow (r : row)
| AResult (o : pyobj)
| AStr (s : string).

Definition chars (s : string) : list element :=
  map (fun c => AStr (String c EmptyString)) (list_ascii_of_string s).

(** [e[0]] *)
Definition first (e : element) : M gui element :=
  match e with
  | AResult (PyRows (r :: _)) => ret (ARow r)
  | AResult (PyRows []) => raise (IndexError "list index out of range")
  | AResult (PyTuple a _) => ret (AResult a)
  | AResult PyNone =>
      raise (TypeError "'NoneType' object is not subscriptable")
  | AResult (PyBool _) =>
      raise (TypeError "'bool' object is not subscriptable")
  | ARow _ => raise (KeyError "0")
  | AStr (String c _) => ret (AStr (String c EmptyString))
  | AStr EmptyString => raise (IndexError "string index out of range")
  end.

(** What [for x in e] goes through. *)
Definition iterate (e : element) : M gui (list element) :=
  match e with
  | AResult (PyRows rs) => ret (map ARow rs)
  | AResult (PyTuple a b) => ret [AResult a; AResult b]
  | AResult PyNone => raise (TypeError "'NoneType' object is not iterable")
  | AResult (PyBool _) => raise (TypeError "'bool' object is not iterable")
  | ARow r => ret (map (fun kv => AStr (fst kv)) r)
  | AStr s => ret (chars s)
  end.

(** [a, b = results] *)
Definition unpack (results : pyobj) : M gui (element * element) :=
  match results with
  | PyTuple a b => ret (AResult a, AResult b)
  | PyRows [a; b] => ret (ARow a, ARow b)
  | PyRows [] | PyRows [_] =>
      raise (OtherException "ValueError: not enough values to unpack")
  | PyRows _ =>
      raise (OtherException "ValueError: too many values to unpack")
  | PyNone =>
      raise (TypeError "cannot unpack non-iterable NoneType object")
  | PyBool _ => raise (TypeError "cannot unpack non-iterable bool object")
  end.

(** [e[k]] for a column name [k] *)
Definition subscript (e : element) (k : string) : M gui value :=
  match e with
  | ARow r =>
      match get k r with
      | Some v => ret v
      | None => raise (KeyError k)
      end
  | AResult (PyRows _) =>
      raise (TypeError "list indices must be integers or slices, not str")
  | AResult (PyTuple _ _) =>
      raise (TypeError "tuple indices must be integers or slices, not str")
  | AResult PyNone =>
      raise (TypeError "'NoneType' object is not subscriptable")
  | AResult (PyBool _) =>
      raise (TypeError "'bool' object is not subscriptable")
  | AStr _ => raise (TypeError "string indices must be integers, not 'str'")
  end.

Definition type_name (v : value) : string :=
  match v with
  | VNone => "NoneType"
  | VInt _ => "int"
  | VStr _ => "str"
  | VDate _ _ _ => "datetime.date"
  end.

(** [v + "..."], the left operand. *)
Definition text (v : value) : M gui string :=
  match v with
  | VStr s => ret s
  | _ =>
      raise (TypeError ("unsupported operand type(s) for +: '"
                        ++ type_name v ++ "' and 'str'"))
  end.

(** ["..." + v], the right operand. *)
Definition more_text (v : value) : M gui string :=
  match v with
  | VStr s => ret s
  | _ =>
      raise (TypeError ("can only concatenate str (not "
                        ++ String "034" (type_name v ++ String "034" ") to str")))
  end.

(** [v.split(', ')] *)
Definition split_list (v : value) : M gui (list string) :=
  match v with
  | VStr s =>
      match PyStr.split ", " s with
      | Some l => ret l
      | None => raise (OtherException "ValueError")
      end
  | _ => raise (OtherException "AttributeError")
  end.

(** [random.choice(l)], the draw given. *)
Definition choice {A} (draw : nat) (l : list A) : M gui A :=
  match nth_error l (draw mod List.length l) with
  | Some x => ret x
  | None => raise (IndexError "Cannot choose from an empty sequence")
  end.

Definition flip (colour : string) : string :=
  if String.eqb colour "blue" then "green" else "blue".

Definition rule : string :=
  "========================================================================================".

(** The loop of [print_quotes]. *)
Fixpoint print_quotes_loop (quotes : list element) (colour : string) (i : Z)
  : M gui unit :=
  match quotes with
  | [] => ret tt
  | quote :: rest =>
      insert_text Response
        ((nl ++ "--------- QUOTE " ++ str_of_int i ++ " ---------" ++ nl ++ nl)%string)
        ["bold"; "center"] ;;;
      c <- subscript quote "content" ;; c <- text c ;;
      insert_text Response (c ++ nl)%string [colour; "center"] ;;;
      insert_text Response
        ((nl ++ "--------- AUTHOR ---------" ++ nl ++ nl)%string)
        ["bold"; "center"] ;;;
      a <- subscript quote "author_name" ;; a <- text a ;;
      insert_text Response (a ++ nl)%string [colour; "center"] ;;;
      insert_text Response
        ((nl ++ "--------- TAGS ---------" ++ nl ++ nl)%string)
        ["bold"; "center"] ;;;
      t <- subscript quote "tags" ;; t <- text t ;;
      insert_text Response (t ++ nl)%string [colour; "center"] ;;;
      insert_text Response ((nl ++ rule ++ nl)%string) ["bold"; "center"] ;;;
      print_quotes_loop rest (flip colour) (i + 1)
  end.

Definition print_quotes (quotes_list : pyobj) : M gui unit :=
  clear_response ;;;
  quotes <- iterate (AResult quotes_list) ;;
  print_quotes_loop quotes "blue" 1 ;;;
  scroll_top Response ;;;
  insert_text Console ("All quotes printed." ++ nl)%string ["black"].

Fixpoint top5_loop (results : list element) (colour : string) (i : Z)
  : M gui unit :=
  match results with
  | [] => ret tt
  | result :: rest =>
      n <- subscript result "name" ;; n <- more_text n ;;
      insert_text Response
        ((nl ++ str_of_int i ++ "- " ++ n ++ " , ")%string)
        [colour; "center"] ;;;
      k <- subscript result "quote_count" ;;
      insert_text Response
        (("total quotes = " ++ str k ++ nl)%string) [colour; "center"] ;;;
      top5_loop rest (flip colour) (i + 1)
  end.

Fixpoint comments_loop (comments : list element) (colour : string) (i : Z)
  : M gui unit :=
  match comments with
  | [] => ret tt
  | comment :: rest =>
      insert_text Response
        ((nl ++ "--------- COMMENT: " ++ str_of_int i ++ " ---------" ++ nl)%string)
        ["bold"; "center"] ;;;
      t <- subscript comment "title" ;; t <- text t ;;
      insert_text Response (t ++ nl)%string [colour; "center"] ;;;
      insert_text Response
        ((nl ++ "--------- DETAILS ---------" ++ nl)%string)
        ["bold"; "center"] ;;;
      d <- subscript comment "details" ;; d <- text d ;;
      insert_text Response (d ++ nl)%string [colour; "center"] ;;;
      insert_text Response
        ((nl ++ "--------- USER EMAIL ---------" ++ nl)%string)
        ["bold"; "center"] ;;;
      e <- subscript comment "user_email" ;; e <- text e ;;
      insert_text Response (e ++ nl)%string [colour; "center"] ;;;
      insert_text Response ((nl ++ rule ++ nl)%string) ["bold"; "center"] ;;;
      comments_loop rest (flip colour) (i + 1)
  end.

(** The loop of [author_bio]; the colour stays as it is. *)
Fixpoint bio_loop (results : list element) (colour : string) : M gui unit :=
  match results with
  | [] => ret tt
  | result :: rest =>
      insert_text Response
        ((nl ++ "--------- NAME ---------" ++ nl ++ nl)%string)
        ["bold"; "center"] ;;;
      n <- subscript result "name" ;; n <- text n ;;
      insert_text Response (n ++ nl)%string [colour; "center"] ;;;
      insert_text Response
        ((nl ++ "--------- BIRTH DATE ---------" ++ nl ++ nl)%string)
        ["bold"; "center"] ;;;
      b <- subscript result "birth_date" ;;
      insert_text Response (str b ++ nl)%string [colour; "center"] ;;;
      insert_text Response
        ((nl ++ "--------- BIO ---------" ++ nl ++ nl)%string)
        ["bold"; "center"] ;;;
      d <- subscript result "description" ;; d <- text d ;;
      insert_text Response (d ++ nl)%string [colour; "center"] ;;;
      bio_loop rest colour
  end.

(** [model.run_model('metadata', key)[0]['key_value'].split(', ')], as the
    cases of [run_controller] write it out in steps. *)
Definition names_of (all_names : pyobj) : M gui (list string) :=
  r <- first (AResult all_names) ;;
  v <- subscript r "key_value" ;;
  split_list v.

Definition run_controller (model : ModelQueries) (u : operator)
  (query_case : string) : M gui unit :=
  if query_case =? "quotes_by_author" then
    insert_text Console
      ("Fetching the names of all the authors..." ++ nl)%string ["black"] ;;;
    all_authors_names <- call (run_model model "metadata" (VStr "all_authors")) ;;
    insert_text Console ("Make your selection..." ++ nl)%string ["black"] ;;;
    list_of_authors <- names_of all_authors_names ;;
    match get_selection u list_of_authors with
    | author_name :: _ =>
        insert_text Console
          ("Your selection = " ++ author_name ++ nl)%string ["black"] ;;;
        insert_text Console
          ("Fetching 'quotes_by_author'..." ++ nl)%string ["black"] ;;;
        results <- call (run_model model "quotes_by_author" (VStr author_name)) ;;
        print_quotes results
    | [] =>
        insert_text Console ("Nothing was selected." ++ nl)%string ["black"]
    end
  else if query_case =? "x_quotes" then
    insert_text Console ("Retrieving your number..." ++ nl)%string ["black"] ;;;
    let x_quotes := get_input u in
    if truthy_int x_quotes then
      insert_text Console
        ("You typed in number: " ++ str (of_int x_quotes) ++ nl)%string
        ["black"] ;;;
      insert_text Console ("Fetching 'x_quotes'..." ++ nl)%string ["black"] ;;;
      results <- call (run_model model "x_quotes" (of_int x_quotes)) ;;
      print_quotes results
    else
      insert_text Console
        ("No valid input was entered." ++ nl)%string ["black"]
  else if query_case =? "random_quote" then
    insert_text Console ("Fetching 'random_quote'..." ++ nl)%string ["black"] ;;;
    results <- call (run_model model "random_quote" VNone) ;;
    print_quotes results
  else if query_case =? "total_quotes" then
    insert_text Console ("Fetching 'total_quotes'..." ++ nl)%string ["black"] ;;;
    results <- call (run_model model "total_quotes" VNone) ;;
    clear_response ;;;
    insert_text Response
      ((nl ++ "--------- TOTAL QUOTES ---------" ++ nl)%string)
      ["bold"; "center"] ;;;
    insert_text Response ((nl ++ "There are a total of ")%string)
      ["blue"; "center"] ;;;
    r <- first (AResult results) ;;
    n <- subscript r "total_quotes" ;;
    insert_text Response
      ((str n ++ " quotes in the Happy Quotes database." ++ nl)%string)
      ["blue"; "center"] ;;;
    insert_text Response
      ((nl ++ "Some people say that you just can't have enough quotes...")%string)
      ["blue"; "center"] ;;;
    insert_text Console ("Printed 'total_quotes'." ++ nl)%string ["black"]
  else if query_case =? "quotes_by_tag" then
    insert_text Console
      ("Fetching the list of all the tags..." ++ nl)%string ["black"] ;;;
    all_tags <- call (run_model model "metadata" (VStr "all_tags")) ;;
    insert_text Console ("Make your selection..." ++ nl)%string ["black"] ;;;
    list_of_tags <- names_of all_tags ;;
    match get_selection u list_of_tags with
    | tag :: _ =>
        insert_text Console
          ("Your selection = " ++ tag ++ nl)%string ["black"] ;;;
        insert_text Console
          ("Fetching 'quotes_by_tag'..." ++ nl)%string ["black"] ;;;
        results <- call (run_model model "quotes_by_tag" (VStr tag)) ;;
        print_quotes results
    | [] =>
        insert_text Console ("Nothing was selected." ++ nl)%string ["black"]
    end
  else if query_case =? "top5_authors" then
    insert_text Console ("Fetching 'top5_authors'..." ++ nl)%string ["black"] ;;;
    results <- call (run_model model "top5_authors" VNone) ;;
    clear_response ;;;
    insert_text Response
      ((nl ++ "--------- TOP 5 AUTHORS ---------" ++ nl ++ nl)%string)
      ["bold"; "center"] ;;;
    rs <- iterate (AResult results) ;;
    top5_loop rs "blue" 1 ;;;
    insert_text Console ("Printed 'top5_authors'." ++ nl)%string ["black"]
  else if query_case =? "comments_random_quote" then
    insert_text Console
      ("Fetching 'comments_random_quote'..." ++ nl)%string ["black"] ;;;
    results <- call (run_model model "comments_random_quote" VNone) ;;
    ' (comments, quote) <- unpack results ;;
    clear_response ;;;
    insert_text Response
      ((nl ++ "--------- RANDOM QUOTE ---------" ++ nl ++ nl)%string)
      ["bold"; "center"] ;;;
    q <- first quote ;;
    c <- subscript q "content" ;; c <- text c ;;
    insert_text Response (c ++ nl ++ nl)%string ["blue"; "center"] ;;;
    insert_text Response
      ((nl ++ "--------- ALL COMMENTS: ---------" ++ nl ++ nl)%string)
      ["bold"; "center"] ;;;
    cs <- iterate comments ;;
    comments_loop cs "blue" 1 ;;;
    scroll_top Response ;;;
    insert_text Console
      ("Printed the details for the quote's comments." ++ nl)%string
      ["black"]
  else if query_case =? "author_bio" then
    insert_text Console
      ("Fetching the names of all the authors..." ++ nl)%string ["black"] ;;;
    all_authors_names <- call (run_model model "metadata" (VStr "all_authors")) ;;
    insert_text Console ("Make your selection..." ++ nl)%string ["black"] ;;;
    list_of_authors <- names_of all_authors_names ;;
    match get_selection u list_of_authors with
    | author_name :: _ =>
        insert_text Console
          ("Your selection = " ++ author_name ++ nl)%string ["black"] ;;;
        insert_text Console
          ("Fetching 'author_bio'..." ++ nl)%string ["black"] ;;;
        results <- call (run_model model "author_bio" (VStr author_name)) ;;
        clear_response ;;;
        rs <- iterate (AResult results) ;;
        bio_loop rs "blue" ;;;
        scroll_top Response ;;;
        insert_text Console
          ("Printed the author's biography." ++ nl)%string ["black"]
    | [] =>
        insert_text Console ("Nothing was selected." ++ nl)%string ["black"]
    end
  else if query_case =? "all_quotes" then
    insert_text Console ("Fetching 'all_quotes'." ++ nl)%string ["black"] ;;;
    results <- call (run_model model "all_quotes" VNone) ;;
    print_quotes results
  else if query_case =? "surprise" then
    all_tags <- call (run_model model "metadata" (VStr "all_tags")) ;;
    list_of_tags <- names_of all_tags ;;
    all_authors_names <- call (run_model model "metadata" (VStr "all_authors")) ;;
    list_of_authors <- names_of all_authors_names ;;
    surprise <- choice (first_choice u) ["authors"; "tags"] ;;
    insert_text Console ("Fetching your surprise..." ++ nl)%string ["black"] ;;;
    if surprise =? "authors" then
      author_name <- choice (second_choice u) list_of_authors ;;
      insert_text Console
        ("Fetching surprise author: " ++ author_name ++ "..." ++ nl)%string
        ["black"] ;;;
      results <- call (run_model model "quotes_by_author" (VStr author_name)) ;;
      print_quotes results
    else
      tag <- choice (second_choice u) list_of_tags ;;
      insert_text Console
        ("Fetching surprise tag: " ++ tag ++ "..." ++ nl)%string ["black"] ;;;
      results <- call (run_model model "quotes_by_tag" (VStr tag)) ;;
      print_quotes results
  else if query_case =? "qotd" then
    insert_text Console
      ("Fetching 'quote_of_the_day'..." ++ nl)%string ["black"] ;;;
    results <- call (run_model model "random_quote" VNone) ;;
    insert_text Response
      ((nl ++ nl ++ nl ++ "--------- Quote Of The Day ---------" ++ nl ++ nl ++ nl)%string)
      ["green"; "center"] ;;;
    r <- first (AResult results) ;;
    c <- subscript r "content" ;; c <- text c ;;
    insert_text Response (c ++ nl ++ nl)%string ["green"; "center"] ;;;
    r <- first (AResult results) ;;
    a <- subscript r "author_name" ;; a <- more_text a ;;
    insert_text Response ("by " ++ a ++ nl)%string ["green"; "center"]
  else
    insert_text Console ("Unknown query number!" ++ nl)%string ["red"].

(** [print_welcome()] *)
Definition print_welcome (model : ModelQueries) (u : operator) : M gui unit :=
  clear_response ;;;
  insert_text Console
    ("Welcome!" ++ nl ++ "All systems are GO!" ++ nl)%string ["black"] ;;;
  insert_text Response
    ((nl ++ nl ++ nl ++ "WELCOME TO HAPPY QUOTES!" ++ nl)%string)
    ["bold"; "center"] ;;;
  insert_text Response
    ((nl ++ nl ++ nl ++ "We hope you will enjoy this experience" ++ nl
      ++ "and find some inspiration to brighten your day!")%string)
    ["blue"; "center"] ;;;
  insert_text Response
    ((nl ++ nl ++ nl ++ "Start at the 'Queries' menu." ++ nl ++ "Have fun!" ++ nl)%string)
    ["blue"; "center"] ;;;
  run_controller model u "qotd".

End View.

Module Screen.

(** A row [print_quotes] can show: content, author and tags are texts. *)
Definition showable (r : row) : Prop :=
  exists c a t,
    get "content" r = Some (VStr c)
    /\ get "author_name" r = Some (VStr a)
    /\ get "tags" r = Some (VStr t).

(** The colour of the quote at position [k], the first in [colour]. *)
Fixpoint colour_at (colour : string) (k : nat) : string :=
  match k with
  | O => colour
  | S k' => colour_at (flip colour) k'
  end.

(** The names [run_controller] knows. *)
Definition handlers : list string :=
  ["quotes_by_author"; "x_quotes"; "random_quote"; "total_quotes";
   "quotes_by_tag"; "top5_authors"; "comments_random_quote"; "author_bio";
   "all_quotes"; "surprise"; "qotd"].

(** The metadata key a handler with a selection dialog asks for. *)
Definition key_of (query_case : string) : string :=
  if (query_case =? "quotes_by_tag")%string then "all_tags" else "all_authors".

End Screen.

(** * Properties *)
Module PyStrFacts.
Import PyStr.

Lemma append_nil_r (s : string) : (s ++ "")%string = s.
Proof. induction s as [|c s IH]; simpl; congruence. Qed.

Lemma append_assoc (a b c : string) :
  ((a ++ b) ++ c)%string = (a ++ (b ++ c))%string.
Proof. induction a as [|x a IH]; simpl; congruence. Qed.

Lemma length_append (a b : string) :
  String.length (a ++ b) = String.length a + String.length b.
Proof. induction a as [|x a IH]; simpl; congruence. Qed.

Lemma startswith_app (p s t : string) :
  startswith p s = true -> startswith p (s ++ t) = true.
Proof.
  revert s; induction p as [|a p IH]; intros [|b s]; simpl; try easy.
  intros H; apply andb_true_iff in H as [-> H]; simpl; auto.
Qed.

Lemma append_snoc (a : string) (c : ascii) (s : string) :
  ((a ++ String c "") ++ s)%string = (a ++ String c s)%string.
Proof. now rewrite append_assoc. Qed.

Lemma occurs_before_snoc (p cur s : string) (c : ascii) :
  occurs_before (String.length cur) p (cur ++ String c s) = false ->
  startswith p (String c s) = false ->
  occurs_before (String.length (cur ++ String c "")) p
    ((cur ++ String c "") ++ s) = false.
Proof.
  induction cur as [|x cur IH]; simpl; intros H1 H2.
  - now rewrite H2.
  - apply orb_false_iff in H1 as [H1 H3].
    rewrite append_snoc, H1. simpl.
    rewrite <- (append_snoc cur c s). now apply IH.
Qed.

Lemma occurs_before_contains (p cur s : string) :
  p <> "" ->
  occurs_before (String.length cur) p (cur ++ s) = false ->
  contains p cur = false.
Proof.
  intros Hp; induction cur as [|x cur IH]; simpl; intros H.
  - destruct p; [congruence | reflexivity].
  - apply orb_false_iff in H as [H1 H2].
    rewrite (IH H2), orb_false_r.
    destruct (startswith p (String x cur)) eqn:E; [|reflexivity].
    apply (startswith_app _ _ s) in E. simpl in E. congruence.
Qed.

(** No piece that [split] hands out contains the separator. *)
Lemma split_go_pieces (sep : string) :
  sep <> "" ->
  forall s skip cur,
    (skip = 0 \/ cur = "") ->
    occurs_before (String.length cur) sep (cur ++ s) = false ->
    Forall (fun p => contains sep p = false) (split_go sep skip cur s).
Proof.
  intros Hsep; induction s as [|c s IH]; intros skip cur Hk Hinv; simpl.
  - constructor; [|constructor].
    now apply (occurs_before_contains sep cur "").
  - destruct skip as [|k].
    + destruct (startswith sep (String c s)) eqn:E.
      * constructor.
        -- now apply (occurs_before_contains sep cur (String c s)).
        -- apply IH; [now right | reflexivity].
      * apply IH; [now left |]. now apply occurs_before_snoc.
    + destruct Hk as [Hk | ->]; [discriminate |].
      apply IH; [now right | reflexivity].
Qed.

Lemma contains_cons (p : string) (c : ascii) (s : string) :
  contains p (String c s) = false ->
  startswith p (String c s) = false /\ contains p s = false.
Proof. simpl. intros H. now apply orb_false_iff in H. Qed.

(** A tag free of [", "], followed by the separator, is cut off whole. *)
Lemma split_go_tag (t cur rest : string) :
  contains ", " t = false ->
  split_go ", " 0 cur (t ++ ", " ++ rest)
  = (cur ++ t)%string :: split_go ", " 0 "" rest.
Proof.
  revert cur; induction t as [|c t IH]; intros cur H.
  - simpl. now rewrite append_nil_r.
  - apply contains_cons in H as [H1 H2].
    change ((String c t ++ ", " ++ rest)%string)
      with (String c (t ++ ", " ++ rest)).
    cbn [split_go].
    assert (E : startswith ", " (String c (t ++ ", " ++ rest)) = false).
    { cbn [startswith] in H1 |- *.
      destruct (Ascii.eqb "," c); [|reflexivity].
      destruct t as [|d t]; [reflexivity|].
      cbn [startswith append andb] in H1 |- *. exact H1. }
    rewrite E, (IH _ H2), append_snoc. reflexivity.
Qed.

Lemma split_go_last (t cur : string) :
  contains ", " t = false ->
  split_go ", " 0 cur t = [(cur ++ t)%string].
Proof.
  revert cur; induction t as [|c t IH]; intros cur H.
  - simpl. now rewrite append_nil_r.
  - apply contains_cons in H as [H1 H2].
    cbn [split_go]. rewrite H1, (IH _ H2), append_snoc. reflexivity.
Qed.

Lemma split_join (l : list string) :
  l <> [] ->
  Forall (fun t => contains ", " t = false) l ->
  split_go ", " 0 "" (join ", " l) = l.
Proof.
  induction l as [|t l IH]; [congruence|]. intros _ H.
  inversion H as [|? ? Ht Hl]; subst.
  destruct l as [|u l].
  - simpl. now rewrite split_go_last.
  - change (join ", " (t :: u :: l))
      with ((t ++ ", " ++ join ", " (u :: l))%string).
    rewrite split_go_tag by assumption.
    rewrite IH by (assumption || congruence). reflexivity.
Qed.

End PyStrFacts.

Module ServerFacts.
Import MySQL Spec.

Lemma sql_query_select (self : MySQLDB) (q : select) (params : list value)
  (s : mysqld) (out : list string) (d : schema) (rs : list row) (ds : list nat) :
  reachable s = true ->
  find_schema (database self) (schemas s) = Some d ->
  select_rows (coll s) (draws s) d q params = Some (rs, ds) ->
  sql_query self (Select q) params {| srv := s; stdout := out |}
  = (Return (Some rs),
     {| srv := with_draws s ds;
        stdout := out ++ ["Database connection closed."] |}).
Proof.
  intros Hr Hd Hs.
  unfold sql_query, method, try_finally, try_except_Error, sql_query_try.
  unfold bind, drv, set_conn, set_cursor, ret. cbn.
  unfold connect_. rewrite Hr. cbn. rewrite Hd. cbn.
  unfold execute_. rewrite Hr. cbn. rewrite Hd, Hs. cbn.
  unfold release. cbn. rewrite Hr. cbn. reflexivity.
Qed.

Lemma lookup_hit (x n : string) (r : row) (rest : qrow) :
  lookup (Some x) n (qualify x r ++ rest)
  = match get n r with Some v => v | None => lookup (Some x) n rest end.
Proof.
  induction r as [|[k v] r IH]; [reflexivity|].
  cbn [qualify map app lookup get fst snd].
  rewrite String.eqb_refl, andb_true_r.
  destruct (String.eqb n k); [reflexivity | exact IH].
Qed.

Lemma lookup_miss (x y n : string) (r : row) (rest : qrow) :
  String.eqb x y = false ->
  lookup (Some x) n (qualify y r ++ rest) = lookup (Some x) n rest.
Proof.
  intros E; induction r as [|[k v] r IH]; [reflexivity|].
  cbn [qualify map app lookup fst snd].
  now rewrite E, andb_false_r.
Qed.

Lemma glue_q (n : string) (qa : row * row) :
  lookup (Some "q") n (glue qa) = field n (fst qa).
Proof.
  unfold glue, field. rewrite lookup_hit.
  destruct (get n (fst qa)); [reflexivity|].
  rewrite <- (app_nil_r (qualify "a" (snd qa))).
  now rewrite lookup_miss.
Qed.

Lemma glue_a (n : string) (qa : row * row) :
  lookup (Some "a") n (glue qa) = field n (snd qa).
Proof.
  unfold glue, field. rewrite lookup_miss by reflexivity.
  rewrite <- (app_nil_r (qualify "a" (snd qa))), lookup_hit.
  now destruct (get n (snd qa)).
Qed.

Lemma filter_map {A B} (f : B -> bool) (g : A -> B) (l : list A) :
  filter f (map g l) = map g (filter (fun a => f (g a)) l).
Proof.
  induction l as [|a l IH]; [reflexivity|].
  simpl. destruct (f (g a)); simpl; congruence.
Qed.

(** The nested loop of [quote q JOIN author a ON q.author_id = a.id_author]
    yields the pairs of a quote and its author. *)
Lemma join_pairs (co : collation) (params : list value) (tq ta : table) :
  flat_map
    (fun l =>
       map (fun r => l ++ r)
         (filter
            (fun r =>
               holds co params
                 (Eq (SQL.q_ "author_id") (SQL.a_ "id_author")) (l ++ r))
            (scan "a" ta)))
    (scan "q" tq)
  = map glue (pairs co tq ta).
Proof.
  unfold pairs, scan.
  induction (t_rows tq) as [|q qs IH]; [reflexivity|].
  cbn [map flat_map]. rewrite map_app, IH. f_equal.
  rewrite filter_map, !map_map.
  rewrite (filter_ext _
             (fun a => value_eqb co (field "author_id" q)
                         (field "id_author" a))).
  - reflexivity.
  - intros a. cbn [holds operand_value SQL.q_ SQL.a_].
    change (qualify "q" q ++ qualify "a" a) with (glue (q, a)).
    now rewrite glue_q, glue_a.
Qed.

Lemma known_app (sc1 sc2 : scope) (k : nat) (o : operand) :
  known sc1 k o = true \/ known sc2 k o = true ->
  known (sc1 ++ sc2) k o = true.
Proof.
  destruct o as [q n|i|z]; cbn [known]; try tauto.
  rewrite existsb_app, orb_true_iff. tauto.
Qed.

Lemma known_column (x n : string) (t : table) (k : nat) :
  mem n (t_cols t) = true ->
  known (scope_of x t) k (Col (Some x) n) = true.
Proof.
  unfold mem, scope_of. cbn [known].
  induction (t_cols t) as [|c cs IH]; [easy|].
  cbn [existsb map fst snd]. rewrite String.eqb_refl, andb_true_r.
  destruct (String.eqb n c); [reflexivity | exact IH].
Qed.

Lemma from_quote_author (co : collation) (params : list value) (d : schema)
  (tq ta : table) (q : select) :
  find_table "quote" (s_tables d) = Some tq ->
  find_table "author" (s_tables d) = Some ta ->
  sel_from q = ("quote", Some "q") ->
  sel_join q
  = Some ("author", "a", SQL.q_ "author_id", SQL.a_ "id_author") ->
  from_rows co params d q
  = Some (scope_of "q" tq ++ scope_of "a" ta, map glue (pairs co tq ta)).
Proof.
  intros Hq Ha Hf Hj. unfold from_rows. rewrite Hf, Hj. cbn [fst snd].
  rewrite Hq, Ha, join_pairs. reflexivity.
Qed.

End ServerFacts.


Module LikeFacts.
Import MySQL.

Lemma plain_cons (c : ascii) (p : string) :
  plain (String c p) = true ->
  Ascii.eqb c "%" = false /\ Ascii.eqb c "_" = false
  /\ Ascii.eqb c "\" = false /\ plain p = true.
Proof.
  cbn [plain]. rewrite !andb_true_iff, !negb_true_iff. tauto.
Qed.

Lemma tokens_plain_cons (c : ascii) (p : string) :
  plain (String c p) = true ->
  tokens (String c p) = Exactly c :: tokens p.
Proof.
  intros H. apply plain_cons in H as (H1 & H2 & H3 & _).
  cbn [tokens]. now rewrite H1, H2, H3.
Qed.

(** Without wildcards [LIKE] compares the whole text. *)
Lemma like_plain (co : collation) (p : string) :
  plain p = true -> forall s, like co p s = text_eqb co p s.
Proof.
  unfold like. induction p as [|c p IH]; intros H s.
  - now destruct s.
  - rewrite (tokens_plain_cons _ _ H).
    apply plain_cons in H as (_ & _ & _ & H).
    destruct s as [|d s]; cbn [like_tokens text_eqb]; [reflexivity|].
    now rewrite IH.
Qed.

Lemma like_any_run (co : collation) (s : string) :
  like_tokens co [AnyRun] s = true.
Proof.
  induction s as [|d s IH]; [reflexivity|].
  cbn [like_tokens] in *. now rewrite IH, orb_true_r.
Qed.

Lemma like_prefix (co : collation) (t : string) :
  plain t = true ->
  forall s, like_tokens co (tokens (t ++ "%")) s = text_prefix co t s.
Proof.
  induction t as [|c t IH]; intros H s.
  - apply like_any_run.
  - assert (E : tokens (String c t ++ "%")
                = Exactly c :: tokens (t ++ "%")).
    { apply plain_cons in H as (H1 & H2 & H3 & _).
      cbn [append tokens]. now rewrite H1, H2, H3. }
    rewrite E. apply plain_cons in H as (_ & _ & _ & H).
    destruct s as [|d s]; cbn [like_tokens text_prefix]; [reflexivity|].
    now rewrite IH.
Qed.

(** Between two [%] a text without wildcards is looked for anywhere. *)
Lemma like_contains (co : collation) (t : string) :
  plain t = true ->
  forall s, like co ("%" ++ t ++ "%") s = text_contains co t s.
Proof.
  intros H s. unfold like.
  change (tokens ("%" ++ t ++ "%")) with (AnyRun :: tokens (t ++ "%")).
  induction s as [|d s IH].
  - cbn [like_tokens text_contains]. now rewrite like_prefix.
  - cbn [like_tokens text_contains] in *. now rewrite like_prefix, IH.
Qed.

End LikeFacts.

Module ShuffleFacts.
Import MySQL.

Lemma extract_perm {A} (i : nat) (l : list A) (x : A) (r : list A) :
  extract i l = Some (x, r) -> Permutation l (x :: r).
Proof.
  revert i x r; induction l as [|y l IH]; intros i x r; cbn [extract];
    [discriminate|].
  destruct i as [|j].
  - intros [= <- <-]. reflexivity.
  - destruct (extract j l) as [[z r']|] eqn:E; [|discriminate].
    intros [= <- <-]. rewrite (IH _ _ _ E). apply perm_swap.
Qed.

Lemma shuffle_n_perm {A} (n : nat) (ds : list nat) (l : list A) :
  Permutation (shuffle_n n ds l) l.
Proof.
  revert ds l; induction n as [|n IH]; intros ds l; cbn [shuffle_n].
  - reflexivity.
  - destruct (extract _ l) as [[x r]|] eqn:E; [|reflexivity].
    rewrite (extract_perm _ _ _ _ E). now apply perm_skip.
Qed.

(** [ORDER BY RAND()] rearranges the rows and loses none. *)
Lemma shuffle_perm {A} (ds : list nat) (l : list A) :
  Permutation (shuffle ds l) l.
Proof. apply shuffle_n_perm. Qed.

Lemma shuffle_length {A} (ds : list nat) (l : list A) :
  List.length (shuffle ds l) = List.length l.
Proof. apply Permutation_length, shuffle_perm. Qed.

End ShuffleFacts.


Module QueryFacts.
Import MySQL Spec ServerFacts LikeFacts ShuffleFacts.

Lemma with_draws_same (s : mysqld) : with_draws s (draws s) = s.
Proof. now destruct s. Qed.

Lemma project_aliased (params : list value) (qa : row * row) :
  project params (sel_items SQL.quote_with_author) (glue qa) = quote_row qa.
Proof.
  cbn [SQL.quote_with_author SQL.columns sel_items project map column_name
       operand_value SQL.q_ SQL.a_].
  now rewrite !glue_q, glue_a.
Qed.

Lemma project_bare (params : list value) (n : operand) (qa : row * row) :
  project params (sel_items (SQL.random_quotes n)) (glue qa) = quote_row qa.
Proof.
  cbn [SQL.random_quotes SQL.limit SQL.order_by SQL.columns sel_items project
       map column_name operand_value SQL.q_ SQL.a_].
  now rewrite !glue_q, glue_a.
Qed.

Section QuoteWithAuthor.

Variables (s : mysqld) (tq ta : table) (d : schema).
Hypothesis Hq : find_table "quote" (s_tables d) = Some tq.
Hypothesis Ha : find_table "author" (s_tables d) = Some ta.
Hypothesis Hcq :
  forallb (fun c => mem c (t_cols tq))
    ["id_quote"; "content"; "author_id"; "tags"] = true.
Hypothesis Hca :
  forallb (fun c => mem c (t_cols ta)) ["id_author"; "name"] = true.

Lemma known_q (n : string) (k : nat) :
  In n ["id_quote"; "content"; "author_id"; "tags"] ->
  known (scope_of "q" tq ++ scope_of "a" ta) k (SQL.q_ n) = true.
Proof.
  intros Hn. apply known_app; left. apply known_column.
  rewrite forallb_forall in Hcq. now apply Hcq.
Qed.

Lemma known_a (n : string) (k : nat) :
  In n ["id_author"; "name"] ->
  known (scope_of "q" tq ++ scope_of "a" ta) k (SQL.a_ n) = true.
Proof.
  intros Hn. apply known_app; right. apply known_column.
  rewrite forallb_forall in Hca. now apply Hca.
Qed.

Ltac columns_known :=
  unfold select_known;
  cbn [SQL.where_ SQL.quote_with_author SQL.random_quotes SQL.limit
       SQL.order_by SQL.columns SQL.join SQL.from
       sel_items sel_join sel_where sel_group sel_order sel_limit
       select_known forallb item_known opt_all cond_known fst snd];
  rewrite ?known_q, ?known_a by (cbn [In]; tauto);
  reflexivity.

(** [... WHERE a.name LIKE %s] with a name free of wildcards. *)
Lemma select_by_author (name : string) :
  plain name = true ->
  select_rows (coll s) (draws s) d
    (SQL.where_ (Like (SQL.a_ "name") (Param 0)) SQL.quote_with_author)
    [VStr name]
  = Some (map quote_row (filter (named (coll s) name) (pairs (coll s) tq ta)),
          draws s).
Proof.
  intros Hp. unfold select_rows.
  rewrite (from_quote_author _ _ _ tq ta) by (assumption || reflexivity).
  replace (select_known _ _ _) with true by (symmetry; columns_known).
  match goal with
  | |- context [select_params ?q] => change (select_params q) with 1
  end.
  cbn [SQL.where_ SQL.quote_with_author SQL.columns SQL.join SQL.from
       sel_items sel_join sel_where sel_group sel_order sel_limit
       select_params List.length Nat.eqb andb negb existsb is_count orb].
  rewrite filter_map, map_map. do 2 f_equal.
  rewrite (filter_ext _ (named (coll s) name)).
  - apply map_ext. intros qa. apply (project_aliased [VStr name]).
  - intros qa. cbn [holds operand_value nth SQL.a_].
    change (Col (Some "a") "name") with (SQL.a_ "name").
    unfold named. cbn [operand_value SQL.a_]. rewrite glue_a.
    unfold value_like. destruct (field "name" (snd qa)); try reflexivity.
    now apply like_plain.
Qed.

(** [... WHERE q.tags LIKE %s] with ["%" + tag + "%"], the tag free of
    wildcards. *)
Lemma select_by_tag (tag : string) :
  plain tag = true ->
  select_rows (coll s) (draws s) d
    (SQL.where_ (Like (SQL.q_ "tags") (Param 0)) SQL.quote_with_author)
    [VStr ("%" ++ tag ++ "%")]
  = Some (map quote_row (filter (tagged (coll s) tag) (pairs (coll s) tq ta)),
          draws s).
Proof.
  intros Hp. unfold select_rows.
  rewrite (from_quote_author _ _ _ tq ta) by (assumption || reflexivity).
  replace (select_known _ _ _) with true by (symmetry; columns_known).
  match goal with
  | |- context [select_params ?q] => change (select_params q) with 1
  end.
  cbn [SQL.where_ SQL.quote_with_author SQL.columns SQL.join SQL.from
       sel_items sel_join sel_where sel_group sel_order sel_limit
       select_params List.length Nat.eqb andb negb existsb is_count orb].
  rewrite filter_map, map_map. do 2 f_equal.
  rewrite (filter_ext _ (tagged (coll s) tag)).
  - apply map_ext. intros qa. apply (project_aliased [VStr _]).
  - intros qa. cbn [holds operand_value nth SQL.q_].
    unfold tagged. rewrite glue_q.
    unfold value_like. destruct (field "tags" (fst qa)); try reflexivity.
    now apply like_contains.
Qed.

(** [... ORDER BY RAND() LIMIT %s] with a non-negative integer. *)
Lemma select_random (n : Z) :
  (0 <= n)%Z ->
  select_rows (coll s) (draws s) d (SQL.random_quotes (Param 0)) [VInt n]
  = Some (firstn (Z.to_nat n)
            (shuffle (draws s) (map quote_row (pairs (coll s) tq ta))),
          skipn (List.length (map quote_row (pairs (coll s) tq ta)))
            (draws s)).
Proof.
  intros Hn. unfold select_rows.
  rewrite (from_quote_author _ _ _ tq ta) by (assumption || reflexivity).
  replace (select_known _ _ _) with true by (symmetry; columns_known).
  match goal with
  | |- context [select_params ?q] => change (select_params q) with 1
  end.
  cbn [SQL.random_quotes SQL.limit SQL.order_by SQL.columns SQL.join SQL.from
       sel_items sel_join sel_where sel_group sel_order sel_limit
       List.length Nat.eqb andb negb existsb is_count orb].
  rewrite map_map.
  rewrite (map_ext _ quote_row)
    by (intros qa; apply (project_bare [VInt n] (Param 0))).
  cbn [limit_count operand_value nth fst snd].
  apply Z.leb_le in Hn. now rewrite Hn.
Qed.

End QuoteWithAuthor.
End QueryFacts.


Import MySQL Spec.

Lemma sample_serves (up : bool) (quotes : list row) (next : positive) :
  up = true ->
  serves (Sample.server_with up quotes next) "happy"
    (Sample.quote quotes next) Sample.authors.
Proof.
  intros ->. split; [reflexivity|].
  eexists. repeat split; reflexivity.
Qed.

(** C1 (amended).  For an author name free of the [LIKE] wildcards,
    [quotes_by_author] returns the joined quote+author projection of exactly
    the quotes whose author's name equals the given string as a whole under
    the collation of the column (so up to letter case under a
    case-insensitive collation): the name is handed to [LIKE] as it is, with
    no [%] around it. *)
Theorem quotes_by_author_whole_name (me : ModelQueries) (s : mysqld)
  (out : list string) (tq ta : table) (name : string) :
  serves s (database (db me)) tq ta ->
  plain name = true ->
  run_model me "quotes_by_author" (VStr name) {| srv := s; stdout := out |}
  = (Return
       (PyRows
          (map quote_row
             (filter (named (coll s) name) (pairs (coll s) tq ta)))),
     {| srv := s; stdout := out ++ ["Database connection closed."] |}).
Proof.
  intros (Hr & d & Hd & Hq & Ha & Hcq & Hca) Hp.
  unfold run_model. cbn [String.eqb Ascii.eqb Bool.eqb].
  unfold rows, bind, Quote_fetch_by_author.
  rewrite (ServerFacts.sql_query_select _ _ _ _ _ d _ _ Hr Hd
             (QueryFacts.select_by_author s tq ta d Hq Ha Hcq Hca name Hp)).
  now rewrite QueryFacts.with_draws_same.
Qed.

Lemma quotes_by_author_whole_name_witness :
  plain "mark twain" = true /\
  fst (run_model Sample.me "quotes_by_author" (VStr "mark twain")
         (Sample.at_ Sample.travels))
  = Return
      (PyRows
         [[("content", VStr "Travel is fatal to prejudice.");
           ("author_name", VStr "Mark Twain"); ("tags", VStr "travel")];
          [("content", VStr "Twenty years from now.");
           ("author_name", VStr "Mark Twain");
           ("tags", VStr "travel-logs")]]).
Proof.
  split; [reflexivity|].
  unfold Sample.at_.
  rewrite (quotes_by_author_whole_name Sample.me Sample.travels []
             _ _ "mark twain" (sample_serves true _ 3 eq_refl) eq_refl).
  reflexivity.
Defined.

(** C1 as stated fails: "Mark" is contained in the name of the author of two
    quotes, and [quotes_by_author] returns none of them. *)
Lemma quotes_by_author_not_substring :
  map quote_row
    (filter (name_contains CaseInsensitive "Mark")
       (pairs CaseInsensitive (Sample.quote Sample.travel_rows 3)
          Sample.authors))
  = [[("content", VStr "Travel is fatal to prejudice.");
      ("author_name", VStr "Mark Twain"); ("tags", VStr "travel")];
     [("content", VStr "Twenty years from now.");
      ("author_name", VStr "Mark Twain"); ("tags", VStr "travel-logs")]]
  /\ fst (run_model Sample.me "quotes_by_author" (VStr "Mark")
            (Sample.at_ Sample.travels))
     = Return (PyRows []).
Proof. split; reflexivity. Qed.


(** C6 (amended).  For a tag free of the [LIKE] wildcards, [quotes_by_tag]
    returns the joined quote+author projection of exactly the quotes that
    have an author row and whose serialized tags contain the tag as a
    substring under the collation of the column; a quote tagged
    ["travel-logs"] is thus returned for ["travel"]. *)
Theorem quotes_by_tag_substring (me : ModelQueries) (s : mysqld)
  (out : list string) (tq ta : table) (tag : string) :
  serves s (database (db me)) tq ta ->
  plain tag = true ->
  run_model me "quotes_by_tag" (VStr tag) {| srv := s; stdout := out |}
  = (Return
       (PyRows
          (map quote_row
             (filter (tagged (coll s) tag) (pairs (coll s) tq ta)))),
     {| srv := s; stdout := out ++ ["Database connection closed."] |}).
Proof.
  intros (Hr & d & Hd & Hq & Ha & Hcq & Hca) Hp.
  unfold run_model. cbn [String.eqb Ascii.eqb Bool.eqb].
  unfold rows, bind, Quote_fetch_by_tag.
  rewrite (ServerFacts.sql_query_select _ _ _ _ _ d _ _ Hr Hd
             (QueryFacts.select_by_tag s tq ta d Hq Ha Hcq Hca tag Hp)).
  now rewrite QueryFacts.with_draws_same.
Qed.

Lemma quotes_by_tag_substring_witness :
  plain "travel" = true /\
  fst (run_model Sample.me "quotes_by_tag" (VStr "travel")
         (Sample.at_ Sample.travels))
  = Return
      (PyRows
         [[("content", VStr "Travel is fatal to prejudice.");
           ("author_name", VStr "Mark Twain"); ("tags", VStr "travel")];
          [("content", VStr "Twenty years from now.");
           ("author_name", VStr "Mark Twain");
           ("tags", VStr "travel-logs")]]).
Proof.
  split; [reflexivity|].
  unfold Sample.at_.
  rewrite (quotes_by_tag_substring Sample.me Sample.travels []
             _ _ "travel" (sample_serves true _ 3 eq_refl) eq_refl).
  reflexivity.
Defined.

(** C6 as stated fails twice: the tag ["_"] occurs in no tags string and
    yet brings back both quotes, and a quote without author, tagged
    ["proverb"], is not returned for ["proverb"]. *)
Lemma quotes_by_tag_not_exactly_substring :
  (PyStr.contains "_" "travel" = false
   /\ PyStr.contains "_" "travel-logs" = false
   /\ fst (run_model Sample.me "quotes_by_tag" (VStr "_")
             (Sample.at_ Sample.travels))
      = Return
          (PyRows
             [[("content", VStr "Travel is fatal to prejudice.");
               ("author_name", VStr "Mark Twain"); ("tags", VStr "travel")];
              [("content", VStr "Twenty years from now.");
               ("author_name", VStr "Mark Twain");
               ("tags", VStr "travel-logs")]]))
  /\ (PyStr.contains "proverb" "proverb" = true
      /\ fst (run_model Sample.me "quotes_by_tag" (VStr "proverb")
                (Sample.at_ Sample.orphan))
         = Return (PyRows [])).
Proof. repeat split; reflexivity. Qed.

(** C8 (amended).  For a non-negative integer [n], [x_quotes] returns
    [min n p] rows, where [p] counts the quotes joined to their author (a
    quote without author row is left out by the join): none for [n = 0],
    and all of them, in some order, once [n] reaches [p]. *)
Theorem x_quotes_count (me : ModelQueries) (s : mysqld) (out : list string)
  (tq ta : table) (n : Z) :
  serves s (database (db me)) tq ta ->
  (0 <= n)%Z ->
  exists rs w,
    run_model me "x_quotes" (VInt n) {| srv := s; stdout := out |}
    = (Return (PyRows rs), w)
    /\ List.length rs
       = Nat.min (Z.to_nat n) (List.length (pairs (coll s) tq ta))
    /\ (n = 0%Z -> rs = [])
    /\ (List.length (pairs (coll s) tq ta) <= Z.to_nat n ->
        Permutation rs (map quote_row (pairs (coll s) tq ta))).
Proof.
  intros (Hr & d & Hd & Hq & Ha & Hcq & Hca) Hn.
  unfold run_model. cbn [String.eqb Ascii.eqb Bool.eqb].
  unfold rows, bind.
  rewrite (ServerFacts.sql_query_select _ _ _ _ _ d _ _ Hr Hd
             (QueryFacts.select_random s tq ta d Hq Ha Hcq Hca n Hn)).
  do 2 eexists. split; [reflexivity|].
  set (all := map quote_row (pairs (coll s) tq ta)).
  assert (L : List.length (shuffle (draws s) all)
              = List.length (pairs (coll s) tq ta)).
  { unfold all. now rewrite ShuffleFacts.shuffle_length, length_map. }
  repeat split.
  - now rewrite length_firstn, L.
  - now intros ->.
  - intros H. rewrite firstn_all2 by (rewrite L; exact H).
    apply ShuffleFacts.shuffle_perm.
Qed.

Lemma x_quotes_count_witness :
  (0 <= 1)%Z /\
  exists rs w,
    run_model Sample.me "x_quotes" (VInt 1) (Sample.at_ Sample.travels)
    = (Return (PyRows rs), w)
    /\ List.length rs = 1.
Proof.
  split; [lia|].
  destruct (x_quotes_count Sample.me Sample.travels [] _ _ 1
              (sample_serves true _ 3 eq_refl) ltac:(lia))
    as (rs & w & H & L & _).
  exists rs, w. split; [exact H | exact L].
Defined.

(** C8 as stated fails: the [quote] table holds one row, whose author is not
    assigned, and [x_quotes(5)] returns no row instead of that one. *)
Lemma x_quotes_skips_quotes_without_author :
  List.length (stored Sample.orphan "happy" "quote") = 1
  /\ fst (run_model Sample.me "x_quotes" (VInt 5) (Sample.at_ Sample.orphan))
     = Return (PyRows []).
Proof. split; reflexivity. Qed.


Module ManagerFacts.

Section AnyDriver.

Context {D : Driver}.

(** The [finally] block returns, and keeps what was printed. *)
Lemma release_returns (f : frame) :
  exists f',
    release f = (Return tt, f')
    /\ forall line, In line (stdout (env f)) -> In line (stdout (env f')).
Proof.
  unfold release.
  destruct f as [[c|] [k|] w]; cbn;
    try (eexists; split; [reflexivity | now auto]);
    match goal with
    | |- context [is_connected ?a ?b] => destruct (is_connected a b)
    end; cbn; eexists; (split; [reflexivity|]); cbn; intros;
    try apply in_or_app; auto.
Qed.

(** A guarded method turns a driver error of its [try] suite into the value
    of its handler. *)
Lemma guarded_error {A} (body : M frame A) (sentinel : A) (w : world)
  (msg : string) (f : frame) :
  body {| conn := None; cur := None; env := w |} = (Raise (Error msg), f) ->
  exists w',
    method
      (try_finally
         (try_except_Error body
            (fun e => print ("Error: " ++ e) ;;; ret sentinel))
         release) w
    = (Return sentinel, w')
    /\ In ("Error: " ++ msg)%string (stdout w').
Proof.
  intros H. unfold method, try_finally, try_except_Error. rewrite H.
  unfold bind, print, ret. cbn.
  match goal with
  | |- context [release ?g] =>
      destruct (release_returns g) as (f' & -> & Hin)
  end.
  eexists; split; [reflexivity|].
  apply Hin. cbn. apply in_or_app. right. now left.
Qed.

(** A guarded method lets no driver error through. *)
Lemma guarded_no_error {A} (body : M frame A) (sentinel : A) (w : world)
  (msg : string) :
  fst (method
         (try_finally
            (try_except_Error body
               (fun e => print ("Error: " ++ e) ;;; ret sentinel))
            release) w)
  <> Raise (Error msg).
Proof.
  unfold method, try_finally, try_except_Error.
  destruct (body _) as [[a|e] f].
  - destruct (release_returns f) as (f' & -> & _). discriminate.
  - destruct e; unfold bind, print, ret; cbn;
      match goal with
      | |- context [release ?g] =>
          destruct (release_returns g) as (f' & -> & _)
      end; discriminate.
Qed.

(** A guarded method lets every other exception of its [try] suite
    through. *)
Lemma guarded_other {A} (body : M frame A) (sentinel : A) (w : world)
  (e : exn) (f : frame) :
  body {| conn := None; cur := None; env := w |} = (Raise e, f) ->
  (forall msg, e <> Error msg) ->
  fst (method
         (try_finally
            (try_except_Error body
               (fun e => print ("Error: " ++ e) ;;; ret sentinel))
            release) w)
  = Raise e.
Proof.
  intros H Hne. unfold method, try_finally, try_except_Error. rewrite H.
  destruct e; try (now exfalso; eapply Hne);
    destruct (release_returns f) as (f' & -> & _); reflexivity.
Qed.

End AnyDriver.

End ManagerFacts.

(** C2 (amended).  Whatever the statement and its parameters, when the
    driver raises one of its errors ([mysql.connector.Error]) in the [try]
    suite of [sql_execute] the call returns [(None, None)], in that of
    [sql_query] it returns [None], a line [Error: ...] is printed, and no
    driver error ever leaves either call; an exception of any other class
    raised there is not caught and leaves the call as it is.  The calls of
    the [finally] block are taken as not raising. *)
Theorem driver_error_gives_sentinel {D : Driver} (self : MySQLDB)
  (sql : statement) (val : list value) (w : world) :
  (forall msg f,
      sql_execute_try self sql val {| conn := None; cur := None; env := w |}
      = (Raise (Error msg), f) ->
      exists w',
        sql_execute self sql val w = (Return (None, None), w')
        /\ In ("Error: " ++ msg)%string (stdout w'))
  /\ (forall msg f,
         sql_query_try self sql val {| conn := None; cur := None; env := w |}
         = (Raise (Error msg), f) ->
         exists w',
           sql_query self sql val w = (Return None, w')
           /\ In ("Error: " ++ msg)%string (stdout w'))
  /\ (forall msg, fst (sql_execute self sql val w) <> Raise (Error msg))
  /\ (forall msg, fst (sql_query self sql val w) <> Raise (Error msg))
  /\ (forall e f,
         sql_execute_try self sql val {| conn := None; cur := None; env := w |}
         = (Raise e, f) ->
         (forall msg, e <> Error msg) ->
         fst (sql_execute self sql val w) = Raise e)
  /\ (forall e f,
         sql_query_try self sql val {| conn := None; cur := None; env := w |}
         = (Raise e, f) ->
         (forall msg, e <> Error msg) ->
         fst (sql_query self sql val w) = Raise e).
Proof.
  split; [|split; [|split; [|split; [|split]]]].
  - intros msg f H. exact (ManagerFacts.guarded_error _ _ _ _ _ H).
  - intros msg f H. exact (ManagerFacts.guarded_error _ _ _ _ _ H).
  - intros msg. apply ManagerFacts.guarded_no_error.
  - intros msg. apply ManagerFacts.guarded_no_error.
  - intros e f H Hne. exact (ManagerFacts.guarded_other _ _ _ _ _ H Hne).
  - intros e f H Hne. exact (ManagerFacts.guarded_other _ _ _ _ _ H Hne).
Qed.

(** C2 as stated fails: the calls do propagate an exception.  On a manager
    whose port is not set the connector raises a [TypeError] from
    [connect]; [except Error] does not catch it, the [finally] block finds
    no connection to close, and the [TypeError] leaves [sql_execute] and
    [sql_query]. *)
Lemma type_error_leaves_the_call :
  exists msg,
    fst (@sql_execute MySQL.checking Sample.unset
           (InsertInto "quote" ["content"]) [VStr "C"]
           (@Build_world MySQL.checking Sample.travels []))
    = Raise (TypeError msg)
    /\ @sql_query MySQL.checking Sample.unset (Select SQL.total_quotes) []
         (@Build_world MySQL.checking Sample.travels [])
       = (Raise (TypeError msg),
          @Build_world MySQL.checking Sample.travels []).
Proof. eexists. split; reflexivity. Qed.

Lemma driver_error_gives_sentinel_witness :
  (exists w',
      sql_execute (db Sample.me) (InsertInto "quote" ["content"])
        [VStr "C"] (Sample.at_ Sample.offline)
      = (Return (None, None), w')
      /\ In "Error: Can't connect to MySQL server" (stdout w'))
  /\ (exists w',
         sql_query (db Sample.me) (Select SQL.total_quotes) []
           (Sample.at_ Sample.offline)
         = (Return None, w')
         /\ In "Error: Can't connect to MySQL server" (stdout w'))
  /\ (exists msg,
         fst (@sql_query MySQL.checking Sample.unset
                (Select SQL.total_quotes) []
                (@Build_world MySQL.checking Sample.travels []))
         = Raise (TypeError msg)).
Proof.
  split; [|split].
  - exact (proj1 (driver_error_gives_sentinel (db Sample.me)
                    (InsertInto "quote" ["content"]) [VStr "C"]
                    (Sample.at_ Sample.offline)) _ _ eq_refl).
  - exact (proj1 (proj2 (driver_error_gives_sentinel (db Sample.me)
                           (Select SQL.total_quotes) []
                           (Sample.at_ Sample.offline))) _ _ eq_refl).
  - eexists.
    refine (proj2 (proj2 (proj2 (proj2 (proj2
              (@driver_error_gives_sentinel MySQL.checking Sample.unset
                 (Select SQL.total_quotes) []
                 (@Build_world MySQL.checking Sample.travels []))))))
              _ _ eq_refl _).
    discriminate.
Defined.


(** C3.  When the connection manager returns [(rowcount, lastrowid)], the
    [db_save] of every record returns that same pair, the record's id
    becomes [lastrowid] exactly when [lastrowid] is an integer other than
    zero and is left as it was otherwise, and no other field changes. *)
Theorem db_save_assigns_id {D : Driver} (db : MySQLDB) (w w' : world)
  (rowcount lastrowid : option Z) :
  (truthy_int lastrowid = true
   <-> exists z, lastrowid = Some z /\ z <> 0%Z)
  /\ (forall q : Quote,
         sql_execute db (InsertInto "quote" ["content"; "author_id"; "tags"])
           [VStr (content q); of_int (author_id q);
            VStr (PyStr.join ", " (tags q))] w
         = (Return (rowcount, lastrowid), w') ->
         exists q',
           Quote_db_save q db w = (Return (q', (rowcount, lastrowid)), w')
           /\ id_quote q'
              = (if truthy_int lastrowid then lastrowid else id_quote q)
           /\ content q' = content q /\ author_id q' = author_id q
           /\ tags q' = tags q)
  /\ (forall a : Author,
         sql_execute db
           (InsertInto "author"
              ["name"; "birth_date"; "birth_city"; "birth_state";
               "birth_country"; "description"])
           [VStr (name a); of_date (birth_date a); of_str (birth_city a);
            of_str (birth_state a); of_str (birth_country a);
            VStr (description a)] w
         = (Return (rowcount, lastrowid), w') ->
         exists a',
           Author_db_save a db w = (Return (a', (rowcount, lastrowid)), w')
           /\ id_author a'
              = (if truthy_int lastrowid then lastrowid else id_author a)
           /\ name a' = name a /\ birth_date a' = birth_date a
           /\ birth_city a' = birth_city a /\ birth_state a' = birth_state a
           /\ birth_country a' = birth_country a
           /\ description a' = description a)
  /\ (forall c : Comment,
         sql_execute db
           (InsertInto "comment"
              ["quote_id"; "title"; "details"; "user_email"])
           [VInt (quote_id c); VStr (title c); VStr (details c);
            VStr (user_email c)] w
         = (Return (rowcount, lastrowid), w') ->
         exists c',
           Comment_db_save c db w = (Return (c', (rowcount, lastrowid)), w')
           /\ id_comment c'
              = (if truthy_int lastrowid then lastrowid else id_comment c)
           /\ quote_id c' = quote_id c /\ title c' = title c
           /\ details c' = details c /\ user_email c' = user_email c)
  /\ (forall m : Metadata,
         sql_execute db (InsertInto "metadata" ["key_name"; "key_value"])
           [VStr (key_name m); VStr (PyStr.join ", " (key_value m))] w
         = (Return (rowcount, lastrowid), w') ->
         exists m',
           Metadata_db_save m db w = (Return (m', (rowcount, lastrowid)), w')
           /\ id_key m'
              = (if truthy_int lastrowid then lastrowid else id_key m)
           /\ key_name m' = key_name m /\ key_value m' = key_value m).
Proof.
  split; [|repeat split].
  - destruct lastrowid as [z|]; cbn.
    + rewrite negb_true_iff, Z.eqb_neq. split.
      * intros H. now exists z.
      * now intros (z' & [= <-] & H).
    + split; [discriminate | now intros (z & H & _)].
  - intros q H. unfold Quote_db_save, bind. rewrite H. unfold ret.
    eexists. split; [reflexivity|].
    now destruct (truthy_int lastrowid).
  - intros a H. unfold Author_db_save, bind. rewrite H. unfold ret.
    eexists. split; [reflexivity|].
    now destruct (truthy_int lastrowid).
  - intros c H. unfold Comment_db_save, bind. rewrite H. unfold ret.
    eexists. split; [reflexivity|].
    now destruct (truthy_int lastrowid).
  - intros m H. unfold Metadata_db_save, bind. rewrite H. unfold ret.
    eexists. split; [reflexivity|].
    now destruct (truthy_int lastrowid).
Qed.

Lemma db_save_assigns_id_witness :
  (exists q' w',
      Quote_db_save
        {| id_quote := None; content := "C"; author_id := Some 1%Z;
           tags := ["a"; "b"] |} (db Sample.me) (Sample.at_ Sample.travels)
      = (Return (q', (Some 1%Z, Some 3%Z)), w')
      /\ id_quote q' = Some 3%Z)
  /\ (exists q' w',
         Quote_db_save
           {| id_quote := None; content := "C"; author_id := Some 1%Z;
              tags := ["a"; "b"] |} (db Sample.me) (Sample.at_ Sample.offline)
         = (Return (q', (None, None)), w')
         /\ id_quote q' = None).
Proof.
  split.
  - destruct (proj1 (proj2 (db_save_assigns_id (db Sample.me)
                              (Sample.at_ Sample.travels) _
                              (Some 1%Z) (Some 3%Z)))
                {| id_quote := None; content := "C"; author_id := Some 1%Z;
                   tags := ["a"; "b"] |} eq_refl)
      as (q' & H & I & _).
    exists q'. eexists. split; [exact H | exact I].
  - destruct (proj1 (proj2 (db_save_assigns_id (db Sample.me)
                              (Sample.at_ Sample.offline) _ None None))
                {| id_quote := None; content := "C"; author_id := Some 1%Z;
                   tags := ["a"; "b"] |} eq_refl)
      as (q' & H & I & _).
    exists q'. eexists. split; [exact H | exact I].
Defined.

(** C7.  For an operation name outside the ten of the dispatcher, and any
    value, [run_model] returns the empty list, touches nothing and raises
    nothing. *)
Theorem unknown_operation_is_empty {D : Driver} (self : ModelQueries)
  (query_case : string) (value : value) (w : world) :
  ~ In query_case operations ->
  run_model self query_case value w = (Return (PyRows []), w).
Proof.
  intros H. unfold run_model.
  repeat match goal with
         | |- context [String.eqb query_case ?n] =>
             destruct (String.eqb_spec query_case n) as [->|_];
             [exfalso; apply H; cbn; tauto|]
         end.
  reflexivity.
Qed.

Lemma unknown_operation_is_empty_witness :
  ~ In "delete_quotes" operations
  /\ run_model Sample.me "delete_quotes" VNone (Sample.at_ Sample.offline)
     = (Return (PyRows []), Sample.at_ Sample.offline).
Proof.
  assert (H : ~ In "delete_quotes" operations).
  { cbn. intros K. repeat destruct K as [K|K]; try discriminate K; exact K. }
  split; [exact H|].
  exact (unknown_operation_is_empty Sample.me "delete_quotes" VNone
           (Sample.at_ Sample.offline) H).
Defined.


Module DispatcherFacts.

Lemma known_bare (x n : string) (t : table) (k : nat) :
  mem n (t_cols t) = true ->
  known (scope_of x t) k (Col None n) = true.
Proof.
  unfold mem, scope_of. cbn [known].
  induction (t_cols t) as [|c cs IH]; [easy|].
  cbn [existsb map fst snd]. rewrite andb_true_r.
  destruct (String.eqb n c); [reflexivity | exact IH].
Qed.

(** [SELECT id_quote FROM quote ORDER BY RAND() LIMIT 1] on an empty
    table. *)
Lemma select_random_id_empty (co : collation) (ds : list nat) (d : schema)
  (tq : table) :
  find_table "quote" (s_tables d) = Some tq ->
  mem "id_quote" (t_cols tq) = true ->
  t_rows tq = [] ->
  select_rows co ds d SQL.random_id [] = Some ([], ds).
Proof.
  intros Hq Hc He. unfold select_rows, from_rows.
  cbn [SQL.random_id SQL.limit SQL.order_by SQL.columns SQL.from SQL.col
       sel_items sel_from sel_join sel_where sel_group sel_order sel_limit
       fst snd].
  rewrite Hq. unfold select_known, scan. rewrite He.
  cbn [SQL.random_id SQL.limit SQL.order_by SQL.columns SQL.from SQL.col
       sel_items sel_join sel_where sel_group sel_order sel_limit forallb
       item_known opt_all].
  rewrite (known_bare _ _ _ _ Hc). reflexivity.
Qed.

End DispatcherFacts.

(** C9.  [comments_random_quote] is not total: when its first query comes
    back with the failure sentinel [None] the indexing [rand_id[0]] raises a
    [TypeError], and when the [quote] table is empty it raises an
    [IndexError]; neither a sentinel nor an empty result is returned. *)
Theorem comments_random_quote_raises :
  (forall (D : Driver) (self : ModelQueries) (value : value) (w w' : world),
      sql_query (db self) (Select SQL.random_id) [] w = (Return None, w') ->
      run_model self "comments_random_quote" value w
      = (Raise (TypeError "'NoneType' object is not subscriptable"), w'))
  /\ (forall (self : ModelQueries) (value : value) (s : mysqld)
        (out : list string) (tq ta : table),
         serves s (database (db self)) tq ta ->
         t_rows tq = [] ->
         run_model self "comments_random_quote" value
           {| srv := s; stdout := out |}
         = (Raise (IndexError "list index out of range"),
            {| srv := s;
               stdout := out ++ ["Database connection closed."] |})).
Proof.
  split.
  - intros D self value w w' H. unfold run_model.
    cbn [String.eqb Ascii.eqb Bool.eqb]. unfold bind. now rewrite H.
  - intros self value s out tq ta (Hr & d & Hd & Hq & _ & Hcq & _) He.
    unfold run_model. cbn [String.eqb Ascii.eqb Bool.eqb]. unfold bind.
    cbn [forallb] in Hcq. apply andb_true_iff in Hcq as [Hc _].
    rewrite (ServerFacts.sql_query_select _ _ _ _ _ d _ _ Hr Hd
               (DispatcherFacts.select_random_id_empty _ _ d tq Hq Hc He)).
    now rewrite QueryFacts.with_draws_same.
Qed.

Lemma comments_random_quote_raises_witness :
  fst (run_model Sample.me "comments_random_quote" VNone
         (Sample.at_ Sample.offline))
  = Raise (TypeError "'NoneType' object is not subscriptable")
  /\ fst (run_model Sample.me "comments_random_quote" VNone
            (Sample.at_ Sample.no_quotes))
     = Raise (IndexError "list index out of range").
Proof.
  split.
  - now rewrite (proj1 comments_random_quote_raises driver Sample.me VNone
                   (Sample.at_ Sample.offline) _ eq_refl).
  - unfold Sample.at_.
    now rewrite (proj2 comments_random_quote_raises Sample.me VNone
                   Sample.no_quotes [] _ _ (sample_serves true [] 1 eq_refl)
                   eq_refl).
Defined.

(** C10.  When the table is there and [overwrite] is [False],
    [create_table] returns [None], which a caller testing the result takes
    for a failure, whereas [create_database] returns [True] when the
    database is there. *)
Theorem create_table_returns_none {D : Driver} (self : MySQLDB)
  (table_name : string) (sql_code : statement) (w : world)
  (c : connection) (k k' : cursor) (s1 s2 s3 s4 : server) (r : option row) :
  truthy_row r = true ->
  (connect (connect_to self (Some (database self)) true) (srv w)
   = (Return c, s1) ->
   conn_cursor c false s1 = (Return k, s2) ->
   execute k (ShowTablesLike table_name) [] s2 = (Return k', s3) ->
   fetchone k' s3 = (Return r, s4) ->
   exists w',
     create_table self table_name sql_code false w = (Return PyNone, w')
     /\ truthy PyNone = false)
  /\ (connect (connect_to self None true) (srv w) = (Return c, s1) ->
      conn_cursor c false s1 = (Return k, s2) ->
      execute k (ShowDatabasesLike (database self)) [] s2
      = (Return k', s3) ->
      fetchone k' s3 = (Return r, s4) ->
      exists w',
        create_database self false w = (Return (PyBool true), w')
        /\ truthy (PyBool true) = true).
Proof.
  intros Hr. split; intros H1 H2 H3 H4.
  - unfold create_table, method, try_finally, try_except_Error,
      create_table_try, bind, drv, set_conn, set_cursor, print, ret.
    cbn -[release append]. rewrite H1. cbn -[release append]. rewrite H2.
    cbn -[release append]. rewrite H3. cbn -[release append]. rewrite H4.
    cbn -[release append]. rewrite Hr. cbn -[release append].
    match goal with
    | |- context [release ?g] =>
        destruct (ManagerFacts.release_returns g) as (f' & -> & _)
    end.
    eexists. split; reflexivity.
  - unfold create_database, method, try_finally, try_except_Error,
      create_database_try, bind, drv, set_conn, set_cursor, print, ret.
    cbn -[release append]. rewrite H1. cbn -[release append]. rewrite H2.
    cbn -[release append]. rewrite H3. cbn -[release append]. rewrite H4.
    cbn -[release append]. rewrite Hr. cbn -[release append].
    match goal with
    | |- context [release ?g] =>
        destruct (ManagerFacts.release_returns g) as (f' & -> & _)
    end.
    eexists. split; reflexivity.
Qed.

Lemma create_table_returns_none_witness :
  (exists w',
      create_table (db Sample.me) "quote"
        (CreateTable "quote" "id_quote" Sample.quote_columns) false
        (Sample.at_ Sample.travels)
      = (Return PyNone, w')
      /\ truthy PyNone = false)
  /\ (exists w',
         create_database (db Sample.me) false (Sample.at_ Sample.travels)
         = (Return (PyBool true), w')
         /\ truthy (PyBool true) = true).
Proof.
  split.
  - exact (proj1 (create_table_returns_none (db Sample.me) "quote"
                    (CreateTable "quote" "id_quote" Sample.quote_columns)
                    (Sample.at_ Sample.travels)
                    {| c_database := Some "happy" |}
                    {| k_database := Some "happy"; k_answer := None |}
                    _ _ _ _ _ (Some [("Tables", VStr "quote")]) eq_refl)
             eq_refl eq_refl eq_refl eq_refl).
  - exact (proj2 (create_table_returns_none (db Sample.me) "quote"
                    (CreateTable "quote" "id_quote" Sample.quote_columns)
                    (Sample.at_ Sample.travels)
                    {| c_database := None |}
                    {| k_database := None; k_answer := None |}
                    _ _ _ _ _ (Some [("Database", VStr "happy")]) eq_refl)
             eq_refl eq_refl eq_refl eq_refl).
Defined.


Module RecordFacts.

Lemma optional_positive_shape (a : arg Z) :
  match optional_positive a with
  | Some _ => absent_or_positive a
  | None => ~ absent_or_positive a
  end.
Proof.
  unfold absent_or_positive. destruct a as [| |z]; cbn; auto.
  destruct (Z.ltb_spec 0 z).
  - right; right. now exists z.
  - intros [H'|[H'|(z' & [= <-] & H')]]; try discriminate. lia.
Qed.

Lemma required_positive_shape (a : arg Z) :
  match required_positive a with
  | Some _ => positive_int a
  | None => ~ positive_int a
  end.
Proof.
  unfold positive_int. destruct a as [| |z]; cbn;
    try (intros (z' & H' & _); discriminate).
  destruct (Z.ltb_spec 0 z).
  - now exists z.
  - intros (z' & [= <-] & H'). lia.
Qed.

Lemma required_shape {T} (a : arg T) :
  match required a with
  | Some _ => given a
  | None => ~ given a
  end.
Proof.
  unfold given. destruct a as [| |v]; cbn;
    try (intros (v' & H'); discriminate).
  now exists v.
Qed.

Lemma required_nullable_shape {T} (a : arg T) :
  match required_nullable a with
  | Some _ => passed a
  | None => ~ passed a
  end.
Proof. unfold passed. destruct a; cbn; congruence. Qed.

Lemma required_email_shape (validate_email : string -> option string)
  (a : arg string) :
  match required_email validate_email a with
  | Some _ => accepted validate_email a
  | None => ~ accepted validate_email a
  end.
Proof.
  unfold accepted. destruct a as [| |s]; cbn;
    try (intros (s' & e & H' & _); discriminate).
  destruct (validate_email s) as [e|] eqn:E.
  - now exists s, e.
  - intros (s' & e & [= <-] & H'). congruence.
Qed.

End RecordFacts.

Ltac shapes :=
  repeat match goal with
         | |- context [optional_positive ?a] =>
             let H := fresh in
             pose proof (RecordFacts.optional_positive_shape a) as H;
             destruct (optional_positive a)
         | |- context [required_positive ?a] =>
             let H := fresh in
             pose proof (RecordFacts.required_positive_shape a) as H;
             destruct (required_positive a)
         | |- context [required_email ?v ?a] =>
             let H := fresh in
             pose proof (RecordFacts.required_email_shape v a) as H;
             destruct (required_email v a)
         | |- context [required_nullable ?a] =>
             let H := fresh in
             pose proof (RecordFacts.required_nullable_shape a) as H;
             destruct (required_nullable a)
         | |- context [required ?a] =>
             let H := fresh in
             pose proof (RecordFacts.required_shape a) as H;
             destruct (required a)
         end.

Ltac settle :=
  unfold constructs, refused;
  split; [split|];
  [ first [ intros [? ?]; discriminate | intros _; tauto ]
  | first [ tauto | intros _; eexists; reflexivity ]
  | first [ tauto
          | intros _; eexists; split;
            [ reflexivity | cbn [failed app]; discriminate ] ] ].

(** C5 (amended).  From arguments that are each left out, [None] or a value
    of the annotated type, a record is constructed exactly when every
    argument has the declared shape, and is refused with a validation error
    otherwise:
    an id is left out, [None] or a positive integer, [Comment.quote_id] is a
    positive integer, [Comment.user_email] passes the e-mail check, a date or
    a list is given, a nullable text is passed, and a required text is given,
    the empty text included. *)
Theorem construction_checks_declared_shapes
  (validate_email : string -> option string) :
  (forall i c a t,
      (constructs (Quote_init i c a t) <-> Quote_shape i c a t)
      /\ (~ Quote_shape i c a t -> refused (Quote_init i c a t)))
  /\ (forall i n b c s k d,
         (constructs (Author_init i n b c s k d)
          <-> Author_shape i n b c s k d)
         /\ (~ Author_shape i n b c s k d
             -> refused (Author_init i n b c s k d)))
  /\ (forall i q t d e,
         (constructs (Comment_init validate_email i q t d e)
          <-> Comment_shape validate_email i q t d e)
         /\ (~ Comment_shape validate_email i q t d e
             -> refused (Comment_init validate_email i q t d e)))
  /\ (forall i n v,
         (constructs (Metadata_init i n v) <-> Metadata_shape i n v)
         /\ (~ Metadata_shape i n v -> refused (Metadata_init i n v))).
Proof.
  split; [|split; [|split]].
  - intros i c a t. unfold Quote_shape, Quote_init. shapes; settle.
  - intros i n b c s k d. unfold Author_shape, Author_init. shapes; settle.
  - intros i q t d e. unfold Comment_shape, Comment_init. shapes; settle.
  - intros i n v. unfold Metadata_shape, Metadata_init. shapes; settle.
Qed.

(** C5 as stated fails: a required text may be empty.  A quote whose
    content is the empty text is constructed. *)
Lemma empty_text_is_accepted :
  Quote_init Omitted (Given "") Omitted (Given ["a"])
  = Return {| id_quote := None; content := ""; author_id := None;
              tags := ["a"] |}.
Proof. reflexivity. Qed.

Lemma construction_checks_declared_shapes_witness :
  refused (Comment_init Sample.needs_at Omitted (Given 1%Z) (Given "t")
             (Given "d") (Given "nobody"))
  /\ refused (Comment_init Sample.needs_at Omitted (Given (-1)%Z) (Given "t")
                (Given "d") (Given "me@example.org"))
  /\ constructs (Comment_init Sample.needs_at Omitted (Given 1%Z) (Given "")
                   (Given "") (Given "me@example.org")).
Proof.
  pose proof (proj1 (proj2 (proj2
    (construction_checks_declared_shapes Sample.needs_at)))) as H.
  repeat split.
  - apply (H Omitted (Given 1%Z) (Given "t") (Given "d") (Given "nobody")).
    intros (_ & _ & _ & _ & (s & e & [= <-] & E)). discriminate E.
  - apply (H Omitted (Given (-1)%Z) (Given "t") (Given "d")
             (Given "me@example.org")).
    intros (_ & (z & [= <-] & L) & _). lia.
  - apply (H Omitted (Given 1%Z) (Given "") (Given "")
             (Given "me@example.org")).
    repeat split.
    + now left.
    + exists 1%Z. split; [reflexivity | lia].
    + now exists "".
    + now exists "".
    + now exists "me@example.org", "me@example.org".
Defined.


(** C4 (amended).  Joining a list of tags with [", "] and splitting the
    result on [", "] gives the list back if and only if the list is not
    empty and no tag contains [", "] (the empty list comes back as the list
    of one empty text); and a quote saved with tags ["a"] and ["b"] is
    fetched back by its id with the tags field ["a, b"]. *)
Theorem tags_round_trip :
  (forall l : list string,
      PyStr.split ", " (PyStr.join ", " l) = Some l
      <-> l <> [] /\ Forall (fun t => PyStr.contains ", " t = false) l)
  /\ (exists q' w',
         Quote_db_save
           {| id_quote := None; content := "C"; author_id := Some 1%Z;
              tags := ["a"; "b"] |} (db Sample.me) (Sample.at_ Sample.travels)
         = (Return (q', (Some 1%Z, Some 3%Z)), w')
         /\ id_quote q' = Some 3%Z
         /\ fst (Quote_fetch_by_id (db Sample.me) (VInt 3) w')
            = Return
                (Some [[("content", VStr "C");
                        ("author_name", VStr "Mark Twain");
                        ("tags", VStr "a, b")]])).
Proof.
  split.
  - intros l. unfold PyStr.split. split.
    + intros [= H]. split.
      * intros ->. discriminate H.
      * rewrite <- H at 1.
        apply PyStrFacts.split_go_pieces; [discriminate | now left |].
        reflexivity.
    + intros [Hne Hall]. f_equal. now apply PyStrFacts.split_join.
  - do 2 eexists. repeat split.
Qed.

(** C4 as stated fails on the empty list: no tag of it contains [", "], and
    yet it comes back as the list of one empty text. *)
Lemma empty_tags_do_not_round_trip :
  Forall (fun t => PyStr.contains ", " t = false) []
  /\ PyStr.split ", " (PyStr.join ", " []) = Some [""]
  /\ PyStr.split ", " (PyStr.join ", " []) <> Some [].
Proof. repeat split; [constructor | discriminate]. Qed.

(** * Further properties of the data-access layer *)

Module EngineFacts.

(** Every statement the server accepts leaves it reachable or not as it was,
    with the collation it had. *)
Lemma run_keeps_server (s s' : mysqld) (sel : option string) (st : statement)
  (params : list value) (a : answer) :
  run s sel st params = Some (a, s') ->
  reachable s' = reachable s /\ coll s' = coll s.
Proof.
  destruct st; cbn [run]; intros H;
    repeat match type of H with
           | match ?x with _ => _ end = _ => destruct x eqn:?
           | (if ?x then _ else _) = _ => destruct x eqn:?
           | (let (_, _) := ?x in _) = _ => destruct x eqn:?
           end;
    try discriminate; injection H as <- <-; now split.
Qed.

(** A [SELECT] changes nothing but the random draws. *)
Lemma run_select (s s' : mysqld) (sel : option string) (q : select)
  (params : list value) (a : answer) :
  run s sel (Select q) params = Some (a, s') ->
  exists rs ds, a = result_set rs /\ s' = with_draws s ds.
Proof.
  cbn [run]. destruct (in_schema s sel); [|discriminate].
  destruct (select_rows _ _ _ _ _) as [[rs ds]|]; [|discriminate].
  intros [= <- <-]. now exists rs, ds.
Qed.

(** What [sql_query] does on this server, case by case. *)
Lemma sql_query_cases (self : MySQLDB) (st : statement) (params : list value)
  (s : mysqld) (out : list string) :
  sql_query self st params {| srv := s; stdout := out |}
  = if reachable s then
      match find_schema (database self) (schemas s) with
      | Some _ =>
          match run s (Some (database self)) st params with
          | Some (a, s') =>
              match a_rows a with
              | Some rs =>
                  (Return (Some rs),
                   {| srv := s';
                      stdout := out ++ ["Database connection closed."] |})
              | None =>
                  (Return None,
                   {| srv := s';
                      stdout := (out ++ ["Error: No result set to fetch from"])
                                ++ ["Database connection closed."] |})
              end
          | None =>
              (Return None,
               {| srv := s;
                  stdout := (out ++ ["Error: The server refused the statement"])
                            ++ ["Database connection closed."] |})
          end
      | None =>
          (Return None,
           {| srv := s;
              stdout := out ++ [("Error: Unknown database '"
                                 ++ database self ++ "'")%string] |})
      end
    else
      (Return None,
       {| srv := s;
          stdout := out ++ ["Error: Can't connect to MySQL server"] |}).
Proof.
  unfold sql_query, method, try_finally, try_except_Error, sql_query_try.
  unfold bind, drv, set_conn, set_cursor, print, ret. cbn -[run append].
  unfold connect_. destruct (reachable s) eqn:Hr; cbn -[run append];
    [|reflexivity].
  destruct (find_schema _ _) eqn:Hd; cbn -[run append]; [|reflexivity].
  unfold execute_. rewrite Hr. cbn -[run append].
  destruct (run _ _ _ _) as [[a s']|] eqn:E; cbn -[run append].
  - destruct (run_keeps_server _ _ _ _ _ _ E) as [Hr' _].
    unfold result_of. cbn -[run append].
    destruct (a_rows a); cbn -[run append]; unfold release;
      cbn -[run append]; rewrite Hr', Hr; reflexivity.
  - unfold release. cbn -[run append]. now rewrite Hr.
Qed.

End EngineFacts.

Module ReadOnlyFacts.

Import Data.

Lemma same_data_refl (s : mysqld) : same_data s s.
Proof. now repeat split. Qed.

Lemma same_data_trans (a b c : mysqld) :
  same_data a b -> same_data b c -> same_data a c.
Proof. unfold same_data. intros (-> & -> & ->) (-> & -> & ->). now repeat split. Qed.

Lemma keeps_ret {A} (a : A) : keeps (ret a).
Proof. intros w. apply same_data_refl. Qed.

Lemma keeps_raise {A} (e : exn) : keeps (@raise world A e).
Proof. intros w. apply same_data_refl. Qed.

Lemma keeps_bind {A B} (m : M world A) (k : A -> M world B) :
  keeps m -> (forall a, keeps (k a)) -> keeps (bind m k).
Proof.
  intros Hm Hk w. unfold bind. specialize (Hm w).
  destruct (m w) as [[a|e] w1]; cbn [snd] in *; [|exact Hm].
  eapply same_data_trans; [exact Hm | apply Hk].
Qed.

Lemma keeps_sql_query_select (self : MySQLDB) (q : select)
  (params : list value) :
  keeps (sql_query self (Select q) params).
Proof.
  intros [s out]. rewrite EngineFacts.sql_query_cases. cbn [srv].
  destruct (reachable s); [|apply same_data_refl].
  destruct (find_schema _ _); [|apply same_data_refl].
  destruct (run _ _ _ _) as [[a s']|] eqn:E; [|apply same_data_refl].
  destruct (EngineFacts.run_select _ _ _ _ _ _ E) as (rs & ds & -> & ->).
  cbn. now repeat split.
Qed.

Lemma keeps_first_id_quote (r : option (list row)) : keeps (first_id_quote r).
Proof.
  destruct r as [[|x l]|]; cbn [first_id_quote]; try apply keeps_raise.
  destruct (get _ _); [apply keeps_ret | apply keeps_raise].
Qed.

End ReadOnlyFacts.

(** X1.  No operation of the dispatcher writes: whatever the operation name
    and the value, and whether the call returns or raises, the databases,
    their tables and their rows are afterwards what they were. *)
Theorem run_model_reads_only (self : ModelQueries) (query_case : string)
  (value : value) (w : world) :
  schemas (srv (snd (run_model self query_case value w))) = schemas (srv w).
Proof.
  enough (H : Data.keeps (run_model self query_case value)) by apply H.
  unfold run_model, rows, Quote_fetch_by_author, Quote_fetch_by_tag,
    Quote_fetch_by_id, Quote_fetch_all, Author_fetch_by_name,
    Metadata_fetch_by_key_name.
  repeat match goal with
         | |- Data.keeps (if ?b then _ else _) => destruct b
         | |- Data.keeps (bind _ _) => apply ReadOnlyFacts.keeps_bind; intros
         | |- Data.keeps (match ?v with _ => _ end) => destruct v
         | |- _ =>
             first [ apply ReadOnlyFacts.keeps_ret
                   | apply ReadOnlyFacts.keeps_raise
                   | apply ReadOnlyFacts.keeps_sql_query_select
                   | apply ReadOnlyFacts.keeps_first_id_quote ]
         end.
Qed.

Module MoreQueryFacts.

Import ServerFacts.

Lemma lookup_bare (x n : string) (r : row) :
  lookup None n (qualify x r) = field n r.
Proof.
  unfold field. induction r as [|[k v] r IH]; [reflexivity|].
  cbn [qualify map lookup get fst snd]. rewrite andb_true_r.
  now destruct (String.eqb n k).
Qed.

Lemma from_single (co : collation) (params : list value) (d : schema)
  (t : string) (tb : table) (q : select) :
  find_table t (s_tables d) = Some tb ->
  sel_from q = (t, None) ->
  sel_join q = None ->
  from_rows co params d q = Some (scope_of t tb, scan t tb).
Proof.
  intros Ht Hf Hj. unfold from_rows. rewrite Hf, Hj. cbn [fst snd].
  now rewrite Ht.
Qed.

Lemma known_columns (x : string) (t : table) (k : nat) (cs : list string) :
  forallb (fun c => mem c (t_cols t)) cs = true ->
  forallb (item_known (scope_of x t) k) (map SQL.col cs) = true.
Proof.
  induction cs as [|c cs IH]; [reflexivity|].
  cbn [forallb map]. rewrite !andb_true_iff. intros [Hc Hcs]. split; auto.
  cbn [item_known SQL.col]. now apply DispatcherFacts.known_bare.
Qed.

(** A row of one table, cut down to the columns [cs]. *)
Lemma project_columns (params : list value) (x : string) (cs : list string)
  (r : row) :
  project params (map SQL.col cs) (qualify x r)
  = map (fun c => (c, field c r)) cs.
Proof.
  unfold project. rewrite map_map. apply map_ext. intros c.
  cbn [SQL.col column_name operand_value]. now rewrite lookup_bare.
Qed.

Lemma no_count (cs : list string) : existsb is_count (map SQL.col cs) = false.
Proof. induction cs; [reflexivity | exact IHcs]. Qed.

Lemma params_of_columns (cs : list string) :
  list_sum (map item_params (map SQL.col cs)) = 0.
Proof. induction cs; [reflexivity | exact IHcs]. Qed.

(** [SELECT cs FROM t WHERE c = %s] *)
Lemma select_where_eq (co : collation) (ds : list nat) (d : schema)
  (t c : string) (cs : list string) (tb : table) (v : value) :
  find_table t (s_tables d) = Some tb ->
  forallb (fun c => mem c (t_cols tb)) (c :: cs) = true ->
  select_rows co ds d
    (SQL.where_ (Eq (Col None c) (Param 0))
       (SQL.columns (map SQL.col cs) (SQL.from t None))) [v]
  = Some (map (fun r => map (fun c => (c, field c r)) cs)
            (filter (fun r => value_eqb co (field c r) v) (t_rows tb)),
          ds).
Proof.
  intros Ht Hc. cbn [forallb] in Hc. apply andb_true_iff in Hc as [Hc Hcs].
  unfold select_rows.
  rewrite (from_single _ _ _ t tb) by (assumption || reflexivity).
  unfold select_known, select_params.
  cbn [SQL.where_ SQL.columns SQL.from sel_items sel_join sel_where sel_group
       sel_order sel_limit opt_all opt_sum cond_known cond_params
       operand_params List.length].
  rewrite (known_columns _ _ _ _ Hcs), (DispatcherFacts.known_bare _ _ _ _ Hc),
    params_of_columns, no_count.
  cbn [known andb negb Nat.ltb Nat.leb Nat.add Nat.eqb].
  unfold scan. rewrite filter_map, map_map.
  rewrite (filter_ext _ (fun r => value_eqb co (field c r) v))
    by (intros r; cbn [holds operand_value nth]; now rewrite lookup_bare).
  do 2 f_equal. apply map_ext. intros r. apply project_columns.
Qed.

(** [SELECT COUNT( * ) AS total_quotes FROM quote] *)
Lemma select_total (co : collation) (ds : list nat) (d : schema) (tq : table) :
  find_table "quote" (s_tables d) = Some tq ->
  select_rows co ds d SQL.total_quotes []
  = Some ([[("total_quotes", VInt (Z.of_nat (List.length (t_rows tq))))]], ds).
Proof.
  intros Ht. unfold select_rows.
  rewrite (from_single _ _ _ "quote" tq) by (assumption || reflexivity).
  cbn. unfold scan. now rewrite length_map.
Qed.

Section QuoteWithAuthor.

Variables (s : mysqld) (tq ta : table) (d : schema).
Hypothesis Hq : find_table "quote" (s_tables d) = Some tq.
Hypothesis Ha : find_table "author" (s_tables d) = Some ta.
Hypothesis Hcq :
  forallb (fun c => mem c (t_cols tq))
    ["id_quote"; "content"; "author_id"; "tags"] = true.
Hypothesis Hca :
  forallb (fun c => mem c (t_cols ta)) ["id_author"; "name"] = true.

Ltac known_columns :=
  unfold select_known;
  cbn [SQL.where_ SQL.quote_with_author SQL.random_quotes SQL.limit
       SQL.order_by SQL.columns SQL.join SQL.from
       sel_items sel_join sel_where sel_group sel_order sel_limit
       forallb item_known opt_all cond_known fst snd];
  rewrite ?(QueryFacts.known_q tq ta Hcq), ?(QueryFacts.known_a tq ta Hca)
    by (cbn [In]; tauto);
  reflexivity.

(** [SELECT ... FROM quote q JOIN author a ON ...] *)
Lemma select_all :
  select_rows (coll s) (draws s) d SQL.quote_with_author []
  = Some (map quote_row (pairs (coll s) tq ta), draws s).
Proof.
  unfold select_rows.
  rewrite (from_quote_author _ _ _ tq ta) by (assumption || reflexivity).
  replace (select_known _ _ _) with true by (symmetry; known_columns).
  match goal with
  | |- context [select_params ?q] => change (select_params q) with 0
  end.
  cbn [SQL.quote_with_author SQL.columns SQL.join SQL.from
       sel_items sel_join sel_where sel_group sel_order sel_limit
       List.length Nat.eqb andb negb existsb is_count orb].
  rewrite map_map. do 2 f_equal.
  apply map_ext. intros qa. apply (QueryFacts.project_aliased []).
Qed.

(** [... WHERE q.id_quote = %s] *)
Lemma select_by_id (v : value) :
  select_rows (coll s) (draws s) d
    (SQL.where_ (Eq (SQL.q_ "id_quote") (Param 0)) SQL.quote_with_author) [v]
  = Some (map quote_row
            (filter (fun qa => value_eqb (coll s) (field "id_quote" (fst qa)) v)
               (pairs (coll s) tq ta)),
          draws s).
Proof.
  unfold select_rows.
  rewrite (from_quote_author _ _ _ tq ta) by (assumption || reflexivity).
  replace (select_known _ _ _) with true by (symmetry; known_columns).
  match goal with
  | |- context [select_params ?q] => change (select_params q) with 1
  end.
  cbn [SQL.where_ SQL.quote_with_author SQL.columns SQL.join SQL.from
       sel_items sel_join sel_where sel_group sel_order sel_limit
       List.length Nat.eqb andb negb existsb is_count orb].
  rewrite filter_map, map_map. do 2 f_equal.
  rewrite (filter_ext _
             (fun qa => value_eqb (coll s) (field "id_quote" (fst qa)) v)).
  - apply map_ext. intros qa. apply (QueryFacts.project_aliased [v]).
  - intros qa. cbn [holds operand_value nth SQL.q_]. now rewrite glue_q.
Qed.

(** [... ORDER BY RAND() LIMIT 1] *)
Lemma select_one_random :
  select_rows (coll s) (draws s) d (SQL.random_quotes (Lit 1)) []
  = Some (firstn 1 (shuffle (draws s) (map quote_row (pairs (coll s) tq ta))),
          skipn (List.length (map quote_row (pairs (coll s) tq ta)))
            (draws s)).
Proof.
  unfold select_rows.
  rewrite (from_quote_author _ _ _ tq ta) by (assumption || reflexivity).
  replace (select_known _ _ _) with true by (symmetry; known_columns).
  match goal with
  | |- context [select_params ?q] => change (select_params q) with 0
  end.
  cbn [SQL.random_quotes SQL.limit SQL.order_by SQL.columns SQL.join SQL.from
       sel_items sel_join sel_where sel_group sel_order sel_limit
       List.length Nat.eqb andb negb existsb is_count orb].
  rewrite map_map.
  rewrite (map_ext _ quote_row)
    by (intros qa; apply (QueryFacts.project_bare [] (Lit 1))).
  reflexivity.
Qed.

End QuoteWithAuthor.

End MoreQueryFacts.

Import Data.

(** X2.  [total_quotes] returns one row whose [total_quotes] is the number
    of rows of the [quote] table, [0] for an empty table, whatever value is
    passed along. *)
Theorem total_quotes_counts_rows (self : ModelQueries) (value : value)
  (s : mysqld) (out : list string) (tq : table) :
  has_table s (database (db self)) "quote" tq ->
  run_model self "total_quotes" value {| srv := s; stdout := out |}
  = (Return
       (PyRows
          [[("total_quotes", VInt (Z.of_nat (List.length (t_rows tq))))]]),
     closed s out).
Proof.
  intros (Hr & d & Hd & Hq).
  unfold run_model. cbn [String.eqb Ascii.eqb Bool.eqb]. unfold rows, bind.
  rewrite (ServerFacts.sql_query_select _ _ _ _ _ d _ _ Hr Hd
             (MoreQueryFacts.select_total _ _ d tq Hq)).
  now rewrite QueryFacts.with_draws_same.
Qed.

Lemma total_quotes_counts_rows_witness :
  fst (run_model Sample.me "total_quotes" VNone (Sample.at_ Sample.no_quotes))
  = Return (PyRows [[("total_quotes", VInt 0)]])
  /\ fst (run_model Sample.me "total_quotes" VNone
            (Sample.at_ Sample.travels))
     = Return (PyRows [[("total_quotes", VInt 2)]]).
Proof.
  split.
  - unfold Sample.at_.
    now rewrite (total_quotes_counts_rows Sample.me VNone Sample.no_quotes []
                   (Sample.quote [] 1)
                   (conj eq_refl (ex_intro _ _ (conj eq_refl eq_refl)))).
  - unfold Sample.at_.
    now rewrite (total_quotes_counts_rows Sample.me VNone Sample.travels []
                   (Sample.quote Sample.travel_rows 3)
                   (conj eq_refl (ex_intro _ _ (conj eq_refl eq_refl)))).
Defined.

(** X3.  [all_quotes] returns the projection of every quote that has an
    author row and of no other, in an order that is the server's: a quote
    whose [author_id] matches no author is left out. *)
Theorem all_quotes_are_the_joined_quotes (self : ModelQueries) (value : value)
  (s : mysqld) (out : list string) (tq ta : table) :
  serves s (database (db self)) tq ta ->
  exists rs,
    run_model self "all_quotes" value {| srv := s; stdout := out |}
    = (Return (PyRows rs), closed s out)
    /\ Permutation rs (map quote_row (pairs (coll s) tq ta)).
Proof.
  intros (Hr & d & Hd & Hq & Ha & Hcq & Hca).
  unfold run_model. cbn [String.eqb Ascii.eqb Bool.eqb].
  unfold rows, bind, Quote_fetch_all.
  rewrite (ServerFacts.sql_query_select _ _ _ _ _ d _ _ Hr Hd
             (MoreQueryFacts.select_all s tq ta d Hq Ha Hcq Hca)).
  rewrite QueryFacts.with_draws_same.
  eexists. split; [reflexivity | apply Permutation_refl].
Qed.

Lemma all_quotes_are_the_joined_quotes_witness :
  (exists rs,
      fst (run_model Sample.me "all_quotes" VNone (Sample.at_ Sample.orphan))
      = Return (PyRows rs)
      /\ rs = [])
  /\ (exists rs,
         fst (run_model Sample.me "all_quotes" VNone
                (Sample.at_ Sample.travels))
         = Return (PyRows rs)
         /\ Permutation rs
              [[("content", VStr "Travel is fatal to prejudice.");
                ("author_name", VStr "Mark Twain"); ("tags", VStr "travel")];
               [("content", VStr "Twenty years from now.");
                ("author_name", VStr "Mark Twain");
                ("tags", VStr "travel-logs")]]).
Proof.
  split; unfold Sample.at_.
  - destruct (all_quotes_are_the_joined_quotes Sample.me VNone
                Sample.orphan [] _ _ (sample_serves true _ 2 eq_refl))
      as (rs & H & P).
    exists rs. rewrite H. split; [reflexivity|].
    change (Permutation rs []) in P.
    now apply Permutation_sym, Permutation_nil in P.
  - destruct (all_quotes_are_the_joined_quotes Sample.me VNone
                Sample.travels [] _ _ (sample_serves true _ 3 eq_refl))
      as (rs & H & P).
    exists rs. rewrite H. split; [reflexivity | exact P].
Defined.

(** X4.  [random_quote] returns one row when some quote has an author row
    and none otherwise, and the row it returns is the projection of such a
    quote. *)
Theorem random_quote_is_a_joined_quote (self : ModelQueries) (value : value)
  (s : mysqld) (out : list string) (tq ta : table) :
  serves s (database (db self)) tq ta ->
  exists rs w,
    run_model self "random_quote" value {| srv := s; stdout := out |}
    = (Return (PyRows rs), w)
    /\ List.length rs = Nat.min 1 (List.length (pairs (coll s) tq ta))
    /\ (forall r, In r rs -> In r (map quote_row (pairs (coll s) tq ta)))
    /\ schemas (srv w) = schemas s.
Proof.
  intros (Hr & d & Hd & Hq & Ha & Hcq & Hca).
  unfold run_model. cbn [String.eqb Ascii.eqb Bool.eqb]. unfold rows, bind.
  rewrite (ServerFacts.sql_query_select _ _ _ _ _ d _ _ Hr Hd
             (MoreQueryFacts.select_one_random s tq ta d Hq Ha Hcq Hca)).
  do 2 eexists. split; [reflexivity|]. repeat split.
  - now rewrite length_firstn, ShuffleFacts.shuffle_length, length_map.
  - intros r Hin.
    eapply Permutation_in; [apply ShuffleFacts.shuffle_perm |].
    rewrite <- (firstn_skipn 1 (shuffle _ _)). apply in_or_app. left.
    exact Hin.
Qed.

Lemma random_quote_is_a_joined_quote_witness :
  exists rs w,
    run_model Sample.me "random_quote" VNone (Sample.at_ Sample.travels)
    = (Return (PyRows rs), w)
    /\ List.length rs = 1.
Proof.
  destruct (random_quote_is_a_joined_quote Sample.me VNone Sample.travels []
              _ _ (sample_serves true _ 3 eq_refl))
    as (rs & w & H & L & _).
  exists rs, w. split; [exact H | exact L].
Defined.

Module InsertFacts.

Lemma find_schema_name (n : string) (ss : list schema) (d : schema) :
  find_schema n ss = Some d -> String.eqb n (s_name d) = true.
Proof.
  induction ss as [|e ss IH]; cbn [find_schema]; [discriminate|].
  destruct (String.eqb n (s_name e)) eqn:E; [|exact IH].
  now intros [= <-].
Qed.

Lemma find_table_name (n : string) (ts : list table) (t : table) :
  find_table n ts = Some t -> String.eqb n (t_name t) = true.
Proof.
  induction ts as [|e ts IH]; cbn [find_table]; [discriminate|].
  destruct (String.eqb n (t_name e)) eqn:E; [|exact IH].
  now intros [= <-].
Qed.

(** A database put back under its name is the one found under it. *)
Lemma find_put_schema (n : string) (ss : list schema) (d d' : schema) :
  find_schema n ss = Some d ->
  s_name d' = s_name d ->
  find_schema n (put_schema d' ss) = Some d'.
Proof.
  intros Hf Hn. pose proof (find_schema_name _ _ _ Hf) as Hd.
  apply String.eqb_eq in Hd. subst n.
  induction ss as [|e ss IH]; cbn [find_schema put_schema] in *;
    [discriminate|].
  rewrite Hn.
  destruct (String.eqb (s_name d) (s_name e)) eqn:E.
  - cbn [find_schema]. now rewrite Hn, String.eqb_refl.
  - cbn [find_schema]. rewrite E. now apply IH.
Qed.

Lemma find_put_table (n : string) (ts : list table) (t t' : table) :
  find_table n ts = Some t ->
  t_name t' = t_name t ->
  find_table n (put_table t' ts) = Some t'.
Proof.
  intros Hf Hn. pose proof (find_table_name _ _ _ Hf) as Hd.
  apply String.eqb_eq in Hd. subst n.
  induction ts as [|e ts IH]; cbn [find_table put_table] in *;
    [discriminate|].
  rewrite Hn.
  destruct (String.eqb (t_name t) (t_name e)) eqn:E.
  - cbn [find_table]. now rewrite Hn, String.eqb_refl.
  - cbn [find_table]. rewrite E. now apply IH.
Qed.

(** Putting a table back leaves the tables of other names alone. *)
Lemma find_put_other (n : string) (ts : list table) (t' : table) :
  String.eqb n (t_name t') = false ->
  find_table n (put_table t' ts) = find_table n ts.
Proof.
  intros Hn. induction ts as [|e ts IH]; cbn [find_table put_table].
  - now rewrite Hn.
  - destruct (String.eqb (t_name t') (t_name e)) eqn:E.
    + apply String.eqb_eq in E. cbn [find_table]. now rewrite Hn, <- E, Hn.
    + cbn [find_table]. now rewrite IH.
Qed.

(** What [sql_execute] does with an [INSERT] the server accepts. *)
Lemma sql_execute_insert (self : MySQLDB) (tn : string) (cols : list string)
  (params : list value) (s : mysqld) (out : list string) (d : schema)
  (t : table) :
  reachable s = true ->
  find_schema (database self) (schemas s) = Some d ->
  find_table tn (s_tables d) = Some t ->
  forallb (fun c => mem c (t_cols t)) cols = true ->
  List.length cols = List.length params ->
  sql_execute self (InsertInto tn cols) params {| srv := s; stdout := out |}
  = (Return (Some 1%Z, Some (Zpos (t_auto t))),
     Data.closed (Data.after_insert s d t cols params) out).
Proof.
  intros Hr Hd Ht Hc Hl.
  unfold sql_execute, method, try_finally, try_except_Error, sql_execute_try.
  unfold bind, drv, set_conn, set_cursor, ret. cbn -[run append].
  unfold connect_. rewrite Hr. cbn -[run append]. rewrite Hd.
  cbn -[run append]. unfold execute_. rewrite Hr. cbn -[append].
  rewrite Hd, Ht, Hc, Hl, Nat.eqb_refl. cbn -[append].
  unfold release. cbn -[append]. rewrite Hr. reflexivity.
Qed.

(** The new row: the key is the next one, a column of the statement holds
    its parameter. *)
Lemma field_new_row (t : table) (cols : list string) (params : list value)
  (c : string) :
  mem c (t_cols t) = true ->
  field c (new_row t cols params)
  = if String.eqb c (t_key t) then VInt (Zpos (t_auto t))
    else field c (combine cols params).
Proof.
  unfold field, new_row, mem.
  induction (t_cols t) as [|x xs IH]; cbn [existsb map get]; [discriminate|].
  destruct (String.eqb c x) eqn:E.
  - apply String.eqb_eq in E. subst x. intros _.
    destruct (String.eqb c (t_key t)); [reflexivity|].
    now destruct (get c (combine cols params)).
  - cbn [orb]. exact IH.
Qed.

End InsertFacts.

Module RoundTripFacts.

Import InsertFacts.

Lemma after_insert_serves (s : mysqld) (n : string) (d : schema)
  (t : table) (cols : list string) (params : list value) :
  find_schema n (schemas s) = Some d ->
  find_table (t_name t) (s_tables d) = Some t ->
  let s' := after_insert s d t cols params in
  let d' := with_tables d (put_table (insert_into t cols params) (s_tables d)) in
  reachable s' = reachable s /\ coll s' = coll s /\ draws s' = draws s
  /\ find_schema n (schemas s') = Some d'
  /\ find_table (t_name t) (s_tables d') = Some (insert_into t cols params)
  /\ (forall m, String.eqb m (t_name t) = false ->
                find_table m (s_tables d') = find_table m (s_tables d)).
Proof.
  intros Hd Ht. cbn zeta. repeat split.
  - cbn. now apply (find_put_schema _ _ d).
  - cbn. now apply (find_put_table _ _ t).
  - intros m Hm. cbn. now apply find_put_other.
Qed.

(** No pair of the join has a quote that [keep] rejects throughout. *)
Lemma filter_pairs_none (co : collation) (tq ta : table)
  (keep : row -> bool) :
  forallb (fun q => negb (keep q)) (t_rows tq) = true ->
  filter (fun qa => keep (fst qa)) (pairs co tq ta) = [].
Proof.
  unfold pairs. induction (t_rows tq) as [|q qs IH]; [reflexivity|].
  cbn [forallb flat_map]. rewrite andb_true_iff, negb_true_iff.
  intros [Hq Hqs]. rewrite filter_app, (IH Hqs), app_nil_r.
  induction (filter _ (t_rows ta)) as [|a l IHl]; [reflexivity|].
  cbn [map filter fst]. now rewrite Hq.
Qed.

Lemma filter_pairs_all {A} (q : row) (keep : row -> bool) (l : list A) :
  keep q = true ->
  filter (fun qa => keep (fst qa)) (map (pair q) l) = map (pair q) l.
Proof.
  intros Hq. induction l as [|a l IH]; [reflexivity|].
  cbn [map filter fst]. now rewrite Hq, IH.
Qed.

End RoundTripFacts.

(** X5.  Save then fetch by id.  On a server whose [quote] table hands out
    keys not yet in use, [db_save] of a quote whose [author_id] is [None] or
    the key of an author row returns [(1, id)] with the new key and stores
    it on the record, and [fetch_by_id] of that key then returns the saved
    content and the tags joined with [", "], once for each author row whose
    [id_author] is the quote's [author_id]: nothing at all for a quote saved
    without author. *)
Theorem quote_save_then_fetch_by_id (db : MySQLDB) (q : Quote) (s : mysqld)
  (out : list string) (tq ta : table) :
  serves s (database db) tq ta ->
  t_key tq = "id_quote" ->
  forallb
    (fun r =>
       negb (value_eqb (coll s) (field "id_quote" r)
               (VInt (Zpos (t_auto tq))))) (t_rows tq) = true ->
  refers (coll s) (of_int (author_id q)) "id_author" ta = true ->
  exists q' w,
    Quote_db_save q db {| srv := s; stdout := out |}
    = (Return (q', (Some 1%Z, Some (Zpos (t_auto tq)))), w)
    /\ id_quote q' = Some (Zpos (t_auto tq))
    /\ fst (Quote_fetch_by_id db (VInt (Zpos (t_auto tq))) w)
       = Return
           (Some
              (map
                 (fun a =>
                    [("content", VStr (content q));
                     ("author_name", field "name" a);
                     ("tags", VStr (PyStr.join ", " (tags q)))])
                 (filter
                    (fun a =>
                       value_eqb (coll s) (of_int (author_id q))
                         (field "id_author" a)) (t_rows ta)))).
Proof.
  intros (Hr & d & Hd & Hq & Ha & Hcq & Hca) Hk Hfresh _.
  set (cols := ["content"; "author_id"; "tags"]).
  set (params := [VStr (content q); of_int (author_id q);
                  VStr (PyStr.join ", " (tags q))]).
  assert (Hn : t_name tq = "quote").
  { apply InsertFacts.find_table_name in Hq. apply String.eqb_eq in Hq.
    now symmetry. }
  assert (Hcols : forallb (fun c => mem c (t_cols tq)) cols = true).
  { pose proof Hcq as H. unfold cols. cbn [forallb] in H |- *.
    now apply andb_true_iff in H as [_ ->]. }
  rewrite <- Hn in Hq.
  destruct (RoundTripFacts.after_insert_serves s _ d tq cols params Hd Hq)
    as (Hr' & Hco' & Hds' & Hd' & Hq' & Ho').
  rewrite Hn in Hq, Hq'.
  unfold Quote_db_save, bind.
  fold cols. fold params.
  rewrite (InsertFacts.sql_execute_insert db "quote" cols params s out d tq
             Hr Hd Hq Hcols eq_refl).
  cbn [truthy_int Z.eqb negb]. unfold ret.
  do 2 eexists. split; [reflexivity|]. split; [reflexivity|].
  unfold Quote_fetch_by_id, closed.
  rewrite Hr in Hr'.
  assert (Ha' : find_table "author"
                  (s_tables
                     (with_tables d
                        (put_table (insert_into tq cols params) (s_tables d))))
                = Some ta).
  { rewrite Ho'; [exact Ha | now rewrite Hn]. }
  rewrite (ServerFacts.sql_query_select _ _ _ _ _ _ _ _ Hr' Hd'
             (MoreQueryFacts.select_by_id _ _ ta _ Hq' Ha' Hcq Hca _)).
  cbn [fst]. do 2 f_equal. rewrite Hco'.
  unfold pairs at 1. cbn [insert_into t_rows].
  rewrite flat_map_app, filter_app. fold (pairs (coll s) tq ta).
  rewrite (RoundTripFacts.filter_pairs_none (coll s) tq ta
             (fun r => value_eqb (coll s) (field "id_quote" r)
                         (VInt (Zpos (t_auto tq)))) Hfresh).
  cbn [flat_map app]. rewrite app_nil_r.
  assert (Fid : field "id_quote" (new_row tq cols params)
                = VInt (Zpos (t_auto tq))).
  { rewrite InsertFacts.field_new_row, Hk; [reflexivity|].
    pose proof Hcq as H. cbn [forallb] in H.
    now apply andb_true_iff in H as [-> _]. }
  assert (Fc : field "content" (new_row tq cols params) = VStr (content q)).
  { rewrite InsertFacts.field_new_row, Hk; [reflexivity|].
    pose proof Hcols as H. unfold cols in H. cbn [forallb] in H.
    now apply andb_true_iff in H as [-> _]. }
  assert (Fa : field "author_id" (new_row tq cols params)
               = of_int (author_id q)).
  { rewrite InsertFacts.field_new_row, Hk; [reflexivity|].
    pose proof Hcols as H. unfold cols in H. cbn [forallb] in H.
    apply andb_true_iff in H as [_ H].
    now apply andb_true_iff in H as [-> _]. }
  assert (Ft : field "tags" (new_row tq cols params)
               = VStr (PyStr.join ", " (tags q))).
  { rewrite InsertFacts.field_new_row, Hk; [reflexivity|].
    pose proof Hcols as H. unfold cols in H. cbn [forallb] in H.
    apply andb_true_iff in H as [_ H].
    apply andb_true_iff in H as [_ H].
    now apply andb_true_iff in H as [-> _]. }
  rewrite (RoundTripFacts.filter_pairs_all (new_row tq cols params)
             (fun r => value_eqb (coll s) (field "id_quote" r)
                         (VInt (Zpos (t_auto tq))))).
  - rewrite map_map, Fa. apply map_ext. intros a.
    unfold quote_row. cbn [fst snd]. now rewrite Fc, Ft.
  - rewrite Fid. cbn [value_eqb]. apply Z.eqb_refl.
Qed.

Lemma quote_save_then_fetch_by_id_witness :
  (exists q' w,
      Quote_db_save
        {| id_quote := None; content := "C"; author_id := Some 1%Z;
           tags := ["a"; "b"] |} (db Sample.me) (Sample.at_ Sample.travels)
      = (Return (q', (Some 1%Z, Some 3%Z)), w)
      /\ id_quote q' = Some 3%Z
      /\ fst (Quote_fetch_by_id (db Sample.me) (VInt 3) w)
         = Return
             (Some [[("content", VStr "C");
                     ("author_name", VStr "Mark Twain");
                     ("tags", VStr "a, b")]]))
  /\ (exists q' w,
         Quote_db_save
           {| id_quote := None; content := "C"; author_id := None;
              tags := ["a"; "b"] |} (db Sample.me) (Sample.at_ Sample.travels)
         = (Return (q', (Some 1%Z, Some 3%Z)), w)
         /\ fst (Quote_fetch_by_id (db Sample.me) (VInt 3) w)
            = Return (Some [])).
Proof.
  split.
  - destruct (quote_save_then_fetch_by_id (db Sample.me)
                {| id_quote := None; content := "C"; author_id := Some 1%Z;
                   tags := ["a"; "b"] |} Sample.travels [] _ _
                (sample_serves true _ 3 eq_refl) eq_refl eq_refl eq_refl)
      as (q' & w & H1 & H2 & H3).
    exists q', w. repeat split; assumption.
  - destruct (quote_save_then_fetch_by_id (db Sample.me)
                {| id_quote := None; content := "C"; author_id := None;
                   tags := ["a"; "b"] |} Sample.travels [] _ _
                (sample_serves true _ 3 eq_refl) eq_refl eq_refl eq_refl)
      as (q' & w & H1 & H2 & H3).
    exists q', w. repeat split; assumption.
Defined.

Module CollationFacts.

Lemma char_eqb_refl (co : collation) (a : ascii) : char_eqb co a a = true.
Proof. destruct co; apply Ascii.eqb_refl. Qed.

(** A text equals itself under every collation. *)
Lemma text_eqb_refl (co : collation) (a : string) : text_eqb co a a = true.
Proof.
  induction a as [|x a IH]; [reflexivity|].
  cbn [text_eqb]. now rewrite char_eqb_refl, IH.
Qed.

End CollationFacts.

(** X6.  Save then fetch for metadata.  [db_save] of a metadata record
    stores its values joined with [", "], and [fetch_by_key_name] of its key
    then returns what it returned before followed by that one row: an older
    row of the same key stays first, where the presentation layer reads
    it. *)
Theorem metadata_save_appends (db : MySQLDB) (m : Metadata) (s : mysqld)
  (out : list string) (tm : table) :
  has_table s (database db) "metadata" tm ->
  forallb (fun c => mem c (t_cols tm) && negb (String.eqb c (t_key tm)))
    ["key_name"; "key_value"] = true ->
  exists m' old w,
    Metadata_fetch_by_key_name db (VStr (key_name m))
      {| srv := s; stdout := out |}
    = (Return (Some old), closed s out)
    /\ Metadata_db_save m db {| srv := s; stdout := out |}
       = (Return (m', (Some 1%Z, Some (Zpos (t_auto tm)))), w)
    /\ id_key m' = Some (Zpos (t_auto tm))
    /\ fst (Metadata_fetch_by_key_name db (VStr (key_name m)) w)
       = Return
           (Some
              (old ++ [[("key_value",
                         VStr (PyStr.join ", " (key_value m)))]])).
Proof.
  intros (Hr & d & Hd & Ht) Hc.
  cbn [forallb] in Hc. rewrite !andb_true_iff, !negb_true_iff in Hc.
  destruct Hc as ((Hn & Hnk) & (Hv & Hvk) & _).
  set (cols := ["key_name"; "key_value"]).
  set (params := [VStr (key_name m); VStr (PyStr.join ", " (key_value m))]).
  assert (Hcols : forallb (fun c => mem c (t_cols tm)) cols = true).
  { unfold cols. cbn [forallb]. now rewrite Hn, Hv. }
  assert (Hname : t_name tm = "metadata").
  { apply InsertFacts.find_table_name in Ht. apply String.eqb_eq in Ht.
    now symmetry. }
  pose proof Ht as Ht0. rewrite <- Hname in Ht0.
  destruct (RoundTripFacts.after_insert_serves s _ d tm cols params Hd Ht0)
    as (Hr' & Hco' & Hds' & Hd' & Ht' & _).
  rewrite Hname in Ht'. rewrite Hr in Hr'.
  do 3 eexists. split; [|split; [|split]].
  - unfold Metadata_fetch_by_key_name.
    rewrite (ServerFacts.sql_query_select _ _ _ _ _ d _ _ Hr Hd
               (MoreQueryFacts.select_where_eq _ _ d "metadata" "key_name"
                  ["key_value"] tm _ Ht
                  ltac:(cbn [forallb]; now rewrite Hn, Hv))).
    rewrite QueryFacts.with_draws_same. reflexivity.
  - unfold Metadata_db_save, bind. fold cols. fold params.
    rewrite (InsertFacts.sql_execute_insert db "metadata" cols params s out d
               tm Hr Hd Ht Hcols eq_refl).
    cbn [truthy_int Z.eqb negb]. unfold ret. reflexivity.
  - reflexivity.
  - unfold Metadata_fetch_by_key_name, closed.
    rewrite (ServerFacts.sql_query_select _ _ _ _ _ _ _ _ Hr' Hd'
               (MoreQueryFacts.select_where_eq _ _ _ "metadata" "key_name"
                  ["key_value"] _ _ Ht'
                  ltac:(cbn [forallb insert_into t_cols];
                        now rewrite Hn, Hv))).
    cbn [fst insert_into t_rows]. do 2 f_equal.
    rewrite Hco', filter_app, map_app. f_equal.
    assert (Fn : field "key_name" (new_row tm cols params)
                 = VStr (key_name m))
      by (rewrite InsertFacts.field_new_row, Hnk by assumption; reflexivity).
    assert (Fv : field "key_value" (new_row tm cols params)
                 = VStr (PyStr.join ", " (key_value m)))
      by (rewrite InsertFacts.field_new_row, Hvk by assumption; reflexivity).
    cbn [filter]. rewrite Fn. cbn [value_eqb].
    rewrite CollationFacts.text_eqb_refl. cbn [map]. now rewrite Fv.
Qed.

Lemma metadata_save_appends_witness :
  exists m' w,
    Metadata_db_save
      {| id_key := None; key_name := "all_tags";
         key_value := ["travel"; "humor"] |} (db Sample.me)
      (Sample.at_ Sample.travels)
    = (Return (m', (Some 1%Z, Some 1%Z)), w)
    /\ fst (Metadata_fetch_by_key_name (db Sample.me) (VStr "all_tags") w)
       = Return (Some [[("key_value", VStr "travel, humor")]]).
Proof.
  destruct (metadata_save_appends (db Sample.me)
              {| id_key := None; key_name := "all_tags";
                 key_value := ["travel"; "humor"] |} Sample.travels []
              (Sample.metadata [] 1)
              (conj eq_refl (ex_intro _ _ (conj eq_refl eq_refl))) eq_refl)
    as (m' & old & w & H0 & H1 & _ & H2).
  exists m', w. split; [exact H1|].
  cbn [key_name key_value] in H0, H2. rewrite H2.
  assert (E : Metadata_fetch_by_key_name (db Sample.me) (VStr "all_tags")
                {| srv := Sample.travels; stdout := [] |}
              = (Return (Some []), closed Sample.travels []))
    by reflexivity.
  rewrite E in H0. injection H0 as <-. reflexivity.
Defined.

(** X7.  A save that fails leaves the record as it was: when the driver
    raises one of its errors during the insert, [db_save] of every record
    returns [(None, None)] and the record unchanged, its id included. *)
Theorem db_save_failure_keeps_record {D : Driver} (db : MySQLDB) (w : world)
  (msg : string) (f : frame) :
  (forall q : Quote,
      sql_execute_try db (InsertInto "quote" ["content"; "author_id"; "tags"])
        [VStr (content q); of_int (author_id q);
         VStr (PyStr.join ", " (tags q))]
        {| conn := None; cur := None; env := w |}
      = (Raise (Error msg), f) ->
      exists w', Quote_db_save q db w = (Return (q, (None, None)), w'))
  /\ (forall a : Author,
         sql_execute_try db
           (InsertInto "author"
              ["name"; "birth_date"; "birth_city"; "birth_state";
               "birth_country"; "description"])
           [VStr (name a); of_date (birth_date a); of_str (birth_city a);
            of_str (birth_state a); of_str (birth_country a);
            VStr (description a)]
           {| conn := None; cur := None; env := w |}
         = (Raise (Error msg), f) ->
         exists w', Author_db_save a db w = (Return (a, (None, None)), w'))
  /\ (forall c : Comment,
         sql_execute_try db
           (InsertInto "comment"
              ["quote_id"; "title"; "details"; "user_email"])
           [VInt (quote_id c); VStr (title c); VStr (details c);
            VStr (user_email c)]
           {| conn := None; cur := None; env := w |}
         = (Raise (Error msg), f) ->
         exists w', Comment_db_save c db w = (Return (c, (None, None)), w'))
  /\ (forall m : Metadata,
         sql_execute_try db (InsertInto "metadata" ["key_name"; "key_value"])
           [VStr (key_name m); VStr (PyStr.join ", " (key_value m))]
           {| conn := None; cur := None; env := w |}
         = (Raise (Error msg), f) ->
         exists w', Metadata_db_save m db w = (Return (m, (None, None)), w')).
Proof.
  repeat split; intros r H;
    destruct (ManagerFacts.guarded_error _ (None, None) _ _ _ H)
      as (w' & E & _);
    exists w';
    unfold Quote_db_save, Author_db_save, Comment_db_save, Metadata_db_save,
      bind;
    unfold sql_execute; rewrite E; reflexivity.
Qed.

Lemma db_save_failure_keeps_record_witness :
  exists w',
    Quote_db_save
      {| id_quote := Some 7%Z; content := "C"; author_id := None;
         tags := [] |} (db Sample.me) (Sample.at_ Sample.offline)
    = (Return
         ({| id_quote := Some 7%Z; content := "C"; author_id := None;
             tags := [] |}, (None, None)), w').
Proof.
  exact (proj1 (db_save_failure_keeps_record (db Sample.me)
                  (Sample.at_ Sample.offline) _ _)
           {| id_quote := Some 7%Z; content := "C"; author_id := None;
              tags := [] |} eq_refl).
Defined.

Module ProvisionFacts.

Section AnyDriver.

Context {D : Driver}.

(** The [finally] block changes no outcome. *)
Lemma finally_release {A} (body : M frame A) (w : world) :
  fst (method (try_finally body release) w)
  = fst (body {| conn := None; cur := None; env := w |}).
Proof.
  unfold method, try_finally.
  destruct (body _) as [r f].
  destruct (ManagerFacts.release_returns f) as (f' & -> & _). reflexivity.
Qed.

Lemma handled {A} (body : M frame A) (sentinel : A) (f : frame) (r : A) :
  fst (try_except_Error body
         (fun e => print ("Error: " ++ e) ;;; ret sentinel) f) = Return r ->
  fst (body f) = Return r \/ r = sentinel.
Proof.
  unfold try_except_Error. destruct (body f) as [[a|e] f']; cbn [fst].
  - now left.
  - destruct e; cbn; try discriminate. intros [= <-]. now right.
Qed.

Ltac step :=
  match goal with
  | |- context [let (_, _) := ?op ?s in _] =>
      let r := fresh "r" in destruct (op s) as [[r|?] ?]
  end.

Lemma create_database_try_value (self : MySQLDB) (overwrite : bool)
  (f : frame) (r : pyobj) :
  fst (create_database_try self overwrite f) = Return r -> r = PyBool true.
Proof.
  unfold create_database_try, bind, drv, set_conn, set_cursor, print, ret.
  cbn -[append].
  repeat (first [ step
                | match goal with
                  | |- context [truthy_row ?x] => destruct (truthy_row x)
                  end
                | destruct overwrite ];
          cbn -[append]);
    intros H; try discriminate H; now injection H as <-.
Qed.

Lemma create_table_try_value (self : MySQLDB) (table_name : string)
  (sql_code : statement) (overwrite : bool) (f : frame) (r : pyobj) :
  fst (create_table_try self table_name sql_code overwrite f) = Return r ->
  r = PyBool true \/ (r = PyNone /\ overwrite = false).
Proof.
  unfold create_table_try, bind, drv, set_conn, set_cursor, print, ret.
  cbn -[append].
  repeat (first [ step
                | match goal with
                  | |- context [truthy_row ?x] => destruct (truthy_row x)
                  end
                | destruct overwrite ];
          cbn -[append]);
    intros H; try discriminate H; injection H as <-; auto.
Qed.

End AnyDriver.

End ProvisionFacts.

(** X8.  What the provisioning methods hand back, whatever the driver does:
    [create_database] returns [True] or [False] only, and [create_table]
    returns [True], [False] or, with [overwrite] off only, [None]; with
    [overwrite] on it never returns [None]. *)
Theorem provisioning_results {D : Driver} (self : MySQLDB)
  (table_name : string) (sql_code : statement) (overwrite : bool) (w : world)
  (r : pyobj) :
  (fst (create_database self overwrite w) = Return r ->
   r = PyBool true \/ r = PyBool false)
  /\ (fst (create_table self table_name sql_code overwrite w) = Return r ->
      r = PyBool true \/ r = PyBool false
      \/ (r = PyNone /\ overwrite = false)).
Proof.
  split; intros H.
  - unfold create_database in H. rewrite ProvisionFacts.finally_release in H.
    apply ProvisionFacts.handled in H as [H | ->]; [|now right].
    left. exact (ProvisionFacts.create_database_try_value _ _ _ _ H).
  - unfold create_table in H. rewrite ProvisionFacts.finally_release in H.
    apply ProvisionFacts.handled in H as [H | ->]; [|now right; left].
    destruct (ProvisionFacts.create_table_try_value _ _ _ _ _ _ H)
      as [-> | K]; auto.
Qed.

Lemma provisioning_results_witness :
  (PyBool false = PyBool true \/ PyBool false = PyBool false)
  /\ (PyNone = PyBool true \/ PyNone = PyBool false
      \/ (PyNone = PyNone /\ false = false)).
Proof.
  split.
  - exact (proj1 (provisioning_results (db Sample.me) "quote"
                    (CreateTable "quote" "id_quote" Sample.quote_columns)
                    false (Sample.at_ Sample.offline) (PyBool false))
             eq_refl).
  - exact (proj2 (provisioning_results (db Sample.me) "quote"
                    (CreateTable "quote" "id_quote" Sample.quote_columns)
                    false (Sample.at_ Sample.travels) PyNone)
             eq_refl).
Defined.

Module CatalogueFacts.

Lemma find_schema_dropped (n : string) (ss : list schema) :
  find_schema n (filter (fun d => negb (String.eqb n (s_name d))) ss) = None.
Proof.
  induction ss as [|e ss IH]; [reflexivity|].
  cbn [filter]. destruct (String.eqb n (s_name e)) eqn:E; cbn [negb].
  - exact IH.
  - cbn [find_schema]. now rewrite E.
Qed.

Lemma find_schema_added (n : string) (ss : list schema) (d : schema) :
  find_schema n ss = None ->
  s_name d = n ->
  find_schema n (ss ++ [d]) = Some d.
Proof.
  intros H <-. induction ss as [|e ss IH]; cbn [app find_schema] in *.
  - now rewrite String.eqb_refl.
  - destruct (String.eqb (s_name d) (s_name e)); [discriminate | auto].
Qed.

Lemma find_table_dropped (n : string) (ts : list table) :
  find_table n (filter (fun t => negb (String.eqb n (t_name t))) ts) = None.
Proof.
  induction ts as [|e ts IH]; [reflexivity|].
  cbn [filter]. destruct (String.eqb n (t_name e)) eqn:E; cbn [negb].
  - exact IH.
  - cbn [find_table]. now rewrite E.
Qed.

(** What [SHOW DATABASES LIKE] finds first. *)
Lemma shown_database (co : collation) (pat : string) (ss : list schema) :
  existsb (fun d => like co pat (s_name d)) ss = true ->
  truthy_row
    (hd_error
       (map (fun d => [("Database", VStr (s_name d))])
          (filter (fun d => like co pat (s_name d)) ss))) = true.
Proof.
  induction ss as [|e ss IH]; cbn [existsb filter]; [discriminate|].
  destruct (like co pat (s_name e)); [reflexivity | exact IH].
Qed.

End CatalogueFacts.

(** X9.  [create_database] without [overwrite] asks the server for the
    databases whose name matches its own as a [LIKE] pattern.  When one
    database matches, be it under another name, the call prints that the
    database already exists, returns [True] and creates nothing. *)
Theorem create_database_trusts_like (self : MySQLDB) (s : mysqld)
  (out : list string) (d : schema) :
  reachable s = true ->
  quotable (database self) = true ->
  filter (fun e => like (coll s) (database self) (s_name e)) (schemas s)
  = [d] ->
  create_database self false {| srv := s; stdout := out |}
  = (Return (PyBool true),
     closed s
       (out ++ [("Database " ++ database self ++ " already exists.")%string])).
Proof.
  intros Hr _ Hm.
  unfold create_database, method, try_finally, try_except_Error,
    create_database_try, bind, drv, set_conn, set_cursor, print, ret.
  cbn -[append like]. unfold connect_. rewrite Hr. cbn -[append like].
  unfold execute_. rewrite Hr. cbn -[append like].
  unfold result_of. cbn -[append like]. rewrite Hm. cbn -[append like].
  unfold release. cbn -[append like]. now rewrite Hr.
Qed.

Lemma create_database_trusts_like_witness :
  find_schema "happ_" (schemas Sample.travels) = None
  /\ create_database wild false (Sample.at_ Sample.travels)
     = (Return (PyBool true),
        closed Sample.travels ["Database happ_ already exists."]).
Proof.
  split; [reflexivity|].
  exact (create_database_trusts_like wild Sample.travels [] _ eq_refl
           eq_refl eq_refl).
Defined.

(** X10.  [create_database] with [overwrite] drops a database that is there
    and creates it anew: it returns [True], and the database is left
    without any table. *)
Theorem create_database_overwrite_empties (self : MySQLDB) (s : mysqld)
  (out : list string) (d : schema) :
  reachable s = true ->
  find_schema (database self) (schemas s) = Some d ->
  existsb (fun e => like (coll s) (database self) (s_name e)) (schemas s)
  = true ->
  exists s',
    create_database self true {| srv := s; stdout := out |}
    = (Return (PyBool true),
       closed s'
         ((out ++ [("Database " ++ database self ++ " dropped.")%string])
          ++ [("Database " ++ database self ++ " created.")%string]))
    /\ find_schema (database self) (schemas s')
       = Some {| s_name := database self; s_tables := [] |}.
Proof.
  intros Hr Hd Hm.
  unfold create_database, method, try_finally, try_except_Error,
    create_database_try, bind, drv, set_conn, set_cursor, print, ret.
  cbn -[append like]. unfold connect_. rewrite Hr. cbn -[append like].
  unfold execute_. rewrite Hr. cbn -[append like].
  unfold result_of. cbn -[append like].
  match goal with
  | |- context [truthy_row ?x] =>
      replace (truthy_row x) with true
        by (symmetry; exact (CatalogueFacts.shown_database _ _ _ Hm))
  end.
  cbn -[append like].
  rewrite Hr, Hd. cbn -[append like].
  rewrite Hr, CatalogueFacts.find_schema_dropped. cbn -[append like].
  unfold release. cbn -[append like]. rewrite Hr.
  eexists. split; [reflexivity|].
  cbn. apply CatalogueFacts.find_schema_added; [|reflexivity].
  apply CatalogueFacts.find_schema_dropped.
Qed.

Lemma create_database_overwrite_empties_witness :
  exists s',
    create_database (db Sample.me) true (Sample.at_ Sample.travels)
    = (Return (PyBool true),
       closed s' ["Database happy dropped."; "Database happy created."])
    /\ stored s' "happy" "quote" = [].
Proof.
  destruct (create_database_overwrite_empties (db Sample.me) Sample.travels
              [] _ eq_refl eq_refl eq_refl) as (s' & H & F).
  exists s'. split; [exact H|].
  unfold stored. cbn [db database Sample.me] in F. now rewrite F.
Defined.

Module TableFacts.

Lemma shown_table (co : collation) (pat : string) (ts : list table) :
  existsb (fun t => like co pat (t_name t)) ts = true ->
  truthy_row
    (hd_error
       (map (fun t => [("Tables", VStr (t_name t))])
          (filter (fun t => like co pat (t_name t)) ts))) = true.
Proof.
  induction ts as [|e ts IH]; cbn [existsb filter]; [discriminate|].
  destruct (like co pat (t_name e)); [reflexivity | exact IH].
Qed.

End TableFacts.

(** X11.  [create_table] with [overwrite] drops the table before it runs the
    creating statement, and nothing brings the table back when the server
    then refuses that statement: the call returns [False] and the table,
    with its rows, is gone. *)
Theorem create_table_overwrite_can_lose_table (self : MySQLDB)
  (table_name : string) (sql_code : statement) (s : mysqld)
  (out : list string) (d : schema) (t : table) :
  reachable s = true ->
  find_schema (database self) (schemas s) = Some d ->
  find_table table_name (s_tables d) = Some t ->
  existsb (fun u => like (coll s) table_name (t_name u)) (s_tables d) = true ->
  run (after_drop_table s d table_name) (Some (database self)) sql_code []
  = None ->
  create_table self table_name sql_code true {| srv := s; stdout := out |}
  = (Return (PyBool false),
     closed (after_drop_table s d table_name)
       ((out ++ [("Table " ++ table_name ++ " dropped.")%string])
        ++ ["Error: The server refused the statement"]))
  /\ stored (after_drop_table s d table_name) (database self) table_name = [].
Proof.
  intros Hr Hd Ht Hm Hno. split.
  - unfold create_table, method, try_finally, try_except_Error,
      create_table_try, bind, drv, set_conn, set_cursor, print, ret.
    cbn -[append like run]. unfold connect_. rewrite Hr.
    cbn -[append like run]. rewrite Hd. cbn -[append like run].
    unfold execute_. rewrite Hr. cbn -[append like].
    rewrite Hd. cbn -[append like]. unfold result_of. cbn -[append like].
    match goal with
    | |- context [truthy_row ?x] =>
        replace (truthy_row x) with true
          by (symmetry; exact (TableFacts.shown_table _ _ _ Hm))
    end.
    cbn -[append like run].
    rewrite Hr. cbn -[append like]. rewrite Hd, Ht. cbn -[append like run].
    fold (after_drop_table s d table_name). rewrite Hr, Hno.
    cbn -[append like run]. unfold release. cbn -[append like run].
    now rewrite Hr.
  - unfold stored, after_drop_table. cbn [schemas with_schemas].
    rewrite (InsertFacts.find_put_schema _ _ d) by (assumption || reflexivity).
    cbn [s_tables with_tables].
    now rewrite CatalogueFacts.find_table_dropped.
Qed.

Lemma create_table_overwrite_can_lose_table_witness :
  stored Sample.travels "happy" "quote" = Sample.travel_rows
  /\ exists s',
       create_table (db Sample.me) "quote"
         (CreateTable "quote" "id_quote" ["content"; "tags"]) true
         (Sample.at_ Sample.travels)
       = (Return (PyBool false),
          closed s'
            ["Table quote dropped.";
             "Error: The server refused the statement"])
       /\ stored s' "happy" "quote" = [].
Proof.
  split; [reflexivity|].
  eexists.
  exact (create_table_overwrite_can_lose_table (db Sample.me) "quote"
           (CreateTable "quote" "id_quote" ["content"; "tags"])
           Sample.travels [] _ _ eq_refl eq_refl eq_refl eq_refl eq_refl).
Defined.

Module StartupFacts.

Section AnyDriver.

Context {D : Driver}.

(** [test_connection] answers [False] to a driver error of [connect], having
    printed the error and nothing else. *)
Lemma test_connection_error (self : MySQLDB) (w : world) (msg : string)
  (s1 : server) :
  connect (connect_to self None false) (srv w) = (Raise (Error msg), s1) ->
  test_connection self w
  = (Return (PyBool false),
     {| srv := s1; stdout := stdout w ++ [("Error: " ++ msg)%string] |}).
Proof.
  intros H.
  unfold test_connection, method, try_finally, try_except_Error,
    test_connection_try, bind, drv, set_conn, print, ret.
  cbn -[append]. rewrite H. cbn -[append]. reflexivity.
Qed.

End AnyDriver.

End StartupFacts.

(** X12.  The program starts its main loop only behind two checks.  When
    the driver fails to connect to the server, the start prints the error
    and the line of the offline server and leaves through [sys.exit()]; and
    when the server answers but the query for the database returns [None] or
    no row, it prints that the database is missing and leaves the same
    way. *)
Theorem main_init_needs_server_and_database {D : Driver}
  (getenv : string -> option string) (DB_NAME : string) (w : world) :
  let model := ModelQueries_init getenv DB_NAME in
  (forall msg s1,
      connect (connect_to (db model) None false) (srv w)
      = (Raise (Error msg), s1) ->
      main_init getenv DB_NAME w
      = (Raise (OtherException "SystemExit"),
         {| srv := s1;
            stdout :=
              (stdout w ++ [("Error: " ++ msg)%string])
              ++ ["Fatal Error! Database server is offline. Terminating the program."] |}))
  /\ (forall w1 r w2,
         test_connection (db model) w = (Return (PyBool true), w1) ->
         sql_query (db model) schemata_query [VStr DB_NAME]
           {| srv := srv w1;
              stdout := stdout w1 ++ ["Database server is online."] |}
         = (Return r, w2) ->
         truthy (of_rows r) = false ->
         main_init getenv DB_NAME w
         = (Raise (OtherException "SystemExit"),
            {| srv := srv w2;
               stdout :=
                 stdout w2
                 ++ [("Fatal Error! Database " ++ DB_NAME
                      ++ " is missing. Terminating the program.")%string] |})).
Proof.
  cbn zeta. split.
  - intros msg s1 H. unfold main_init, bind.
    rewrite (StartupFacts.test_connection_error _ _ _ _ H).
    reflexivity.
  - intros w1 r w2 H1 H2 H3. unfold main_init, bind. rewrite H1.
    cbn [truthy]. unfold say at 1. rewrite H2, H3. reflexivity.
Qed.

Lemma main_init_needs_server_and_database_witness :
  (exists w',
      main_init dotenv "happy" (Sample.at_ Sample.offline)
      = (Raise (OtherException "SystemExit"), w')
      /\ In "Fatal Error! Database server is offline. Terminating the program."
           (stdout w'))
  /\ (exists w',
         main_init dotenv "nowhere" (Sample.at_ Sample.travels)
         = (Raise (OtherException "SystemExit"), w')
         /\ In "Fatal Error! Database nowhere is missing. Terminating the program."
              (stdout w')).
Proof.
  split.
  - rewrite (proj1 (main_init_needs_server_and_database dotenv "happy"
                      (Sample.at_ Sample.offline)) _ _ eq_refl).
    eexists. split; [reflexivity|]. cbn. tauto.
  - rewrite (proj2 (main_init_needs_server_and_database dotenv "nowhere"
                      (Sample.at_ Sample.travels))
               _ None _ eq_refl eq_refl eq_refl).
    eexists. split; [reflexivity|]. cbn. tauto.
Defined.

Module SplitFacts.

Import PyStr PyStrFacts.

Lemma startswith_cut (p s : string) :
  startswith p s = true -> exists rest, s = (p ++ rest)%string.
Proof.
  revert s; induction p as [|a p IH]; intros s H.
  - now exists s.
  - destruct s as [|b s]; [discriminate|].
    cbn [startswith] in H. apply andb_true_iff in H as [E H].
    apply Ascii.eqb_eq in E. subst b.
    destruct (IH _ H) as (rest & ->). now exists rest.
Qed.

(** The rest of a matched separator is passed over. *)
Lemma split_go_skip (sep p rest : string) :
  split_go sep (String.length p) "" (p ++ rest) = split_go sep 0 "" rest.
Proof.
  induction p as [|a p IH]; [reflexivity|].
  cbn [String.length append split_go]. exact IH.
Qed.

Lemma split_go_nonempty (sep : string) (s : string) (k : nat) (cur : string) :
  split_go sep k cur s <> [].
Proof.
  revert k cur; induction s as [|c s IH]; intros k cur; cbn [split_go].
  - discriminate.
  - destruct k; [|apply IH].
    destruct (startswith sep (String c s)); [discriminate | apply IH].
Qed.

Lemma join_cons (sep x : string) (l : list string) :
  l <> [] -> join sep (x :: l) = (x ++ sep ++ join sep l)%string.
Proof. destruct l; [congruence | reflexivity]. Qed.

Lemma join_split_go (sep : string) :
  sep <> "" ->
  forall n s, String.length s <= n ->
  forall cur, join sep (split_go sep 0 cur s) = (cur ++ s)%string.
Proof.
  intros Hsep. induction n as [|n IH]; intros s Hn cur.
  - destruct s; [|cbn in Hn; lia]. cbn. now rewrite append_nil_r.
  - destruct s as [|c s]; [cbn; now rewrite append_nil_r|].
    cbn [String.length] in Hn. cbn [split_go].
    destruct (startswith sep (String c s)) eqn:E.
    + destruct (startswith_cut _ _ E) as (rest & Hcut).
      destruct sep as [|a sep']; [congruence|].
      cbn [append] in Hcut. injection Hcut as <- ->.
      match goal with
      | |- context [String.length ?sp - 1] =>
          replace (String.length sp - 1) with (String.length sep')
            by (cbn [String.length]; lia)
      end.
      rewrite split_go_skip.
      rewrite join_cons by apply split_go_nonempty.
      rewrite IH by (rewrite length_append in Hn; lia).
      reflexivity.
    + rewrite IH by lia. now rewrite append_snoc.
Qed.

End SplitFacts.

(** X13.  Splitting never loses text: for a separator that is not empty,
    [s.split(sep)] gives at least one piece, no piece contains the separator,
    and joining the pieces with the separator gives [s] back. *)
Theorem split_then_join (sep s : string) :
  sep <> "" ->
  exists l,
    PyStr.split sep s = Some l
    /\ l <> []
    /\ Forall (fun p => PyStr.contains sep p = false) l
    /\ PyStr.join sep l = s.
Proof.
  intros Hsep. exists (PyStr.split_go sep 0 "" s). repeat split.
  - unfold PyStr.split. destruct sep; [congruence | reflexivity].
  - apply SplitFacts.split_go_nonempty.
  - apply PyStrFacts.split_go_pieces; [assumption | now left | reflexivity].
  - now rewrite (SplitFacts.join_split_go sep Hsep (String.length s) s).
Qed.

Lemma split_then_join_witness :
  exists l,
    PyStr.split ", " "travel, humor, " = Some l
    /\ l = ["travel"; "humor"; ""]
    /\ PyStr.join ", " l = "travel, humor, ".
Proof.
  destruct (split_then_join ", " "travel, humor, " ltac:(discriminate))
    as (l & H & _ & _ & J).
  exists l. repeat split; [exact H | | exact J].
  vm_compute in H. now injection H as <-.
Defined.

Module SortFacts.

Import Data.

Lemma key_ltb (x y : row) :
  counted x -> counted y ->
  value_ltb (count_key y) (count_key x) = Z.ltb (quote_count y) (quote_count x).
Proof.
  intros (n & Hx) (m & Hy). unfold count_key, quote_count. now rewrite Hx, Hy.
Qed.

Lemma insert_counted (x : row) (l : list row) :
  counted x -> Forall counted l -> Forall counted (insert_desc count_key x l).
Proof.
  intros Hx Hl. induction Hl as [|y l Hy Hl IH]; cbn [insert_desc].
  - now constructor.
  - destruct (value_ltb _ _); repeat constructor; auto.
Qed.

Lemma insert_sorted (x : row) (l : list row) :
  counted x -> Forall counted l ->
  Sorted descending (map quote_count l) ->
  Sorted descending (map quote_count (insert_desc count_key x l)).
Proof.
  intros Hx Hl Hs. induction l as [|y l IH]; cbn [insert_desc map].
  - repeat constructor.
  - inversion Hl as [|? ? Hy Hl']; subst.
    cbn [map] in Hs. inversion Hs as [|? ? Hs' Hd]; subst.
    rewrite (key_ltb x y Hx Hy).
    destruct (Z.ltb_spec (quote_count y) (quote_count x)) as [L|L].
    + cbn [map]. constructor; [exact Hs|].
      constructor. unfold descending. lia.
    + cbn [map]. constructor; [now apply IH|].
      destruct l as [|z l]; cbn [insert_desc map].
      * constructor. exact L.
      * inversion Hl' as [|? ? Hz _]; subst.
        rewrite (key_ltb x z Hx Hz).
        destruct (Z.ltb (quote_count z) (quote_count x)); cbn [map].
        -- constructor. exact L.
        -- constructor. inversion Hd; subst. assumption.
Qed.

Lemma sort_sorted (l acc : list row) :
  Forall counted l -> Forall counted acc ->
  Sorted descending (map quote_count acc) ->
  Sorted descending
    (map quote_count (fold_left (fun a x => insert_desc count_key x a) l acc)).
Proof.
  revert acc; induction l as [|x l IH]; intros acc Hl Ha Hs; [exact Hs|].
  inversion Hl; subst. cbn [fold_left].
  apply IH; [assumption | now apply insert_counted | now apply insert_sorted].
Qed.

Lemma descending_trans : Relations_1.Transitive descending.
Proof. intros a b c. unfold descending. lia. Qed.

Lemma firstn_sorted (n : nat) (l : list Z) :
  StronglySorted descending l -> StronglySorted descending (firstn n l).
Proof.
  revert n; induction l as [|x l IH]; intros [|n] H; cbn [firstn];
    try constructor.
  - inversion H; subst. now apply IH.
  - inversion H as [|? ? _ Hall]; subst.
    rewrite <- (firstn_skipn n l) in Hall.
    now apply Forall_app in Hall as [Hall _].
Qed.

(** The first rows of [ORDER BY quote_count DESC] never go up. *)
Lemma top_sorted (n : nat) (l : list row) :
  Forall counted l ->
  StronglySorted descending
    (map quote_count (firstn n (sort_desc "quote_count" l))).
Proof.
  intros Hl. rewrite <- firstn_map. apply firstn_sorted.
  apply Sorted_StronglySorted; [exact descending_trans|].
  apply (sort_sorted l []); [assumption | constructor | constructor].
Qed.

End SortFacts.

Module TopFacts.

Import Data.

Lemma summarised_counted (params : list value) (g : list qrow) :
  counted (summarise params (sel_items SQL.top5_authors) g).
Proof. eexists. reflexivity. Qed.

(** [SELECT a.name, COUNT(q.id_quote) AS quote_count FROM author a JOIN quote
    q ... GROUP BY a.name ORDER BY quote_count DESC LIMIT 5] *)
Lemma select_top5 (co : collation) (ds : list nat) (d : schema)
  (tq ta : table) :
  find_table "quote" (s_tables d) = Some tq ->
  find_table "author" (s_tables d) = Some ta ->
  forallb (fun c => mem c (t_cols tq))
    ["id_quote"; "content"; "author_id"; "tags"] = true ->
  forallb (fun c => mem c (t_cols ta)) ["id_author"; "name"] = true ->
  exists out,
    select_rows co ds d SQL.top5_authors []
    = Some (firstn 5 (sort_desc "quote_count" out), ds)
    /\ Forall counted out.
Proof.
  intros Hq Ha Hcq Hca.
  rewrite forallb_forall in Hcq, Hca.
  assert (Hq1 : mem "id_quote" (t_cols tq) = true)
    by (apply Hcq; cbn [In]; tauto).
  assert (Hq3 : mem "author_id" (t_cols tq) = true)
    by (apply Hcq; cbn [In]; tauto).
  assert (Ha1 : mem "id_author" (t_cols ta) = true)
    by (apply Hca; cbn [In]; tauto).
  assert (Ha2 : mem "name" (t_cols ta) = true)
    by (apply Hca; cbn [In]; tauto).
  unfold select_rows, from_rows.
  cbn [SQL.top5_authors SQL.limit SQL.order_by SQL.group_by SQL.columns
       SQL.join SQL.from sel_from sel_join fst snd].
  rewrite Ha, Hq.
  unfold select_known.
  cbn [SQL.top5_authors SQL.limit SQL.order_by SQL.group_by SQL.columns
       SQL.join SQL.from sel_items sel_join sel_where sel_group sel_order
       sel_limit forallb item_known opt_all fst snd].
  rewrite !(ServerFacts.known_app (scope_of "a" ta) (scope_of "q" tq))
    by (first [ left; now apply ServerFacts.known_column
              | right; now apply ServerFacts.known_column ]).
  cbn [known andb negb List.length].
  match goal with
  | |- context [select_params ?q] => change (select_params q) with 0
  end.
  cbn [Nat.eqb existsb is_count orb limit_count operand_value].
  cbn [Z.leb Z.compare Z.to_nat Pos.to_nat Pos.iter_op Nat.add fst snd].
  eexists. split; [reflexivity|].
  apply Forall_forall. intros r Hin. apply in_map_iff in Hin as (g & <- & _).
  apply (summarised_counted []).
Qed.

End TopFacts.

(** X14.  [top5_authors] returns at most five rows, and their [quote_count]
    never goes up from one row to the next. *)
Theorem top5_authors_sorted (self : ModelQueries) (value : value)
  (s : mysqld) (out : list string) (tq ta : table) :
  serves s (database (db self)) tq ta ->
  exists rs,
    run_model self "top5_authors" value {| srv := s; stdout := out |}
    = (Return (PyRows rs), closed s out)
    /\ List.length rs <= 5
    /\ StronglySorted descending (map quote_count rs).
Proof.
  intros (Hr & d & Hd & Hq & Ha & Hcq & Hca).
  destruct (TopFacts.select_top5 (coll s) (draws s) d tq ta Hq Ha Hcq Hca)
    as (found & Hsel & Hall).
  unfold run_model. cbn [String.eqb Ascii.eqb Bool.eqb]. unfold rows, bind.
  rewrite (ServerFacts.sql_query_select _ _ _ _ _ d _ _ Hr Hd Hsel).
  rewrite QueryFacts.with_draws_same.
  eexists. split; [reflexivity|]. split.
  - rewrite length_firstn. lia.
  - now apply SortFacts.top_sorted.
Qed.

Lemma top5_authors_sorted_witness :
  exists rs,
    run_model Sample.me "top5_authors" VNone (Sample.at_ Sample.travels)
    = (Return (PyRows rs), closed Sample.travels [])
    /\ map quote_count rs = [2%Z].
Proof.
  destruct (top5_authors_sorted Sample.me VNone Sample.travels [] _ _
              (sample_serves true _ 3 eq_refl)) as (rs & H & _).
  exists rs. split; [exact H|].
  assert (E : exists found,
             run_model Sample.me "top5_authors" VNone
               (Sample.at_ Sample.travels)
             = (Return (PyRows found), closed Sample.travels [])
             /\ map quote_count found = [2%Z])
    by (eexists; split; reflexivity).
  destruct E as (found & E & Q).
  pose proof (eq_trans (eq_sym E) H) as I. now injection I as <-.
Defined.

Module RandomFacts.

(** [SELECT id_quote FROM quote ORDER BY RAND() LIMIT 1] *)
Lemma select_random_id (co : collation) (ds : list nat) (d : schema)
  (tq : table) :
  find_table "quote" (s_tables d) = Some tq ->
  mem "id_quote" (t_cols tq) = true ->
  select_rows co ds d SQL.random_id []
  = Some (firstn 1
            (shuffle ds
               (map (fun r => [("id_quote", field "id_quote" r)])
                  (t_rows tq))),
          skipn (List.length (t_rows tq)) ds).
Proof.
  intros Hq Hc. unfold select_rows.
  rewrite (MoreQueryFacts.from_single _ _ _ "quote" tq)
    by (assumption || reflexivity).
  unfold select_known.
  cbn [SQL.random_id SQL.limit SQL.order_by SQL.columns SQL.from SQL.col
       sel_items sel_join sel_where sel_group sel_order sel_limit forallb
       item_known opt_all].
  rewrite (DispatcherFacts.known_bare _ _ _ _ Hc).
  match goal with
  | |- context [select_params ?q] => change (select_params q) with 0
  end.
  cbn [known andb negb List.length Nat.eqb existsb is_count orb].
  unfold scan. rewrite map_map.
  rewrite (map_ext _ (fun r => [("id_quote", field "id_quote" r)])).
  - cbn [SQL.col is_count orb]. rewrite length_map. reflexivity.
  - intros r. apply (MoreQueryFacts.project_columns [] "quote" ["id_quote"]).
Qed.

(** The first of a shuffled list that is not empty. *)
Lemma first_of_shuffle {A} (ds : list nat) (l : list A) :
  l <> [] -> exists x, firstn 1 (shuffle ds l) = [x] /\ In x l.
Proof.
  intros Hl. pose proof (ShuffleFacts.shuffle_perm ds l) as P.
  destruct (shuffle ds l) as [|x r] eqn:E.
  - apply Permutation_nil in P. congruence.
  - exists x. split; [reflexivity|].
    eapply Permutation_in; [exact P | now left].
Qed.

End RandomFacts.

(** X15.  [comments_random_quote] on a [quote] table that is not empty picks
    the id of one of its rows and returns the pair of the comments whose
    [quote_id] is that id, as title, details and e-mail, and of the
    projection of the quote of that id with its author; the second is empty
    when the quote picked has no author row. *)
Theorem comments_random_quote_pair (self : ModelQueries) (value : value)
  (s : mysqld) (out : list string) (tq ta tc : table) :
  serves s (database (db self)) tq ta ->
  has_table s (database (db self)) "comment" tc ->
  forallb (fun c => mem c (t_cols tc))
    ["quote_id"; "title"; "details"; "user_email"] = true ->
  t_rows tq <> [] ->
  exists q w,
    In q (t_rows tq)
    /\ run_model self "comments_random_quote" value
         {| srv := s; stdout := out |}
       = (Return
            (PyTuple
               (PyRows
                  (map
                     (fun c =>
                        map (fun n => (n, field n c))
                          ["title"; "details"; "user_email"])
                     (filter
                        (fun c =>
                           value_eqb (coll s) (field "quote_id" c)
                             (field "id_quote" q)) (t_rows tc))))
               (PyRows
                  (map quote_row
                     (filter
                        (fun qa =>
                           value_eqb (coll s) (field "id_quote" (fst qa))
                             (field "id_quote" q)) (pairs (coll s) tq ta))))),
          w).
Proof.
  intros (Hr & d & Hd & Hq & Ha & Hcq & Hca) (_ & d' & Hd' & Hc) Hcc Hne.
  rewrite Hd in Hd'. injection Hd' as <-.
  assert (Hid : mem "id_quote" (t_cols tq) = true).
  { rewrite forallb_forall in Hcq. apply Hcq. cbn [In]. tauto. }
  destruct (RandomFacts.first_of_shuffle (draws s)
              (map (fun r => [("id_quote", field "id_quote" r)]) (t_rows tq)))
    as (x & Hx & Hin).
  { destruct (t_rows tq); [congruence | discriminate]. }
  apply in_map_iff in Hin as (q & <- & Hin).
  exists q. eexists. split; [exact Hin|].
  unfold run_model. cbn [String.eqb Ascii.eqb Bool.eqb]. unfold bind.
  rewrite (ServerFacts.sql_query_select _ _ _ _ _ d _ _ Hr Hd
             (RandomFacts.select_random_id _ _ d tq Hq Hid)).
  rewrite Hx. cbn [first_id_quote get String.eqb Ascii.eqb Bool.eqb].
  unfold ret at 1.
  set (s1 := with_draws s (skipn (List.length (t_rows tq)) (draws s))).
  unfold Quote_fetch_by_id.
  rewrite (ServerFacts.sql_query_select _ _ _ s1 _ d _ _ Hr Hd
             (MoreQueryFacts.select_by_id s1 tq ta d Hq Ha Hcq Hca _)).
  rewrite QueryFacts.with_draws_same.
  rewrite (ServerFacts.sql_query_select _ _ _ s1 _ d _ _ Hr Hd
             (MoreQueryFacts.select_where_eq (coll s1) (draws s1) d "comment"
                "quote_id" ["title"; "details"; "user_email"] tc _ Hc Hcc)).
  reflexivity.
Qed.

Lemma comments_random_quote_pair_witness :
  exists q w,
    In q Sample.travel_rows
    /\ run_model Sample.me "comments_random_quote" VNone
         (Sample.at_ Sample.travels)
       = (Return
            (PyTuple (PyRows [])
               (PyRows
                  (map quote_row
                     (filter
                        (fun qa =>
                           value_eqb CaseInsensitive
                             (field "id_quote" (fst qa)) (field "id_quote" q))
                        (pairs CaseInsensitive
                           (Sample.quote Sample.travel_rows 3)
                           Sample.authors))))), w).
Proof.
  destruct (comments_random_quote_pair Sample.me VNone Sample.travels []
              _ _ (Sample.comment [] 1) (sample_serves true _ 3 eq_refl)
              (conj eq_refl (ex_intro _ _ (conj eq_refl eq_refl))) eq_refl
              ltac:(discriminate))
    as (q & w & Hin & H).
  exists q, w. split; [exact Hin | exact H].
Defined.

Module AuthorFacts.

(** [SELECT cs FROM t WHERE c LIKE %s] with a pattern free of wildcards. *)
Lemma select_where_like (co : collation) (ds : list nat) (d : schema)
  (t c : string) (cs : list string) (tb : table) (p : string) :
  find_table t (s_tables d) = Some tb ->
  forallb (fun c => mem c (t_cols tb)) (c :: cs) = true ->
  plain p = true ->
  select_rows co ds d
    (SQL.where_ (Like (Col None c) (Param 0))
       (SQL.columns (map SQL.col cs) (SQL.from t None))) [VStr p]
  = Some (map (fun r => map (fun c => (c, field c r)) cs)
            (filter
               (fun r =>
                  match field c r with
                  | VStr a => text_eqb co p a
                  | _ => false
                  end) (t_rows tb)),
          ds).
Proof.
  intros Ht Hc Hp. cbn [forallb] in Hc. apply andb_true_iff in Hc as [Hc Hcs].
  unfold select_rows.
  rewrite (MoreQueryFacts.from_single _ _ _ t tb)
    by (assumption || reflexivity).
  unfold select_known, select_params.
  cbn [SQL.where_ SQL.columns SQL.from sel_items sel_join sel_where sel_group
       sel_order sel_limit opt_all opt_sum cond_known cond_params
       operand_params List.length].
  rewrite (MoreQueryFacts.known_columns _ _ _ _ Hcs),
    (DispatcherFacts.known_bare _ _ _ _ Hc),
    MoreQueryFacts.params_of_columns, MoreQueryFacts.no_count.
  cbn [known andb negb Nat.ltb Nat.leb Nat.add Nat.eqb].
  unfold scan. rewrite ServerFacts.filter_map, map_map.
  rewrite (filter_ext _
             (fun r => match field c r with
                       | VStr a => text_eqb co p a
                       | _ => false
                       end)).
  - do 2 f_equal. apply map_ext. intros r.
    apply MoreQueryFacts.project_columns.
  - intros r. cbn [holds operand_value nth].
    rewrite MoreQueryFacts.lookup_bare. unfold value_like.
    destruct (field c r); try reflexivity. now apply LikeFacts.like_plain.
Qed.

End AuthorFacts.

(** X16.  For a name free of the [LIKE] wildcards, [author_bio] returns
    name, birth date, birth place and description of exactly the authors
    whose name is the given one as a whole, under the collation of the
    column. *)
Theorem author_bio_whole_name (self : ModelQueries) (s : mysqld)
  (out : list string) (ta : table) (n : string) :
  has_table s (database (db self)) "author" ta ->
  forallb (fun c => mem c (t_cols ta))
    ["name"; "birth_date"; "birth_city"; "birth_state"; "birth_country";
     "description"] = true ->
  plain n = true ->
  run_model self "author_bio" (VStr n) {| srv := s; stdout := out |}
  = (Return
       (PyRows
          (map
             (fun a =>
                map (fun c => (c, field c a))
                  ["name"; "birth_date"; "birth_city"; "birth_state";
                   "birth_country"; "description"])
             (filter
                (fun a =>
                   match field "name" a with
                   | VStr x => text_eqb (coll s) n x
                   | _ => false
                   end) (t_rows ta)))),
     closed s out).
Proof.
  intros (Hr & d & Hd & Ha) Hc Hp.
  unfold run_model. cbn [String.eqb Ascii.eqb Bool.eqb].
  unfold rows, bind, Author_fetch_by_name.
  assert (Hc' : forallb (fun c => mem c (t_cols ta))
                  ("name" :: ["name"; "birth_date"; "birth_city";
                              "birth_state"; "birth_country"; "description"])
                = true).
  { cbn [forallb] in Hc |- *. apply andb_true_iff in Hc as [H1 H2].
    now rewrite H1, H2. }
  rewrite (ServerFacts.sql_query_select _ _ _ _ _ d _ _ Hr Hd
             (AuthorFacts.select_where_like _ _ d "author" "name" _ ta n Ha
                Hc' Hp)).
  now rewrite QueryFacts.with_draws_same.
Qed.

Lemma author_bio_whole_name_witness :
  fst (run_model Sample.me "author_bio" (VStr "MARK TWAIN")
         (Sample.at_ Sample.travels))
  = Return
      (PyRows
         [[("name", VStr "Mark Twain"); ("birth_date", VDate 1835 11 30);
           ("birth_city", VStr "Florida"); ("birth_state", VStr "Missouri");
           ("birth_country", VStr "USA");
           ("description", VStr "American writer")]])
  /\ fst (run_model Sample.me "author_bio" (VStr "Twain")
            (Sample.at_ Sample.travels))
     = Return (PyRows []).
Proof.
  split; unfold Sample.at_.
  - now rewrite (author_bio_whole_name Sample.me Sample.travels []
                   Sample.authors "MARK TWAIN"
                   (conj eq_refl (ex_intro _ _ (conj eq_refl eq_refl)))
                   eq_refl eq_refl).
  - now rewrite (author_bio_whole_name Sample.me Sample.travels []
                   Sample.authors "Twain"
                   (conj eq_refl (ex_intro _ _ (conj eq_refl eq_refl)))
                   eq_refl eq_refl).
Defined.

(** * Properties of the presentation layer *)

Module ViewFacts.

Section AnyDriver.

Context {D : Driver}.

Lemma print_quotes_none (g : gui) :
  print_quotes PyNone g
  = (Raise (TypeError "'NoneType' object is not iterable"),
     {| backend := backend g; response_text := [];
        console_text := console_text g |}).
Proof. reflexivity. Qed.

End AnyDriver.

End ViewFacts.

(** X17.  A failure of the database is not handled by the presentation
    layer: when the dispatcher comes back with [None], the handlers of
    [all_quotes] and [random_quote] erase the response pane and raise a
    [TypeError], since [print_quotes] loops over its argument unchecked. *)
Theorem print_quotes_fails_on_none {D : Driver} (model : ModelQueries)
  (u : operator) (query_case : string) (g : gui) (w : world) :
  query_case = "all_quotes" \/ query_case = "random_quote" ->
  run_model model query_case VNone {| srv := srv (backend g); stdout := [] |}
  = (Return PyNone, w) ->
  exists g',
    run_controller model u query_case g
    = (Raise (TypeError "'NoneType' object is not iterable"), g')
    /\ response_text g' = []
    /\ srv (backend g') = srv w.
Proof.
  intros [-> | ->] H; unfold run_controller;
    cbn [String.eqb Ascii.eqb Bool.eqb];
    unfold bind, insert_text, call; cbn [backend]; rewrite H;
    cbn -[append]; eexists; repeat split.
Qed.

Lemma print_quotes_fails_on_none_witness :
  exists g',
    run_controller Sample.me
      {| get_selection := fun _ => []; get_input := None;
         first_choice := 0; second_choice := 0 |} "all_quotes"
      {| backend := Sample.at_ Sample.offline;
         response_text := [("old", [])]; console_text := [] |}
    = (Raise (TypeError "'NoneType' object is not iterable"), g')
    /\ response_text g' = [].
Proof.
  destruct (print_quotes_fails_on_none Sample.me
              {| get_selection := fun _ => []; get_input := None;
                 first_choice := 0; second_choice := 0 |} "all_quotes"
              {| backend := Sample.at_ Sample.offline;
                 response_text := [("old", [])]; console_text := [] |}
              _ (or_introl eq_refl) eq_refl) as (g' & H & R & _).
  exists g'. split; [exact H | exact R].
Defined.

(** X18.  The welcome needs a quote: [print_welcome] ends in the quote of
    the day, which indexes the first row of [random_quote] unchecked, so it
    raises an [IndexError] when no quote has an author row and a
    [TypeError] when the database fails, after the welcome text and the
    heading of the quote of the day are in the response pane. *)
Theorem print_welcome_needs_a_quote {D : Driver} (model : ModelQueries)
  (u : operator) (g : gui) (w : world) (r : pyobj) :
  run_model model "random_quote" VNone
    {| srv := srv (backend g); stdout := [] |}
  = (Return r, w) ->
  r = PyRows [] \/ r = PyNone ->
  exists e g',
    print_welcome model u g = (Raise e, g')
    /\ (r = PyRows [] -> e = IndexError "list index out of range")
    /\ (r = PyNone ->
        e = TypeError "'NoneType' object is not subscriptable")
    /\ List.length (response_text g') = 4.
Proof.
  intros H [-> | ->]; unfold print_welcome, run_controller;
    cbn [String.eqb Ascii.eqb Bool.eqb];
    unfold bind, insert_text, clear_response, call; cbn [backend];
    rewrite H; cbn -[append]; do 2 eexists;
    (split; [reflexivity|]); repeat split; congruence.
Qed.

Lemma print_welcome_needs_a_quote_witness :
  exists g',
    print_welcome Sample.me
      {| get_selection := fun _ => []; get_input := None;
         first_choice := 0; second_choice := 0 |}
      {| backend := Sample.at_ Sample.orphan; response_text := [];
         console_text := [] |}
    = (Raise (IndexError "list index out of range"), g').
Proof.
  destruct (print_welcome_needs_a_quote Sample.me
              {| get_selection := fun _ => []; get_input := None;
                 first_choice := 0; second_choice := 0 |}
              {| backend := Sample.at_ Sample.orphan; response_text := [];
                 console_text := [] |} _ (PyRows []) eq_refl
              (or_introl eq_refl)) as (e & g' & H & E & _).
  exists g'. now rewrite <- (E eq_refl).
Defined.

Module RenderFacts.

Import Screen.

Section AnyDriver.

Context {D : Driver}.

Lemma loop_shows (rs : list row) :
  Forall showable rs ->
  forall colour i g,
  exists added,
    print_quotes_loop (map ARow rs) colour i g
    = (Return tt,
       {| backend := backend g;
          response_text := response_text g ++ added;
          console_text := console_text g |})
    /\ List.length added = 7 * List.length rs
    /\ forall k r,
         nth_error rs k = Some r ->
         exists c,
           get "content" r = Some (VStr c)
           /\ nth_error added (7 * k + 1)
              = Some ((c ++ nl)%string, [colour_at colour k; "center"]).
Proof.
  induction 1 as [|r rs (c & a & t & Hc & Ha & Ht) _ IH]; intros colour i g.
  - exists []. cbn. rewrite app_nil_r. repeat split.
    + now destruct g.
    + intros [|k] r; discriminate.
  - cbn [print_quotes_loop map]. unfold bind, insert_text, subscript, text.
    rewrite Hc, Ha, Ht. cbn -[append print_quotes_loop Z.add map].
    match goal with
    | |- context [print_quotes_loop (map ARow rs) ?col ?j ?h] =>
        destruct (IH col j h) as (added & -> & L & N)
    end.
    cbn -[append Nat.mul].
    eexists. split.
    + rewrite <- !app_assoc. cbn -[append]. reflexivity.
    + split.
      * cbn -[append Nat.mul]. rewrite L. cbn [List.length]. lia.
      * intros [|k] r' Hk.
        -- cbn [nth_error] in Hk. injection Hk as <-.
           exists c. split; [exact Hc | reflexivity].
        -- cbn [nth_error] in Hk. destruct (N k r' Hk) as (c' & Hc' & Hn).
           exists c'. split; [exact Hc'|].
           match goal with
           | |- nth_error _ ?n = _ =>
               replace n with (7 + (7 * k + 1)) by lia
           end.
           exact Hn.
Qed.

Lemma colour_alternates (k : nat) :
  colour_at "blue" k = (if Nat.even k then "blue" else "green")
  /\ colour_at "green" k = (if Nat.even k then "green" else "blue").
Proof.
  induction k as [|k [IHb IHg]]; [now split|].
  cbn [colour_at]. change (flip "blue") with "green".
  change (flip "green") with "blue". rewrite IHb, IHg, Nat.even_succ.
  rewrite <- Nat.negb_even. now destruct (Nat.even k).
Qed.

End AnyDriver.

End RenderFacts.

(** X19.  [print_quotes] replaces what the response pane showed by seven
    pieces for each row, in the order of the rows, the texts of the row in
    blue for the first, third, fifth quote and in green for those between,
    and tells the console once. *)
Theorem print_quotes_renders {D : Driver} (rs : list row) (g : gui) :
  Forall Screen.showable rs ->
  exists shown,
    print_quotes (PyRows rs) g
    = (Return tt,
       {| backend := backend g; response_text := shown;
          console_text :=
            console_text g ++ [(("All quotes printed." ++ nl)%string,
                                ["black"])] |})
    /\ List.length shown = 7 * List.length rs
    /\ forall k r,
         nth_error rs k = Some r ->
         exists c,
           get "content" r = Some (VStr c)
           /\ nth_error shown (7 * k + 1)
              = Some ((c ++ nl)%string,
                      [if Nat.even k then "blue" else "green"; "center"]).
Proof.
  intros H. unfold print_quotes, bind, clear_response, iterate, ret.
  destruct (RenderFacts.loop_shows rs H "blue" 1%Z
              {| backend := backend g; response_text := [];
                 console_text := console_text g |})
    as (added & E & L & N).
  rewrite E. cbn -[append Nat.mul].
  exists added. repeat split; [exact L|].
  intros k r Hk. destruct (N k r Hk) as (c & Hc & Hn).
  exists c. split; [exact Hc|].
  now rewrite <- (proj1 (RenderFacts.colour_alternates k)).
Qed.

Lemma print_quotes_renders_witness :
  exists shown,
    fst (print_quotes
           (PyRows
              [[("content", VStr "Q1"); ("author_name", VStr "A");
                ("tags", VStr "t")];
               [("content", VStr "Q2"); ("author_name", VStr "B");
                ("tags", VStr "u")]])
           {| backend := Sample.at_ Sample.offline;
              response_text := [("old", [])]; console_text := [] |})
    = Return tt
    /\ List.length shown = 14
    /\ nth_error shown 8 = Some (("Q2" ++ nl)%string, ["green"; "center"]).
Proof.
  destruct (print_quotes_renders
              [[("content", VStr "Q1"); ("author_name", VStr "A");
                ("tags", VStr "t")];
               [("content", VStr "Q2"); ("author_name", VStr "B");
                ("tags", VStr "u")]]
              {| backend := Sample.at_ Sample.offline;
                 response_text := [("old", [])]; console_text := [] |})
    as (shown & H & L & N).
  { repeat constructor; repeat eexists. }
  exists shown. rewrite H. repeat split; [exact L|].
  destruct (N 1 _ eq_refl) as (c & Hc & Hn).
  injection Hc as <-. exact Hn.
Defined.

(** X20.  The three handlers with a selection dialog read the list to choose
    from out of the first metadata row of their key.  Without such a row
    they raise an [IndexError] before any dialog and leave the response
    pane as it was; and when the user selects nothing they tell the console
    so, run no further query and leave the response pane as it was. *)
Theorem selection_handlers {D : Driver} (model : ModelQueries) (u : operator)
  (query_case : string) (g : gui) (w : world) :
  In query_case ["quotes_by_author"; "quotes_by_tag"; "author_bio"] ->
  (run_model model "metadata" (VStr (Screen.key_of query_case))
     {| srv := srv (backend g); stdout := [] |}
   = (Return (PyRows []), w) ->
   exists g',
     run_controller model u query_case g
     = (Raise (IndexError "list index out of range"), g')
     /\ response_text g' = response_text g)
  /\ (forall r rest s names,
         run_model model "metadata" (VStr (Screen.key_of query_case))
           {| srv := srv (backend g); stdout := [] |}
         = (Return (PyRows (r :: rest)), w) ->
         get "key_value" r = Some (VStr s) ->
         PyStr.split ", " s = Some names ->
         get_selection u names = [] ->
         exists g' said,
           run_controller model u query_case g = (Return tt, g')
           /\ response_text g' = response_text g
           /\ srv (backend g') = srv w
           /\ console_text g'
              = said ++ [(("Nothing was selected." ++ nl)%string, ["black"])]).
Proof.
  intros Hq. cbn [In] in Hq.
  destruct Hq as [<- | [<- | [<- | []]]]; split.
  all: try (intros H; unfold run_controller;
            cbn [String.eqb Ascii.eqb Bool.eqb];
            unfold bind, insert_text, call; cbn [backend];
            cbn [Screen.key_of String.eqb Ascii.eqb Bool.eqb] in H;
            rewrite H; cbn -[append]; eexists; split; reflexivity).
  all: intros r rest s names H Hk Hn Hs; unfold run_controller;
       cbn [String.eqb Ascii.eqb Bool.eqb];
       unfold bind, insert_text, call, names_of, first, subscript, split_list;
       cbn [backend];
       cbn [Screen.key_of String.eqb Ascii.eqb Bool.eqb] in H;
       rewrite H; cbn -[append PyStr.split]; unfold bind, ret;
       rewrite Hk; cbn -[append PyStr.split]; rewrite Hn;
       cbn -[append]; rewrite Hs;
       cbn -[append]; do 2 eexists; repeat split.
Qed.

Lemma selection_handlers_witness :
  exists g',
    run_controller Sample.me
      {| get_selection := fun _ => []; get_input := None;
         first_choice := 0; second_choice := 0 |} "quotes_by_tag"
      {| backend := Sample.at_ Sample.travels;
         response_text := [("old", [])]; console_text := [] |}
    = (Raise (IndexError "list index out of range"), g')
    /\ response_text g' = [("old", [])].
Proof.
  exact (proj1 (selection_handlers Sample.me
                  {| get_selection := fun _ => []; get_input := None;
                     first_choice := 0; second_choice := 0 |} "quotes_by_tag"
                  {| backend := Sample.at_ Sample.travels;
                     response_text := [("old", [])]; console_text := [] |}
                  _ (or_intror (or_introl eq_refl))) eq_refl).
Defined.

(** X21.  A name the controller does not know changes nothing but the
    console, which gets the line [Unknown query number!] in red. *)
Theorem unknown_handler {D : Driver} (model : ModelQueries) (u : operator)
  (query_case : string) (g : gui) :
  ~ In query_case Screen.handlers ->
  run_controller model u query_case g
  = (Return tt,
     {| backend := backend g; response_text := response_text g;
        console_text :=
          console_text g
          ++ [(("Unknown query number!" ++ nl)%string, ["red"])] |}).
Proof.
  intros H. unfold run_controller.
  repeat match goal with
         | |- context [String.eqb query_case ?n] =>
             destruct (String.eqb_spec query_case n) as [->|_];
             [exfalso; apply H; cbn; tauto|]
         end.
  reflexivity.
Qed.

Lemma unknown_handler_witness :
  fst (run_controller Sample.me
         {| get_selection := fun _ => []; get_input := None;
            first_choice := 0; second_choice := 0 |} "metadata"
         {| backend := Sample.at_ Sample.offline; response_text := [];
            console_text := [] |})
  = Return tt.
Proof.
  rewrite (unknown_handler Sample.me _ "metadata").
  - reflexivity.
  - cbn. intros K. repeat destruct K as [K|K]; try discriminate K; exact K.
Defined.

(** X22.  The handler of [total_quotes] shows the number of rows of the
    [quote] table: the response pane is replaced by four pieces, the third
    of which starts with that number in decimal. *)
Theorem total_quotes_shown (model : ModelQueries) (u : operator) (g : gui)
  (tq : table) :
  has_table (srv (backend g)) (database (db model)) "quote" tq ->
  exists g',
    run_controller model u "total_quotes" g = (Return tt, g')
    /\ List.length (response_text g') = 4
    /\ nth_error (response_text g') 2
       = Some ((str_of_int (Z.of_nat (List.length (t_rows tq)))
                ++ " quotes in the Happy Quotes database." ++ nl)%string,
               ["blue"; "center"])
    /\ srv (backend g') = srv (backend g).
Proof.
  intros (Hr & d & Hd & Hq).
  unfold run_controller. cbn [String.eqb Ascii.eqb Bool.eqb].
  unfold bind at 1. unfold insert_text at 1. unfold bind at 1.
  unfold call. cbn [backend response_text console_text].
  unfold run_model. cbn [String.eqb Ascii.eqb Bool.eqb]. unfold rows, bind at 1.
  rewrite (ServerFacts.sql_query_select _ _ _ _ _ d _ _ Hr Hd
             (MoreQueryFacts.select_total _ _ d tq Hq)).
  rewrite QueryFacts.with_draws_same.
  cbn -[append str_of_int Z.of_nat].
  eexists. repeat split.
Qed.

Lemma total_quotes_shown_witness :
  exists g',
    run_controller Sample.me
      {| get_selection := fun _ => []; get_input := None;
         first_choice := 0; second_choice := 0 |} "total_quotes"
      {| backend := Sample.at_ Sample.travels; response_text := [];
         console_text := [] |}
    = (Return tt, g')
    /\ nth_error (response_text g') 2
       = Some (("2 quotes in the Happy Quotes database." ++ nl)%string,
               ["blue"; "center"]).
Proof.
  destruct (total_quotes_shown Sample.me
              {| get_selection := fun _ => []; get_input := None;
                 first_choice := 0; second_choice := 0 |}
              {| backend := Sample.at_ Sample.travels; response_text := [];
                 console_text := [] |} (Sample.quote Sample.travel_rows 3)
              (conj eq_refl (ex_intro _ _ (conj eq_refl eq_refl))))
    as (g' & H & _ & N & _).
  exists g'. split; [exact H | exact N].
Defined.

(** X23.  Save then fetch for comments.  [db_save] of a comment on a quote
    that is there returns [(1, id)] with the new key and stores it on the
    record, and [fetch_by_quote_id] of the comment's quote then returns
    what it returned before followed by title, details and e-mail of the
    saved comment. *)
Theorem comment_save_appends (db : MySQLDB) (c : Comment) (s : mysqld)
  (out : list string) (tc tq : table) :
  has_table s (database db) "comment" tc ->
  has_table s (database db) "quote" tq ->
  refers (coll s) (VInt (quote_id c)) "id_quote" tq = true ->
  forallb (fun n => mem n (t_cols tc) && negb (String.eqb n (t_key tc)))
    ["quote_id"; "title"; "details"; "user_email"] = true ->
  exists c' old w,
    Comment_fetch_by_quote_id db (VInt (quote_id c))
      {| srv := s; stdout := out |}
    = (Return (Some old), closed s out)
    /\ Comment_db_save c db {| srv := s; stdout := out |}
       = (Return (c', (Some 1%Z, Some (Zpos (t_auto tc)))), w)
    /\ id_comment c' = Some (Zpos (t_auto tc))
    /\ fst (Comment_fetch_by_quote_id db (VInt (quote_id c)) w)
       = Return
           (Some
              (old ++ [[("title", VStr (title c));
                        ("details", VStr (details c));
                        ("user_email", VStr (user_email c))]])).
Proof.
  intros (Hr & d & Hd & Ht) _ _ Hc.
  cbn [forallb] in Hc. rewrite !andb_true_iff, !negb_true_iff in Hc.
  destruct Hc as ((Hq & Hqk) & (Hi & Hik) & (Hde & Hdk) & (Hu & Huk) & _).
  set (cols := ["quote_id"; "title"; "details"; "user_email"]).
  set (params := [VInt (quote_id c); VStr (title c); VStr (details c);
                  VStr (user_email c)]).
  assert (Hcols : forallb (fun n => mem n (t_cols tc)) cols = true).
  { unfold cols. cbn [forallb]. now rewrite Hq, Hi, Hde, Hu. }
  assert (Hname : t_name tc = "comment").
  { apply InsertFacts.find_table_name in Ht. apply String.eqb_eq in Ht.
    now symmetry. }
  pose proof Ht as Ht0. rewrite <- Hname in Ht0.
  destruct (RoundTripFacts.after_insert_serves s _ d tc cols params Hd Ht0)
    as (Hr' & Hco' & Hds' & Hd' & Ht' & _).
  rewrite Hname in Ht'. rewrite Hr in Hr'.
  do 3 eexists. split; [|split; [|split]].
  - unfold Comment_fetch_by_quote_id.
    change SQL.comments_of_quote
      with (SQL.where_ (Eq (Col None "quote_id") (Param 0))
              (SQL.columns (map SQL.col ["title"; "details"; "user_email"])
                 (SQL.from "comment" None))).
    rewrite (ServerFacts.sql_query_select _ _ _ _ _ d _ _ Hr Hd
               (MoreQueryFacts.select_where_eq _ _ d "comment" "quote_id"
                  ["title"; "details"; "user_email"] tc _ Ht
                  ltac:(cbn [forallb]; now rewrite Hq, Hi, Hde, Hu))).
    rewrite QueryFacts.with_draws_same. reflexivity.
  - unfold Comment_db_save, bind. fold cols. fold params.
    rewrite (InsertFacts.sql_execute_insert db "comment" cols params s out d
               tc Hr Hd Ht Hcols eq_refl).
    cbn [truthy_int Z.eqb negb]. unfold ret. reflexivity.
  - reflexivity.
  - unfold Comment_fetch_by_quote_id, closed.
    change SQL.comments_of_quote
      with (SQL.where_ (Eq (Col None "quote_id") (Param 0))
              (SQL.columns (map SQL.col ["title"; "details"; "user_email"])
                 (SQL.from "comment" None))).
    rewrite (ServerFacts.sql_query_select _ _ _ _ _ _ _ _ Hr' Hd'
               (MoreQueryFacts.select_where_eq _ _ _ "comment" "quote_id"
                  ["title"; "details"; "user_email"] _ _ Ht'
                  ltac:(cbn [forallb insert_into t_cols];
                        now rewrite Hq, Hi, Hde, Hu))).
    cbn [fst insert_into t_rows]. do 2 f_equal.
    rewrite Hco', filter_app, map_app. f_equal.
    assert (Fq : field "quote_id" (new_row tc cols params)
                 = VInt (quote_id c))
      by (rewrite InsertFacts.field_new_row, Hqk by assumption; reflexivity).
    assert (Fi : field "title" (new_row tc cols params) = VStr (title c))
      by (rewrite InsertFacts.field_new_row, Hik by assumption; reflexivity).
    assert (Fd : field "details" (new_row tc cols params)
                 = VStr (details c))
      by (rewrite InsertFacts.field_new_row, Hdk by assumption; reflexivity).
    assert (Fu : field "user_email" (new_row tc cols params)
                 = VStr (user_email c))
      by (rewrite InsertFacts.field_new_row, Huk by assumption; reflexivity).
    cbn [filter]. rewrite Fq. cbn [value_eqb]. rewrite Z.eqb_refl.
    cbn [map]. now rewrite Fi, Fd, Fu.
Qed.

Lemma comment_save_appends_witness :
  exists c' w,
    Comment_db_save
      {| id_comment := None; quote_id := 1; title := "T"; details := "D";
         user_email := "a@b.c" |} (db Sample.me) (Sample.at_ commented)
    = (Return (c', (Some 1%Z, Some 2%Z)), w)
    /\ fst (Comment_fetch_by_quote_id (db Sample.me) (VInt 1) w)
       = Return
           (Some [[("title", VStr "Agreed"); ("details", VStr "So true.");
                   ("user_email", VStr "reader@example.org")];
                  [("title", VStr "T"); ("details", VStr "D");
                   ("user_email", VStr "a@b.c")]]).
Proof.
  destruct (comment_save_appends (db Sample.me)
              {| id_comment := None; quote_id := 1; title := "T";
                 details := "D"; user_email := "a@b.c" |} commented [] _ _
              (conj eq_refl (ex_intro _ _ (conj eq_refl eq_refl)))
              (conj eq_refl (ex_intro _ _ (conj eq_refl eq_refl)))
              eq_refl eq_refl)
    as (c' & old & w & H0 & H1 & _ & H2).
  exists c', w. split; [exact H1|].
  cbn [quote_id title details user_email] in H0, H2. rewrite H2.
  assert (E : Comment_fetch_by_quote_id (db Sample.me) (VInt 1)
                {| srv := commented; stdout := [] |}
              = (Return
                   (Some [[("title", VStr "Agreed");
                           ("details", VStr "So true.");
                           ("user_email", VStr "reader@example.org")]]),
                 closed commented []))
    by reflexivity.
  pose proof (eq_trans (eq_sym E) H0) as I. injection I as <-. reflexivity.
Defined.

(** X24.  Save then fetch by id for authors.  On a server whose [author]
    table has the key [id_author] and hands out a key not yet in use,
    [db_save] of an author returns [(1, id)] and stores the key on the
    record, and [fetch_by_id] of that key then returns exactly one row: the
    name, the birth date, the three optional places ([None] where the record
    has none) and the description of the record. *)
Theorem author_save_then_fetch_by_id (db : MySQLDB) (a : Author) (s : mysqld)
  (out : list string) (ta : table) :
  has_table s (database db) "author" ta ->
  t_key ta = "id_author" ->
  forallb (fun n => mem n (t_cols ta))
    ["id_author"; "name"; "birth_date"; "birth_city"; "birth_state";
     "birth_country"; "description"] = true ->
  forallb
    (fun r =>
       negb (value_eqb (coll s) (field "id_author" r)
               (VInt (Zpos (t_auto ta))))) (t_rows ta) = true ->
  exists a' w,
    Author_db_save a db {| srv := s; stdout := out |}
    = (Return (a', (Some 1%Z, Some (Zpos (t_auto ta)))), w)
    /\ id_author a' = Some (Zpos (t_auto ta))
    /\ fst (Author_fetch_by_id db (VInt (Zpos (t_auto ta))) w)
       = Return
           (Some [[("name", VStr (name a));
                   ("birth_date", of_date (birth_date a));
                   ("birth_city", of_str (birth_city a));
                   ("birth_state", of_str (birth_state a));
                   ("birth_country", of_str (birth_country a));
                   ("description", VStr (description a))]]).
Proof.
  intros (Hr & d & Hd & Ht) Hk Hc Hfree.
  cbn [forallb] in Hc. rewrite !andb_true_iff in Hc.
  destruct Hc as (Hid & Hn & Hb & Hci & Hst & Hco & Hde & _).
  set (cols := ["name"; "birth_date"; "birth_city"; "birth_state";
                "birth_country"; "description"]).
  set (params := [VStr (name a); of_date (birth_date a);
                  of_str (birth_city a); of_str (birth_state a);
                  of_str (birth_country a); VStr (description a)]).
  assert (Hcols : forallb (fun n => mem n (t_cols ta)) cols = true).
  { unfold cols. cbn [forallb]. now rewrite Hn, Hb, Hci, Hst, Hco, Hde. }
  assert (Hname : t_name ta = "author").
  { apply InsertFacts.find_table_name in Ht. apply String.eqb_eq in Ht.
    now symmetry. }
  pose proof Ht as Ht0. rewrite <- Hname in Ht0.
  destruct (RoundTripFacts.after_insert_serves s _ d ta cols params Hd Ht0)
    as (Hr' & Hco' & Hds' & Hd' & Ht' & _).
  rewrite Hname in Ht'. rewrite Hr in Hr'.
  do 2 eexists. split; [|split].
  - unfold Author_db_save, bind. fold cols. fold params.
    rewrite (InsertFacts.sql_execute_insert db "author" cols params s out d
               ta Hr Hd Ht Hcols eq_refl).
    cbn [truthy_int Z.eqb negb]. unfold ret. reflexivity.
  - reflexivity.
  - unfold Author_fetch_by_id, closed.
    change SQL.author_columns
      with (SQL.columns (map SQL.col cols) (SQL.from "author" None)).
    rewrite (ServerFacts.sql_query_select _ _ _ _ _ _ _ _ Hr' Hd'
               (MoreQueryFacts.select_where_eq _ _ _ "author" "id_author"
                  cols _ _ Ht'
                  ltac:(cbn [forallb insert_into t_cols cols];
                        now rewrite Hid, Hn, Hb, Hci, Hst, Hco, Hde))).
    cbn [fst insert_into t_rows]. do 2 f_equal.
    rewrite Hco', filter_app.
    assert (Fk : field "id_author" (new_row ta cols params)
                 = VInt (Zpos (t_auto ta)))
      by (rewrite InsertFacts.field_new_row, Hk by assumption; reflexivity).
    assert (Fs : forall n,
               In n cols ->
               field n (new_row ta cols params)
               = field n (combine cols params)).
    { intros n Hin. rewrite InsertFacts.field_new_row, Hk.
      - unfold cols in Hin. cbn [In] in Hin.
        repeat destruct Hin as [<- | Hin]; try reflexivity. destruct Hin.
      - unfold cols in Hin. cbn [In] in Hin.
        repeat destruct Hin as [<- | Hin]; try assumption. destruct Hin. }
    replace (filter _ (t_rows ta)) with (@nil row).
    + cbn [filter app]. rewrite Fk. cbn [value_eqb]. rewrite Z.eqb_refl.
      cbn [map]. f_equal.
      transitivity (map (fun n => (n, field n (combine cols params))) cols);
        [|reflexivity].
      apply map_ext_in. intros n Hin. now rewrite (Fs n Hin).
    + symmetry. clear -Hfree.
      induction (t_rows ta) as [|r rs IH]; [reflexivity|].
      cbn [forallb] in Hfree. apply andb_true_iff in Hfree as [H1 H2].
      cbn [filter]. apply negb_true_iff in H1. rewrite H1. now apply IH.
Qed.

Lemma author_save_then_fetch_by_id_witness :
  exists a' w,
    Author_db_save
      {| id_author := None; name := "Jane Austen";
         birth_date := {| year := 1775; month := 12; day := 16 |};
         birth_city := Some "Steventon"; birth_state := None;
         birth_country := Some "England"; description := "Novelist" |}
      (db Sample.me) (Sample.at_ Sample.travels)
    = (Return (a', (Some 1%Z, Some 2%Z)), w)
    /\ fst (Author_fetch_by_id (db Sample.me) (VInt 2) w)
       = Return
           (Some [[("name", VStr "Jane Austen");
                   ("birth_date", VDate 1775 12 16);
                   ("birth_city", VStr "Steventon");
                   ("birth_state", VNone);
                   ("birth_country", VStr "England");
                   ("description", VStr "Novelist")]]).
Proof.
  destruct (author_save_then_fetch_by_id (db Sample.me)
              {| id_author := None; name := "Jane Austen";
                 birth_date := {| year := 1775; month := 12; day := 16 |};
                 birth_city := Some "Steventon"; birth_state := None;
                 birth_country := Some "England";
                 description := "Novelist" |} Sample.travels []
              _ (conj eq_refl (ex_intro _ _ (conj eq_refl eq_refl)))
              eq_refl eq_refl eq_refl)
    as (a' & w & H1 & _ & H2).
  exists a', w. split; [exact H1 | exact H2].
Defined.

(** X25.  [test_connection] answers what the connection says of itself:
    with any driver, when [connect] hands out a connection the call returns
    [conn.is_connected()] of it, and when [connect] raises one of the
    driver's errors the call returns [False]; in neither case does it
    raise. *)
Theorem test_connection_answers {D : Driver} (self : MySQLDB) (w : world) :
  (forall c s1,
      connect (connect_to self None false) (srv w) = (Return c, s1) ->
      fst (test_connection self w) = Return (PyBool (is_connected c s1)))
  /\ (forall msg s1,
         connect (connect_to self None false) (srv w)
         = (Raise (Error msg), s1) ->
         fst (test_connection self w) = Return (PyBool false)).
Proof.
  split.
  - intros c s1 H.
    unfold test_connection, method, try_finally, try_except_Error,
      test_connection_try, release_server, bind, drv, drv_, set_conn, print,
      ret.
    cbn -[append]. rewrite H. cbn -[append].
    destruct (is_connected c s1) eqn:E; cbn -[append]; rewrite ?E;
      reflexivity.
  - intros msg s1 H.
    now rewrite (StartupFacts.test_connection_error self w msg s1 H).
Qed.

Lemma test_connection_answers_witness :
  fst (test_connection (db Sample.me) (Sample.at_ Sample.travels))
  = Return (PyBool true)
  /\ fst (test_connection (db Sample.me) (Sample.at_ Sample.offline))
     = Return (PyBool false).
Proof.
  split.
  - exact (proj1 (test_connection_answers (db Sample.me)
                    (Sample.at_ Sample.travels)) _ _ eq_refl).
  - exact (proj2 (test_connection_answers (db Sample.me)
                    (Sample.at_ Sample.offline)) _ _ eq_refl).
Defined.
